(** * InvoiceFlow: the recurring-invoice engine of [app_v2 (1).py]

    A shallow embedding of the invoice-number allocator, the totals
    calculator, the recurrence clock, the status-update routes and the
    scheduler job [process_recurring_invoices], of the routes that create,
    list and delete invoices, of the customer portal, the settings and the
    validator of phone numbers, followed by the properties established for
    them.

    Conventions of the embedding.
    - Python [str] values are [string]s of bytes; the case and whitespace
      functions are the ASCII ones.
    - Python [int] is [Z]; Python [float] and the [db.Float] columns are
      binary64 primitive floats.
    - A naive [datetime] is the number of microseconds since
      0001-01-01T00:00:00, a [timedelta] a number of microseconds.
    - The database is a record of tables (lists of rows, in insertion
      order); a session that is abandoned by an exception before its
      [commit] leaves the tables as they were at the last commit.
    - A raised exception is a value of [exn] in the [result] monad. *)

From Stdlib Require Import ZArith List String Ascii Bool Lia Floats.
From Stdlib Require Import Permutation Sorted.
Import ListNotations.

Local Open Scope string_scope.
Local Open Scope Z_scope.

Set Implicit Arguments.

(* ===================================================================== *)
(** * Exceptions *)
(* ===================================================================== *)

Inductive exn : Type :=
| AttributeError
| ValueError
| OverflowError
| IntegrityError.

Inductive result (A : Type) : Type :=
| Ok (a : A)
| Raise (e : exn).

Arguments Ok {A} a.
Arguments Raise {A} e.

Definition bind {A B : Type} (r : result A) (k : A -> result B) : result B :=
  match r with
  | Ok a => k a
  | Raise e => Raise e
  end.

Notation "x <- c ;; k" := (bind c (fun x => k))
  (at level 61, c at next level, right associativity).

(* ===================================================================== *)
(** * Python strings *)
(* ===================================================================== *)

Module PyStr.

Definition code (c : ascii) : Z := Z.of_nat (nat_of_ascii c).

Definition chr (n : Z) : ascii := ascii_of_nat (Z.to_nat n).

(** [bool(s)]: a string is truthy when it is not empty. *)
Definition truthy (s : string) : bool :=
  match s with
  | EmptyString => false
  | String _ _ => true
  end.

(** [bool(x)] for a nullable text column. *)
Definition truthy_opt (o : option string) : bool :=
  match o with
  | Some s => truthy s
  | None => false
  end.

Definition is_lower (c : ascii) : bool := (97 <=? code c) && (code c <=? 122).
Definition is_upper (c : ascii) : bool := (65 <=? code c) && (code c <=? 90).
Definition is_digit (c : ascii) : bool := (48 <=? code c) && (code c <=? 57).

(** Whitespace as [str.strip] sees it on ASCII text. *)
Definition is_space (c : ascii) : bool :=
  ((9 <=? code c) && (code c <=? 13)) || ((28 <=? code c) && (code c <=? 32)).

(** Whitespace as [int] skips it around an ASCII literal. *)
Definition is_int_space (c : ascii) : bool :=
  ((9 <=? code c) && (code c <=? 13)) || (code c =? 32).

Definition upper_char (c : ascii) : ascii :=
  if is_lower c then chr (code c - 32) else c.

Definition lower_char (c : ascii) : ascii :=
  if is_upper c then chr (code c + 32) else c.

(** [s.upper()] *)
Fixpoint upper (s : string) : string :=
  match s with
  | EmptyString => EmptyString
  | String c s' => String (upper_char c) (upper s')
  end.

Fixpoint lstrip_by (space : ascii -> bool) (s : string) : string :=
  match s with
  | EmptyString => EmptyString
  | String c s' => if space c then lstrip_by space s' else s
  end.

Fixpoint rstrip_by (space : ascii -> bool) (s : string) : string :=
  match s with
  | EmptyString => EmptyString
  | String c s' =>
      let r := rstrip_by space s' in
      if space c && negb (truthy r) then EmptyString else String c r
  end.

Definition strip_by (space : ascii -> bool) (s : string) : string :=
  rstrip_by space (lstrip_by space s).

(** [s.strip()] *)
Definition strip (s : string) : string := strip_by is_space s.

(** [s.split('-')[-1]]: the text after the last hyphen, the whole string
    when there is none. *)
Fixpoint last_segment_from (acc s : string) : string :=
  match s with
  | EmptyString => acc
  | String c s' =>
      if Ascii.eqb c "-" then last_segment_from EmptyString s'
      else last_segment_from (acc ++ String c EmptyString) s'
  end.

Definition last_segment (s : string) : string := last_segment_from EmptyString s.

(** Where the scanner of [int] stands inside the digits. *)
Inductive scan : Type := AtStart | AfterDigit | AfterUnderscore.

(** The digits of a decimal literal: single underscores are allowed
    between digits only. *)
Fixpoint digits_value (st : scan) (acc : Z) (s : string) : option Z :=
  match s with
  | EmptyString =>
      match st with
      | AfterDigit => Some acc
      | _ => None
      end
  | String c s' =>
      if is_digit c then digits_value AfterDigit (10 * acc + (code c - 48)) s'
      else if Ascii.eqb c "_" then
        match st with
        | AfterDigit => digits_value AfterUnderscore acc s'
        | _ => None
        end
      else None
  end.

(** [int(s)]: surrounding whitespace, an optional sign, decimal digits;
    [None] stands for [ValueError]. *)
Definition py_int (s : string) : option Z :=
  match strip_by is_int_space s with
  | EmptyString => None
  | String c s' =>
      if Ascii.eqb c "+" then digits_value AtStart 0 s'
      else if Ascii.eqb c "-" then option_map Z.opp (digits_value AtStart 0 s')
      else digits_value AtStart 0 (String c s')
  end.

Definition digit_char (d : Z) : ascii := chr (48 + d).

Fixpoint decimal_from (fuel : nat) (n : Z) (acc : string) : string :=
  match fuel with
  | O => acc
  | S fuel' =>
      let acc' := String (digit_char (n mod 10)) acc in
      if n <? 10 then acc' else decimal_from fuel' (n / 10) acc'
  end.

(** [str(n)] for [0 <= n]: a number has at most [log2 n + 1] digits. *)
Definition decimal (n : Z) : string :=
  decimal_from (S (Z.to_nat (Z.log2 n))) n EmptyString.

Fixpoint zeros (k : nat) : string :=
  match k with
  | O => EmptyString
  | S k' => String "0" (zeros k')
  end.

(** Left padding with ["0"] up to [width] characters; longer text is
    left as it is. *)
Definition zfill (width : nat) (s : string) : string :=
  zeros (width - String.length s) ++ s.

(** [f'{n:0Wd}']: the sign counts in the width. *)
Definition format_0d (width : nat) (n : Z) : string :=
  if n <? 0 then String "-" (zfill (width - 1) (decimal (- n)))
  else zfill width (decimal n).

(** [f'{n:04d}'] *)
Definition format_04d (n : Z) : string := format_0d 4 n.

End PyStr.

(* ===================================================================== *)
(** * The SQL operators the queries use (SQLite) *)
(* ===================================================================== *)

Module Sql.

(** [LIKE] compares ASCII letters without case. *)
Definition char_ieq (a b : ascii) : bool :=
  Ascii.eqb (PyStr.lower_char a) (PyStr.lower_char b).

(** [s LIKE p]: [%] stands for any run of characters, [_] for any one
    character, there is no escape character. *)
Fixpoint like (p : string) : string -> bool :=
  match p with
  | EmptyString => fun s => negb (PyStr.truthy s)
  | String c p' =>
      if Ascii.eqb c "%" then
        fix any (s : string) : bool :=
          like p' s ||
          match s with
          | EmptyString => false
          | String _ s' => any s'
          end
      else if Ascii.eqb c "_" then
        fun s => match s with
                 | EmptyString => false
                 | String _ s' => like p' s'
                 end
      else
        fun s => match s with
                 | EmptyString => false
                 | String d s' => char_ieq c d && like p' s'
                 end
  end.

(** [ORDER BY key DESC] followed by [.first()]: a row whose key is
    greatest in the bytewise order of text, [None] on no row. *)
Section First.
Variable Row : Type.
Variable key : Row -> string.

Definition greater (a b : Row) : Row :=
  if String.leb (key a) (key b) then b else a.

Definition first_desc (rows : list Row) : option Row :=
  match rows with
  | [] => None
  | r :: rest => Some (fold_left greater rest r)
  end.
End First.

End Sql.

(* ===================================================================== *)
(** * datetime and timedelta *)
(* ===================================================================== *)

Module DateTime.

Definition datetime : Type := Z.
Definition timedelta : Type := Z.

Definition us_per_day : Z := 86400000000.

Definition days (n : Z) : timedelta := n * us_per_day.
Definition weeks (n : Z) : timedelta := n * 7 * us_per_day.

(** [datetime.min] and [datetime.max]: years 1 to 9999. *)
Definition dt_min : datetime := 0.
Definition dt_max : datetime := 3652059 * us_per_day - 1.

Definition in_range (t : Z) : bool := (dt_min <=? t) && (t <=? dt_max).

(** [t + d]: [OverflowError] outside the years 1 to 9999. *)
Definition add (t : datetime) (d : timedelta) : result datetime :=
  if in_range (t + d) then Ok (t + d) else Raise OverflowError.

(** [a - b] *)
Definition sub (a b : datetime) : timedelta := a - b.

(** The proleptic Gregorian ordinal of the day, 1 for 0001-01-01. *)
Definition toordinal (t : datetime) : Z := t / us_per_day + 1.

Definition days_before_month (leap : bool) (m : Z) : Z :=
  let b := nth (Z.to_nat m)
             [0; 0; 31; 59; 90; 120; 151; 181; 212; 243; 273; 304; 334] 0 in
  if leap && (2 <? m) then b + 1 else b.

Definition days_in_month (leap : bool) (m : Z) : Z :=
  let d := nth (Z.to_nat m) [0; 31; 28; 31; 30; 31; 30; 31; 31; 30; 31; 30; 31] 0 in
  if leap && (m =? 2) then d + 1 else d.

(** Year and month of an ordinal, by the 400/100/4/1-year cycles. *)
Definition year_month_of_ordinal (ord : Z) : Z * Z :=
  let n0 := ord - 1 in
  let n400 := n0 / 146097 in
  let n1 := n0 mod 146097 in
  let n100 := n1 / 36524 in
  let n2 := n1 mod 36524 in
  let n4 := n2 / 1461 in
  let n3 := n2 mod 1461 in
  let n1y := n3 / 365 in
  let n := n3 mod 365 in
  let year := n400 * 400 + 1 + n100 * 100 + n4 * 4 + n1y in
  if (n1y =? 4) || (n100 =? 4) then (year - 1, 12)
  else
    let leap := (n1y =? 3) && (negb (n4 =? 24) || (n100 =? 3)) in
    let month := (n + 50) / 32 in
    if n <? days_before_month leap month then (year, month - 1)
    else (year, month).

Definition year (t : datetime) : Z := fst (year_month_of_ordinal (toordinal t)).
Definition month (t : datetime) : Z := snd (year_month_of_ordinal (toordinal t)).

(** [t.strftime('%Y%m')] *)
Definition strftime_Ym (t : datetime) : string :=
  PyStr.zfill 4 (PyStr.decimal (year t)) ++ PyStr.zfill 2 (PyStr.decimal (month t)).

End DateTime.

(* ===================================================================== *)
(** * Models (the columns the engine reads or writes) *)
(* ===================================================================== *)

Import DateTime.

Module User.
Record t : Type := {
  id : Z;
  email : string;
  invoice_prefix : option string;
  role : string
}.

Definition is_admin (self : t) : bool := String.eqb (role self) "admin".
End User.

Module Client.
Record t : Type := {
  id : Z;
  name : string;
  email : option string;
  invoice_prefix : option string;
  user_id : Z
}.
End Client.

Module InvoiceItem.
Record t : Type := {
  id : Z;
  description : string;
  quantity : float;
  unit_price : float;
  amount : float;
  invoice_id : Z
}.

Definition calculate_amount (self : t) : t :=
  {| id := id self; description := description self; quantity := quantity self;
     unit_price := unit_price self;
     amount := (quantity self * unit_price self)%float;
     invoice_id := invoice_id self |}.
End InvoiceItem.

(** [sum(xs)] over floats: the additions run left to right from [0]
    (CPython from 3.12 on compensates the rounding of the partial sums). *)
Definition py_sum (xs : list float) : float := fold_left PrimFloat.add xs 0%float.

Module Invoice.
Record t : Type := {
  id : Z;
  invoice_number : string;
  date : datetime;
  due_date : datetime;
  status : string;
  total_amount : float;
  tax_rate : float;
  tax_amount : float;
  subtotal : float;
  notes : option string;
  terms : option string;
  title : option string;
  is_recurring : bool;
  frequency : option string;
  initial_send_date : option datetime;
  next_send_date : option datetime;
  user_id : Z;
  client_id : Z
}.

Definition set_totals (self : t) (sub tax total : float) : t :=
  {| id := id self; invoice_number := invoice_number self; date := date self;
     due_date := due_date self; status := status self;
     total_amount := total; tax_rate := tax_rate self; tax_amount := tax;
     subtotal := sub; notes := notes self; terms := terms self;
     title := title self; is_recurring := is_recurring self;
     frequency := frequency self; initial_send_date := initial_send_date self;
     next_send_date := next_send_date self; user_id := user_id self;
     client_id := client_id self |}.

Definition set_status (s : string) (self : t) : t :=
  {| id := id self; invoice_number := invoice_number self; date := date self;
     due_date := due_date self; status := s;
     total_amount := total_amount self; tax_rate := tax_rate self;
     tax_amount := tax_amount self; subtotal := subtotal self;
     notes := notes self; terms := terms self; title := title self;
     is_recurring := is_recurring self; frequency := frequency self;
     initial_send_date := initial_send_date self;
     next_send_date := next_send_date self; user_id := user_id self;
     client_id := client_id self |}.

Definition set_next_send_date (d : option datetime) (self : t) : t :=
  {| id := id self; invoice_number := invoice_number self; date := date self;
     due_date := due_date self; status := status self;
     total_amount := total_amount self; tax_rate := tax_rate self;
     tax_amount := tax_amount self; subtotal := subtotal self;
     notes := notes self; terms := terms self; title := title self;
     is_recurring := is_recurring self; frequency := frequency self;
     initial_send_date := initial_send_date self;
     next_send_date := d; user_id := user_id self;
     client_id := client_id self |}.

Definition set_invoice_number (n : string) (self : t) : t :=
  {| id := id self; invoice_number := n; date := date self;
     due_date := due_date self; status := status self;
     total_amount := total_amount self; tax_rate := tax_rate self;
     tax_amount := tax_amount self; subtotal := subtotal self;
     notes := notes self; terms := terms self; title := title self;
     is_recurring := is_recurring self; frequency := frequency self;
     initial_send_date := initial_send_date self;
     next_send_date := next_send_date self; user_id := user_id self;
     client_id := client_id self |}.

(** [calculate_totals]; [items] is the relationship [self.items]. *)
Definition calculate_totals (items : list InvoiceItem.t) (self : t) : t :=
  let sub := py_sum (map InvoiceItem.amount items) in
  let tax := (sub * (tax_rate self / 100))%float in
  let total := (sub + tax)%float in
  set_totals self sub tax total.

Definition is_completed (self : t) : bool :=
  String.eqb (status self) "paid" || String.eqb (status self) "cancelled".

(** [self.next_send_date or self.initial_send_date or self.date] *)
Definition base_date (self : t) : datetime :=
  match next_send_date self with
  | Some d => d
  | None =>
      match initial_send_date self with
      | Some d => d
      | None => date self
      end
  end.

Definition calculate_next_send_date (self : t) : result (option datetime) :=
  if negb (is_recurring self) || negb (PyStr.truthy_opt (frequency self)) then Ok None
  else
    let base := base_date self in
    if (match frequency self with Some f => String.eqb f "daily" | None => false end)
    then d <- DateTime.add base (days 1) ;; Ok (Some d)
    else if (match frequency self with Some f => String.eqb f "weekly" | None => false end)
    then d <- DateTime.add base (weeks 1) ;; Ok (Some d)
    else if (match frequency self with Some f => String.eqb f "monthly" | None => false end)
    then d <- DateTime.add base (days 30) ;; Ok (Some d)
    else Ok None.
End Invoice.

Module Notification.
Record t : Type := {
  user_id : Z;
  title : string;
  message : string
}.
End Notification.

Module AuditLog.
Record t : Type := {
  user_id : Z;
  action : string;
  entity_type : string;
  entity_id : Z;
  details : string
}.
End AuditLog.

(* ===================================================================== *)
(** * The database and the collaborators *)
(* ===================================================================== *)

Record Db : Type := {
  users : list User.t;
  clients : list Client.t;
  invoices : list Invoice.t;
  invoice_items : list InvoiceItem.t;
  notifications : list Notification.t;
  audit_logs : list AuditLog.t
}.

Definition with_invoices (db : Db) (l : list Invoice.t) : Db :=
  {| users := users db; clients := clients db; invoices := l;
     invoice_items := invoice_items db; notifications := notifications db;
     audit_logs := audit_logs db |}.

Definition with_invoice_items (db : Db) (l : list InvoiceItem.t) : Db :=
  {| users := users db; clients := clients db; invoices := invoices db;
     invoice_items := l; notifications := notifications db;
     audit_logs := audit_logs db |}.

Definition with_notifications (db : Db) (l : list Notification.t) : Db :=
  {| users := users db; clients := clients db; invoices := invoices db;
     invoice_items := invoice_items db; notifications := l;
     audit_logs := audit_logs db |}.

Definition with_audit_logs (db : Db) (l : list AuditLog.t) : Db :=
  {| users := users db; clients := clients db; invoices := invoices db;
     invoice_items := invoice_items db; notifications := notifications db;
     audit_logs := l |}.

(** What the application is given from outside: the mail settings, the
    outcome of building and handing a message to the SMTP server (every
    failure there is caught and reported as [False]), and the text of a
    float under [:.2f]. *)
Record Env : Type := {
  mail_configured : bool;
  smtp_delivers : string -> string -> bool;
  format_2f : float -> string
}.

(** An integer primary key gets the greatest key in use plus one. *)
Definition next_id (ids : list Z) : Z := 1 + fold_right Z.max 0 ids.

Definition next_invoice_id (db : Db) : Z := next_id (map Invoice.id (invoices db)).
Definition next_item_id (db : Db) : Z := next_id (map InvoiceItem.id (invoice_items db)).

(** The relationship [Invoice.items]. *)
Definition invoice_items_of (db : Db) (inv : Invoice.t) : list InvoiceItem.t :=
  filter (fun it => InvoiceItem.invoice_id it =? Invoice.id inv) (invoice_items db).

(** The backref [Invoice.client] of [Client.invoices]. *)
Definition invoice_client (db : Db) (inv : Invoice.t) : option Client.t :=
  find (fun c => Client.id c =? Invoice.client_id inv) (clients db).

(** [invoice.user]. The class [Invoice] declares its columns, among them
    [user_id], the relationship [items] and, through [Client.invoices], the
    backref [client]; neither it nor [User] declares a relationship named
    [user], so reading the attribute raises [AttributeError]. *)
Definition invoice_user (db : Db) (inv : Invoice.t) : result (option User.t) :=
  Raise AttributeError.

(** What a relationship [Invoice.user] over [user_id] would read. *)
Definition user_relationship (db : Db) (inv : Invoice.t) : result (option User.t) :=
  Ok (find (fun u => User.id u =? Invoice.user_id inv) (users db)).

(** [UPDATE invoices SET ... WHERE id = key] *)
Definition update_invoice (key : Z) (f : Invoice.t -> Invoice.t) (db : Db) : Db :=
  with_invoices db (map (fun i => if Invoice.id i =? key then f i else i) (invoices db)).

Definition number_taken (db : Db) (n : string) : bool :=
  existsb (fun i => String.eqb (Invoice.invoice_number i) n) (invoices db).

(** [db.session.add(invoice); db.session.flush()]: the row gets its key;
    the unique index on [invoice_number] rejects a number already there. *)
Definition insert_invoice (db : Db) (mk : Z -> Invoice.t) : result (Db * Invoice.t) :=
  let inv := mk (next_invoice_id db) in
  if number_taken db (Invoice.invoice_number inv) then Raise IntegrityError
  else Ok (with_invoices db (invoices db ++ [inv])%list, inv).

Definition insert_item (db : Db) (mk : Z -> InvoiceItem.t) : Db :=
  with_invoice_items db (invoice_items db ++ [mk (next_item_id db)])%list.

(* ===================================================================== *)
(** * Helper functions of the application *)
(* ===================================================================== *)

(** The first six lines of [generate_invoice_number]: which prefix the
    number gets. *)
Definition text_or_empty (o : option string) : string :=
  match o with
  | Some s => s
  | None => ""
  end.

(** [client and client.invoice_prefix] *)
Definition client_prefix (client : option Client.t) : option string :=
  match client with
  | Some c => Client.invoice_prefix c
  | None => None
  end.

(** [user and user.invoice_prefix] *)
Definition user_prefix (user : option User.t) : option string :=
  match user with
  | Some u => User.invoice_prefix u
  | None => None
  end.

Definition resolve_prefix (user : option User.t) (client : option Client.t)
    (prefix : string) : string :=
  if PyStr.truthy_opt (client_prefix client) then
    PyStr.upper (text_or_empty (client_prefix client))
  else if PyStr.truthy_opt (user_prefix user) then
    PyStr.upper (text_or_empty (user_prefix user))
  else PyStr.upper prefix.

(** [f'{prefix}-{year_month}-%'] *)
Definition scope_pattern (prefix year_month : string) : string :=
  prefix ++ "-" ++ year_month ++ "-%".

(** The rows of [Invoice.query.filter(Invoice.invoice_number.like(pattern))]. *)
Definition matching_invoices (db : Db) (pattern : string) : list Invoice.t :=
  filter (fun i => Sql.like pattern (Invoice.invoice_number i)) (invoices db).

(** [....order_by(Invoice.invoice_number.desc()).first()] *)
Definition last_invoice (db : Db) (pattern : string) : option Invoice.t :=
  Sql.first_desc Invoice.invoice_number (matching_invoices db pattern).

(** [generate_invoice_number(user, client, prefix)]; [today] is the reading
    of [datetime.now()]. *)
Definition generate_invoice_number (today : datetime) (db : Db)
    (user : option User.t) (client : option Client.t) (prefix : string)
    : result string :=
  let prefix := resolve_prefix user client prefix in
  let year_month := strftime_Ym today in
  let pattern := scope_pattern prefix year_month in
  new_num <-
    match last_invoice db pattern with
    | Some last =>
        match PyStr.py_int (PyStr.last_segment (Invoice.invoice_number last)) with
        | Some last_num => Ok (last_num + 1)
        | None => Raise ValueError
        end
    | None => Ok 1
    end ;;
  Ok (prefix ++ "-" ++ year_month ++ "-" ++ PyStr.format_04d new_num).

(** [send_email_direct(to, subject, html_body, attachment)] *)
Definition send_email_direct (env : Env) (to_address subject : string) : bool :=
  if negb (mail_configured env) then false
  else smtp_delivers env to_address subject.

(** [send_invoice_email(invoice)] *)
Definition send_invoice_email (env : Env) (db : Db) (invoice : Invoice.t) : bool :=
  if negb (mail_configured env) then false
  else
    match invoice_client db invoice with
    | None => false
    | Some client =>
        match Client.email client with
        | None => false
        | Some address =>
            if negb (PyStr.truthy address) then false
            else send_email_direct env address
                   ("Invoice " ++ Invoice.invoice_number invoice ++ " from InvoiceFlow")
        end
    end.

(** [create_notification(user_id, title, message, send_email)]: the row is
    committed; the optional e-mail changes nothing in the database. *)
Definition create_notification (db : Db) (user_id : Z) (title message : string)
    (send_email : bool) : Db :=
  with_notifications db
    (notifications db ++
     [{| Notification.user_id := user_id; Notification.title := title;
         Notification.message := message |}])%list.

(** [log_audit(action, entity_type, entity_id, details)] for the logged-in
    [current_user]. *)
Definition log_audit (db : Db) (current_user : User.t) (action entity_type : string)
    (entity_id : Z) (details : string) : Db :=
  with_audit_logs db
    (audit_logs db ++
     [{| AuditLog.user_id := User.id current_user; AuditLog.action := action;
         AuditLog.entity_type := entity_type; AuditLog.entity_id := entity_id;
         AuditLog.details := details |}])%list.

(* ===================================================================== *)
(** * Routes *)
(* ===================================================================== *)

(** A flashed message: category and text. *)
Definition flash : Type := (string * string)%type.

Inductive response : Type :=
| Redirect (endpoint : string) (flashes : list flash)
| NotFound.

(** [(request.form.get('invoice_prefix') or '').strip().upper()] *)
Definition form_invoice_prefix (field : option string) : string :=
  PyStr.upper (PyStr.strip (match field with
                            | Some s => if PyStr.truthy s then s else ""
                            | None => ""
                            end)).

(** The call of [create_invoice_page]:
    [generate_invoice_number(current_user, client, invoice_prefix or 'INV')]. *)
Definition create_invoice_page_number (today : datetime) (db : Db)
    (current_user : User.t) (client : Client.t) (field : option string)
    : result string :=
  let invoice_prefix := form_invoice_prefix field in
  generate_invoice_number today db (Some current_user) (Some client)
    (if PyStr.truthy invoice_prefix then invoice_prefix else "INV").

(** [@admin_required] *)
Definition admin_required (current_user : User.t) (db : Db)
    (view : Db * response) : Db * response :=
  if negb (User.is_admin current_user) then
    (db, Redirect "customer_invoices_page"
           [("error", "Admin access required. You have been redirected to your invoices.")])
  else view.

(** [Invoice.query.filter_by(id=invoice_id, user_id=current_user.id).first()] *)
Definition own_invoice (db : Db) (current_user : User.t) (invoice_id : Z)
    : option Invoice.t :=
  find (fun i => (Invoice.id i =? invoice_id) &&
                 (Invoice.user_id i =? User.id current_user)) (invoices db).

Definition valid_status (s : string) : bool :=
  existsb (String.eqb s) ["draft"; "sent"; "paid"; "overdue"; "cancelled"].

(** [s.capitalize()] *)
Fixpoint lower (s : string) : string :=
  match s with
  | EmptyString => EmptyString
  | String c s' => String (PyStr.lower_char c) (lower s')
  end.

Definition capitalize (s : string) : string :=
  match s with
  | EmptyString => EmptyString
  | String c s' => String (PyStr.upper_char c) (lower s')
  end.

(** [status_messages.get(new_status, new_status)] *)
Definition status_message (new_status : string) : string :=
  if String.eqb new_status "draft" then "moved to Draft"
  else if String.eqb new_status "paid" then "has been Paid ✓"
  else if String.eqb new_status "overdue" then "is now Overdue ⚠️"
  else if String.eqb new_status "cancelled" then "has been Cancelled"
  else new_status.

(** The body of [update_invoice_status(invoice_id)] with
    [request.form.get('status')] in [new_status]. *)
Definition update_invoice_status_view (env : Env) (db : Db) (current_user : User.t)
    (invoice_id : Z) (new_status : option string) : Db * response :=
  match own_invoice db current_user invoice_id with
  | None => (db, NotFound)
  | Some invoice =>
      match new_status with
      | None => (db, Redirect "invoice_detail_page" [])
      | Some new_status =>
          if valid_status new_status then
            let old_status := Invoice.status invoice in
            if String.eqb new_status "sent" then
              if send_invoice_email env db invoice then
                (update_invoice (Invoice.id invoice) (Invoice.set_status "sent") db,
                 Redirect "invoice_detail_page"
                   [("success", "Status updated to Sent and email delivered.")])
              else
                (db, Redirect "invoice_detail_page"
                       [("error", "Failed to send email. Invoice status NOT changed to Sent.")])
            else
              let db1 := update_invoice (Invoice.id invoice) (Invoice.set_status new_status) db in
              let db2 := create_notification db1 (User.id current_user)
                           ("Invoice Status Changed: " ++ capitalize new_status)
                           ("Invoice " ++ Invoice.invoice_number invoice ++ " " ++
                            status_message new_status) true in
              let db3 := log_audit db2 current_user "update" "invoice" (Invoice.id invoice)
                           ("Status changed from " ++ old_status ++ " to " ++ new_status) in
              (db3, Redirect "invoice_detail_page"
                      [("success", "Invoice status updated to " ++ new_status)])
          else (db, Redirect "invoice_detail_page" [])
      end
  end.

Definition update_invoice_status (env : Env) (db : Db) (current_user : User.t)
    (invoice_id : Z) (new_status : option string) : Db * response :=
  admin_required current_user db
    (update_invoice_status_view env db current_user invoice_id new_status).

(** [Invoice.query.join(Client).filter(Invoice.id == invoice_id,
    Client.email == current_user.email).first()] *)
Definition customer_invoice (db : Db) (current_user : User.t) (invoice_id : Z)
    : option Invoice.t :=
  find (fun i => (Invoice.id i =? invoice_id) &&
                 existsb (fun c => (Client.id c =? Invoice.client_id i) &&
                                   match Client.email c with
                                   | Some e => String.eqb e (User.email current_user)
                                   | None => false
                                   end) (clients db))
       (invoices db).

(** [customer_pay_invoice(invoice_id)] *)
Definition customer_pay_invoice (env : Env) (db : Db) (current_user : User.t)
    (invoice_id : Z) : result (Db * response) :=
  if User.is_admin current_user then
    Ok (db, Redirect "invoice_detail_page"
              [("info", "Please use the admin panel to update invoice status.")])
  else
    match customer_invoice db current_user invoice_id with
    | None => Ok (db, NotFound)
    | Some invoice =>
        if Invoice.is_completed invoice then
          Ok (db, Redirect "customer_invoices_page"
                    [("info", "Invoice " ++ Invoice.invoice_number invoice ++
                              " is already " ++ Invoice.status invoice ++ ".")])
        else
          let db1 := update_invoice (Invoice.id invoice) (Invoice.set_status "paid") db in
          let db2 := log_audit db1 current_user "update" "invoice" (Invoice.id invoice)
                       ("Customer marked invoice " ++ Invoice.invoice_number invoice ++
                        " as paid") in
          match invoice_client db2 invoice with
          | None => Raise AttributeError
          | Some client =>
              let client_name := Client.name client in
              let amount := format_2f env (Invoice.total_amount invoice) in
              let db3 := create_notification db2 (Invoice.user_id invoice)
                           "💰 Invoice Paid by Customer"
                           (client_name ++ " has marked invoice " ++
                            Invoice.invoice_number invoice ++ " as paid. Amount: $" ++ amount)
                           true in
              let db4 := create_notification db3 (User.id current_user)
                           "✅ Payment Confirmation"
                           ("Thank you, " ++ client_name ++ "! Your payment for invoice " ++
                            Invoice.invoice_number invoice ++ " in the amount of $" ++
                            amount ++ " has been confirmed.")
                           true in
              Ok (db4, Redirect "customer_invoices_page"
                         [("success", "Invoice " ++ Invoice.invoice_number invoice ++
                                      " marked as paid. Thank you!")])
          end
    end.

(** [update_invoice_number(invoice_id)] with
    [request.form.get('invoice_number', '')] in [field]. *)
Definition update_invoice_number (db : Db) (current_user : User.t)
    (invoice_id : Z) (field : option string) : Db * response :=
  admin_required current_user db
    match own_invoice db current_user invoice_id with
    | None => (db, NotFound)
    | Some invoice =>
        let new_number := PyStr.strip (text_or_empty field) in
        if negb (PyStr.truthy new_number) then
          (db, Redirect "invoice_detail_page" [("error", "Invoice number cannot be empty")])
        else if existsb (fun i => String.eqb (Invoice.invoice_number i) new_number &&
                                  negb (Invoice.id i =? invoice_id)) (invoices db) then
          (db, Redirect "invoice_detail_page"
                 [("error", "Invoice number " ++ String (PyStr.chr 34) new_number ++
                            String (PyStr.chr 34) " already exists")])
        else
          let old_number := Invoice.invoice_number invoice in
          let db1 := update_invoice (Invoice.id invoice)
                       (Invoice.set_invoice_number new_number) db in
          let db2 := log_audit db1 current_user "update" "invoice" (Invoice.id invoice)
                       ("Invoice number changed from " ++ old_number ++ " to " ++ new_number) in
          (db2, Redirect "invoice_detail_page"
                  [("success", "Invoice number updated to " ++ new_number)])
    end.

(* ===================================================================== *)
(** * The scheduler job *)
(* ===================================================================== *)

Section RecurringJob.

Variable env : Env.

(** How [template.user] evaluates. *)
Variable user_of : Db -> Invoice.t -> result (option User.t).

(** [now] is [datetime.utcnow()] at the start of the job, [today] the
    [datetime.now()] that [generate_invoice_number] reads. *)
Variables now today : datetime.

(** The filter of the query for due templates. *)
Definition is_due (i : Invoice.t) : bool :=
  Invoice.is_recurring i &&
  match Invoice.next_send_date i with
  | Some d => d <=? now
  | None => false
  end &&
  negb (String.eqb (Invoice.status i) "cancelled").

Definition recurring_templates (db : Db) : list Invoice.t :=
  filter is_due (invoices db).

(** [Invoice(invoice_number=new_number, date=now, ...)]; the columns left
    out take their defaults. *)
Definition child_invoice (template : Invoice.t) (new_number : string)
    (due : datetime) (key : Z) : Invoice.t :=
  {| Invoice.id := key;
     Invoice.invoice_number := new_number;
     Invoice.date := now;
     Invoice.due_date := due;
     Invoice.status := "draft";
     Invoice.total_amount := 0%float;
     Invoice.tax_rate := Invoice.tax_rate template;
     Invoice.tax_amount := 0%float;
     Invoice.subtotal := 0%float;
     Invoice.notes := Invoice.notes template;
     Invoice.terms := Invoice.terms template;
     Invoice.title := Invoice.title template;
     Invoice.is_recurring := false;
     Invoice.frequency := None;
     Invoice.initial_send_date := None;
     Invoice.next_send_date := None;
     Invoice.user_id := Invoice.user_id template;
     Invoice.client_id := Invoice.client_id template |}.

Definition copy_item (new_invoice_id : Z) (item : InvoiceItem.t) (key : Z)
    : InvoiceItem.t :=
  {| InvoiceItem.id := key;
     InvoiceItem.description := InvoiceItem.description item;
     InvoiceItem.quantity := InvoiceItem.quantity item;
     InvoiceItem.unit_price := InvoiceItem.unit_price item;
     InvoiceItem.amount := InvoiceItem.amount item;
     InvoiceItem.invoice_id := new_invoice_id |}.

Definition copy_items (new_invoice_id : Z) (items : list InvoiceItem.t) (db : Db) : Db :=
  fold_left (fun d item => insert_item d (copy_item new_invoice_id item)) items db.

(** Steps 1 to 4 of the loop body, up to the first [commit]: an exception
    on the way leaves nothing of them in the database. *)
Definition create_child (db : Db) (template : Invoice.t) : result (Db * Invoice.t) :=
  user <- user_of db template ;;
  new_number <- generate_invoice_number today db user (invoice_client db template) "INV" ;;
  due <- DateTime.add now (DateTime.sub (Invoice.due_date template) (Invoice.date template)) ;;
  ins <- insert_invoice db (child_invoice template new_number due) ;;
  let db1 := fst ins in
  let new_invoice := snd ins in
  let db2 := copy_items (Invoice.id new_invoice) (invoice_items_of db1 template) db1 in
  let totals := Invoice.calculate_totals (invoice_items_of db2 new_invoice) in
  let db3 := update_invoice (Invoice.id new_invoice) totals db2 in
  next <- Invoice.calculate_next_send_date template ;;
  let db4 := update_invoice (Invoice.id template) (Invoice.set_next_send_date next) db3 in
  Ok (db4, totals new_invoice).

(** Step 5: the e-mail, the status and the notification. *)
Definition deliver_child (db : Db) (template new_invoice : Invoice.t)
    : Db * option exn :=
  if send_invoice_email env db new_invoice then
    let db1 := update_invoice (Invoice.id new_invoice) (Invoice.set_status "sent") db in
    match invoice_client db1 template with
    | None => (db1, Some AttributeError)
    | Some client =>
        (create_notification db1 (Invoice.user_id template) "Recurring Invoice Sent"
           ("Automated invoice " ++ Invoice.invoice_number new_invoice ++
            " successfully sent to " ++ Client.name client) false, None)
    end
  else
    (create_notification db (Invoice.user_id template) "Recurring Email Failed"
       ("Generated invoice " ++ Invoice.invoice_number new_invoice ++
        " but email failed. Status is Draft.") false, None).

(** One pass of the loop body: the committed database and the exception
    that left the body, if any. *)
Definition process_template (db : Db) (template : Invoice.t) : Db * option exn :=
  match create_child db template with
  | Raise e => (db, Some e)
  | Ok (db1, new_invoice) => deliver_child db1 template new_invoice
  end.

(** [for template in recurring_templates: ...]: nothing catches an
    exception of the body. *)
Fixpoint run_templates (templates : list Invoice.t) (db : Db) : Db * option exn :=
  match templates with
  | [] => (db, None)
  | template :: rest =>
      match process_template db template with
      | (db1, None) => run_templates rest db1
      | (db1, Some e) => (db1, Some e)
      end
  end.

Definition recurring_job (db : Db) : Db * option exn :=
  run_templates (recurring_templates db) db.

End RecurringJob.

(** [process_recurring_invoices()] *)
Definition process_recurring_invoices (env : Env) (now today : datetime) (db : Db)
    : Db * option exn :=
  recurring_job env invoice_user now today db.

(** The job as it would run with a relationship [Invoice.user]. *)
Definition process_recurring_invoices_with_user (env : Env) (now today : datetime)
    (db : Db) : Db * option exn :=
  recurring_job env user_relationship now today db.

(* ===================================================================== *)
(** * Vocabulary of the statements *)
(* ===================================================================== *)

(** A pattern without the wildcards of [LIKE]. *)
Fixpoint wildcard_free (p : string) : bool :=
  match p with
  | EmptyString => true
  | String c p' => negb (Ascii.eqb c "%") && negb (Ascii.eqb c "_") && wildcard_free p'
  end.

(** [s] starts with [p], ASCII letters compared without case. *)
Fixpoint starts_with_nocase (p s : string) : bool :=
  match p, s with
  | EmptyString, _ => true
  | String _ _, EmptyString => false
  | String c p', String d s' => Sql.char_ieq c d && starts_with_nocase p' s'
  end.


(** Only decimal digits in [s]. *)
Fixpoint all_digits (s : string) : bool :=
  match s with
  | EmptyString => true
  | String c s' => PyStr.is_digit c && all_digits s'
  end.



(** What the job may do to a row that was there: nothing, or, for a key
    below [bound], a new [next_send_date]. *)
Definition row_evolves (bound : Z) (old new : Invoice.t) : Prop :=
  new = old \/
  (Invoice.id old < bound /\ exists d, new = Invoice.set_next_send_date d old).

(** What the generator writes into a child. *)
Definition child_of (now : DateTime.datetime) (template child : Invoice.t) : Prop :=
  Invoice.date child = now /\
  DateTime.add now (DateTime.sub (Invoice.due_date template) (Invoice.date template)) =
    Ok (Invoice.due_date child) /\
  Invoice.tax_rate child = Invoice.tax_rate template /\
  Invoice.notes child = Invoice.notes template /\
  Invoice.terms child = Invoice.terms template /\
  Invoice.title child = Invoice.title template /\
  Invoice.user_id child = Invoice.user_id template /\
  Invoice.client_id child = Invoice.client_id template /\
  Invoice.is_recurring child = false /\
  Invoice.frequency child = None /\
  Invoice.initial_send_date child = None /\
  Invoice.next_send_date child = None.

(** The child after the delivery step. *)
Definition delivered_child (delivered : bool) (child : Invoice.t) : Invoice.t :=
  if delivered then Invoice.set_status "sent" child else child.

(** The title of the notification of the delivery step. *)
Definition outcome_title (delivered : bool) : string :=
  if delivered then "Recurring Invoice Sent" else "Recurring Email Failed".

(** A child as the job leaves it. *)
Definition generated (now : DateTime.datetime) (template child : Invoice.t) : Prop :=
  child_of now template child /\
  (Invoice.status child = "draft" \/ Invoice.status child = "sent").

(** An invoice that carries no recurrence. *)
Definition closed (c : Invoice.t) : Prop :=
  Invoice.is_recurring c = false /\ Invoice.frequency c = None /\
  Invoice.initial_send_date c = None /\ Invoice.next_send_date c = None.

(* ===================================================================== *)
(** * Sample data *)
(* ===================================================================== *)

(** 2024-01-01T00:00:00 *)
Definition jan_2024 : DateTime.datetime := 63839664000000000.

Definition sample_invoice (key : Z) (number : string) : Invoice.t :=
  {| Invoice.id := key; Invoice.invoice_number := number;
     Invoice.date := jan_2024; Invoice.due_date := jan_2024 + DateTime.days 14;
     Invoice.status := "draft"; Invoice.total_amount := 0%float;
     Invoice.tax_rate := 0%float; Invoice.tax_amount := 0%float;
     Invoice.subtotal := 0%float; Invoice.notes := None; Invoice.terms := None;
     Invoice.title := None; Invoice.is_recurring := false; Invoice.frequency := None;
     Invoice.initial_send_date := None; Invoice.next_send_date := None;
     Invoice.user_id := 1; Invoice.client_id := 1 |}.

Definition empty_db : Db :=
  {| users := []; clients := []; invoices := []; invoice_items := [];
     notifications := []; audit_logs := [] |}.

Definition db_0042 : Db := with_invoices empty_db [sample_invoice 1 "INV-202401-0042"].
Definition db_9999 : Db := with_invoices empty_db [sample_invoice 1 "INV-202401-9999"].
Definition db_10000 : Db :=
  with_invoices empty_db [sample_invoice 1 "INV-202401-9999"; sample_invoice 2 "INV-202401-10000"].

Definition user_usr : User.t :=
  {| User.id := 1; User.email := "owner@example.com";
     User.invoice_prefix := Some "usr"; User.role := "admin" |}.


Definition sample_template (key : Z) (number : string) (freq : option string)
    (next : option DateTime.datetime) : Invoice.t :=
  {| Invoice.id := key; Invoice.invoice_number := number;
     Invoice.date := jan_2024 - DateTime.days 31;
     Invoice.due_date := jan_2024 - DateTime.days 17;
     Invoice.status := "sent"; Invoice.total_amount := 108%float;
     Invoice.tax_rate := 8%float; Invoice.tax_amount := 8%float;
     Invoice.subtotal := 100%float; Invoice.notes := Some "Thank you";
     Invoice.terms := Some "Net 14"; Invoice.title := Some "Hosting";
     Invoice.is_recurring := true; Invoice.frequency := freq;
     Invoice.initial_send_date := Some (jan_2024 - DateTime.days 31);
     Invoice.next_send_date := next;
     Invoice.user_id := 1; Invoice.client_id := 1 |}.

Definition item_of_amount (key invoice_id : Z) (qty price : float) : InvoiceItem.t :=
  InvoiceItem.calculate_amount
    {| InvoiceItem.id := key; InvoiceItem.description := "Service";
       InvoiceItem.quantity := qty; InvoiceItem.unit_price := price;
       InvoiceItem.amount := 0%float; InvoiceItem.invoice_id := invoice_id |}.

Definition invoice_with_tax (rate : float) : Invoice.t :=
  Invoice.set_totals
    {| Invoice.id := 1; Invoice.invoice_number := "INV-202401-0001";
       Invoice.date := jan_2024; Invoice.due_date := jan_2024 + DateTime.days 14;
       Invoice.status := "draft"; Invoice.total_amount := 0%float;
       Invoice.tax_rate := rate; Invoice.tax_amount := 0%float;
       Invoice.subtotal := 0%float; Invoice.notes := None; Invoice.terms := None;
       Invoice.title := None; Invoice.is_recurring := false; Invoice.frequency := None;
       Invoice.initial_send_date := None; Invoice.next_send_date := None;
       Invoice.user_id := 1; Invoice.client_id := 1 |} 0%float 0%float 0%float.

(** 2024-01-02T00:00:00 *)
Definition jan_2 : DateTime.datetime := 63839750400000000.

Definition env_mail_down : Env :=
  {| mail_configured := false; smtp_delivers := fun _ _ => true;
     format_2f := fun _ => "108.00" |}.
Definition env_mail_ok : Env :=
  {| mail_configured := true; smtp_delivers := fun _ _ => true;
     format_2f := fun _ => "108.00" |}.
Definition env_mail_refused : Env :=
  {| mail_configured := true; smtp_delivers := fun _ _ => false;
     format_2f := fun _ => "108.00" |}.

Definition admin : User.t :=
  {| User.id := 1; User.email := "admin@example.com";
     User.invoice_prefix := Some "INV"; User.role := "admin" |}.
Definition customer : User.t :=
  {| User.id := 2; User.email := "billing@acme.example";
     User.invoice_prefix := Some "INV"; User.role := "customer" |}.
Definition client_plain : Client.t :=
  {| Client.id := 1; Client.name := "Acme"; Client.email := Some "billing@acme.example";
     Client.invoice_prefix := None; Client.user_id := 1 |}.

Definition monthly_template : Invoice.t :=
  sample_template 1 "INV-202312-0001" (Some "monthly") (Some jan_2024).

Definition scenario_db : Db :=
  {| users := [admin]; clients := [client_plain]; invoices := [monthly_template];
     invoice_items := [item_of_amount 1 1 2 50]; notifications := []; audit_logs := [] |}.

Definition scenario_child : Invoice.t :=
  {| Invoice.id := 2; Invoice.invoice_number := "INV-202401-0001";
     Invoice.date := jan_2; Invoice.due_date := jan_2 + DateTime.days 14;
     Invoice.status := "draft"; Invoice.total_amount := 108%float;
     Invoice.tax_rate := 8%float; Invoice.tax_amount := 8%float;
     Invoice.subtotal := 100%float; Invoice.notes := Some "Thank you";
     Invoice.terms := Some "Net 14"; Invoice.title := Some "Hosting";
     Invoice.is_recurring := false; Invoice.frequency := None;
     Invoice.initial_send_date := None; Invoice.next_send_date := None;
     Invoice.user_id := 1; Invoice.client_id := 1 |}.

Definition scenario_db_created : Db :=
  {| users := [admin]; clients := [client_plain];
     invoices := [Invoice.set_next_send_date (Some (jan_2024 + DateTime.days 30))
                    monthly_template; scenario_child];
     invoice_items := [item_of_amount 1 1 2 50; item_of_amount 2 2 2 50];
     notifications := []; audit_logs := [] |}.

(** A template whose due date is the last datetime: its offset from the
    invoice date cannot be added to a later [now]. *)
Definition malformed_template : Invoice.t :=
  {| Invoice.id := 1; Invoice.invoice_number := "INV-202312-0001";
     Invoice.date := jan_2024 - DateTime.days 31; Invoice.due_date := DateTime.dt_max;
     Invoice.status := "sent"; Invoice.total_amount := 0%float;
     Invoice.tax_rate := 0%float; Invoice.tax_amount := 0%float;
     Invoice.subtotal := 0%float; Invoice.notes := None; Invoice.terms := None;
     Invoice.title := None; Invoice.is_recurring := true;
     Invoice.frequency := Some "monthly";
     Invoice.initial_send_date := Some (jan_2024 - DateTime.days 31);
     Invoice.next_send_date := Some jan_2024;
     Invoice.user_id := 1; Invoice.client_id := 1 |}.

Definition good_template : Invoice.t :=
  sample_template 2 "INV-202312-0002" (Some "monthly") (Some jan_2024).

Definition db_two_templates : Db :=
  {| users := [admin]; clients := [client_plain];
     invoices := [malformed_template; good_template];
     invoice_items := [item_of_amount 1 2 2 50]; notifications := []; audit_logs := [] |}.

Definition db_good_template : Db :=
  {| users := [admin]; clients := [client_plain]; invoices := [good_template];
     invoice_items := [item_of_amount 1 2 2 50]; notifications := []; audit_logs := [] |}.

Definition db_one_draft : Db :=
  {| users := [admin; customer]; clients := [client_plain];
     invoices := [sample_invoice 1 "INV-202401-0001"];
     invoice_items := []; notifications := []; audit_logs := [] |}.

Definition db_one_overdue : Db :=
  with_invoices db_one_draft [Invoice.set_status "overdue" (sample_invoice 1 "INV-202401-0001")].

Definition db_one_paid : Db :=
  with_invoices db_one_draft [Invoice.set_status "paid" (sample_invoice 1 "INV-202401-0001")].

(* ===================================================================== *)
(** * The validator of phone numbers *)
(* ===================================================================== *)

(** A character class of a regular expression. *)
Definition char_class : Type := ascii -> bool.

(** [[...]]: one of the listed characters. *)
Definition one_of (chars : string) : char_class :=
  fun c => existsb (Ascii.eqb c) (list_ascii_of_string chars).

(** [re.sub(r'[^0-9+]', '', s)] *)
Fixpoint re_sub_non_phone (s : string) : string :=
  match s with
  | EmptyString => EmptyString
  | String c s' =>
      if PyStr.is_digit c || Ascii.eqb c "+" then String c (re_sub_non_phone s')
      else re_sub_non_phone s'
  end.

(** The classes of a pattern consume one character each; what is left of
    the text is returned. *)
Fixpoint match_classes (p : list char_class) (s : string) : option string :=
  match p with
  | [] => Some s
  | cl :: p' =>
      match s with
      | EmptyString => None
      | String c s' => if cl c then match_classes p' s' else None
      end
  end.

(** [re.match] of a pattern [^c1...cn$]: [$] holds at the end of the text
    and before a newline that ends it. *)
Definition re_match (p : list char_class) (s : string) : bool :=
  match match_classes p s with
  | Some rest => String.eqb rest "" || String.eqb rest (String (PyStr.chr 10) "")
  | None => false
  end.

(** [r'^[89]\d{7}$', r'^6\d{7}$', r'^\+65[689]\d{7}$'] *)
Definition phone_patterns : list (list char_class) :=
  [ one_of "89" :: repeat PyStr.is_digit 7;
    one_of "6" :: repeat PyStr.is_digit 7;
    one_of "+" :: one_of "6" :: one_of "5" :: one_of "689" :: repeat PyStr.is_digit 7 ].

Inductive validation : Type :=
| Passed
| ValidationError (message : string).

(** [validate_singapore_phone(form, field)] with [field.data] in [data]. *)
Definition validate_singapore_phone (data : option string) : validation :=
  if PyStr.truthy_opt data then
    let phone := re_sub_non_phone (text_or_empty data) in
    if negb (existsb (fun pattern => re_match pattern phone) phone_patterns) then
      ValidationError
        "Please enter a valid Singapore phone number (e.g., 91234567 or +6591234567)"
    else Passed
  else Passed.

(* ===================================================================== *)
(** * Further routes *)
(* ===================================================================== *)

(** A view is a function of the database, the logged-in user and the
    arguments of the request. A view that writes returns the database it
    leaves; a view that shows a page returns the template and the variables
    it is rendered with. The column [status] is never [NULL]: every
    insertion sets it. *)

Definition with_users (db : Db) (l : list User.t) : Db :=
  {| users := l; clients := clients db; invoices := invoices db;
     invoice_items := invoice_items db; notifications := notifications db;
     audit_logs := audit_logs db |}.

Definition with_clients (db : Db) (l : list Client.t) : Db :=
  {| users := users db; clients := l; invoices := invoices db;
     invoice_items := invoice_items db; notifications := notifications db;
     audit_logs := audit_logs db |}.

(** The answer of a view that shows a page: the template with its
    variables, a redirect, or the 404 of [first_or_404]. *)
Inductive page (Context : Type) : Type :=
| Render (template : string) (context : Context)
| Goto (endpoint : string) (flashes : list flash)
| Abort404.

Arguments Render {Context} template context.
Arguments Goto {Context} endpoint flashes.
Arguments Abort404 {Context}.

(** [@admin_required] on a view that shows a page. *)
Definition admin_required_page {Context : Type} (current_user : User.t)
    (view : page Context) : page Context :=
  if negb (User.is_admin current_user) then
    Goto "customer_invoices_page"
      [("error", "Admin access required. You have been redirected to your invoices.")]
  else view.

(** [ORDER BY key DESC] on an integer or datetime column. SQL leaves the
    order of rows with the same key open; here they stay in the order of
    the table. *)
Section OrderBy.
Variable Row : Type.
Variable key : Row -> Z.

Fixpoint insert_desc (x : Row) (l : list Row) : list Row :=
  match l with
  | [] => [x]
  | y :: l' => if key y <=? key x then x :: l else y :: insert_desc x l'
  end.

Definition order_by_desc (l : list Row) : list Row := fold_right insert_desc [] l.
End OrderBy.

(** [request.args.get(name, default)] *)
Definition args_get (arg : option string) (default : string) : string :=
  match arg with
  | Some s => s
  | None => default
  end.

(** [request.args.get(name, type=int)]: [None] when the argument is missing
    or [int] refuses it. *)
Definition args_get_int (arg : option string) : option Z :=
  match arg with
  | Some s => PyStr.py_int s
  | None => None
  end.

(** [Invoice.status.in_(l)] *)
Definition status_in (l : list string) (i : Invoice.t) : bool :=
  existsb (String.eqb (Invoice.status i)) l.

(** [if client_filter: query = query.filter_by(client_id=client_filter)] *)
Definition filter_by_client (client_filter : option Z) (query : list Invoice.t)
    : list Invoice.t :=
  match client_filter with
  | Some n => if n =? 0 then query else filter (fun i => Invoice.client_id i =? n) query
  | None => query
  end.

(** [Invoice.query.filter_by(user_id=current_user.id)] *)
Definition invoices_of_user (db : Db) (current_user : User.t) : list Invoice.t :=
  filter (fun i => Invoice.user_id i =? User.id current_user) (invoices db).

(** [Client.query.filter_by(user_id=current_user.id)] *)
Definition clients_of_user (db : Db) (current_user : User.t) : list Client.t :=
  filter (fun c => Client.user_id c =? User.id current_user) (clients db).

(** The variables of [view_invoices.html] and [completed_invoices.html]. *)
Module InvoiceList.
Record t : Type := {
  invoices : list Invoice.t;
  clients : list Client.t;
  status_filter : string;
  client_filter : option Z
}.
End InvoiceList.

(** [invoices_page()] with [request.args] in [status] and [client_id]. *)
Definition invoices_page (db : Db) (current_user : User.t)
    (status client_id : option string) : page InvoiceList.t :=
  admin_required_page current_user
    (let status_filter := args_get status "all" in
     let client_filter := args_get_int client_id in
     let query :=
       filter (fun i => negb (status_in ["paid"; "cancelled"] i))
              (invoices_of_user db current_user) in
     let query :=
       if negb (String.eqb status_filter "all")
       then filter (fun i => String.eqb (Invoice.status i) status_filter) query
       else query in
     let query := filter_by_client client_filter query in
     Render "view_invoices.html"
       {| InvoiceList.invoices := order_by_desc Invoice.date query;
          InvoiceList.clients := clients_of_user db current_user;
          InvoiceList.status_filter := status_filter;
          InvoiceList.client_filter := client_filter |}).

(** [completed_invoices_page()] *)
Definition completed_invoices_page (db : Db) (current_user : User.t)
    (status client_id : option string) : page InvoiceList.t :=
  admin_required_page current_user
    (let status_filter := args_get status "all" in
     let client_filter := args_get_int client_id in
     let query := invoices_of_user db current_user in
     let query :=
       if String.eqb status_filter "all"
       then filter (status_in ["paid"; "cancelled"]) query
       else filter (fun i => String.eqb (Invoice.status i) status_filter) query in
     let query := filter_by_client client_filter query in
     Render "completed_invoices.html"
       {| InvoiceList.invoices := order_by_desc Invoice.date query;
          InvoiceList.clients := clients_of_user db current_user;
          InvoiceList.status_filter := status_filter;
          InvoiceList.client_filter := client_filter |}).

(** The variables of [index.html]. *)
Module Dashboard.
Record t : Type := {
  total_invoices : Z;
  draft_count : Z;
  sent_count : Z;
  paid_count : Z;
  recent_invoices : list Invoice.t;
  recent_clients : list Client.t
}.
End Dashboard.

(** [Invoice.query.filter_by(user_id=current_user.id, status=s).count()] *)
Definition count_status (db : Db) (current_user : User.t) (s : string) : Z :=
  Z.of_nat (List.length (filter (fun i => String.eqb (Invoice.status i) s)
                                (invoices_of_user db current_user))).

(** [dashboard()] *)
Definition dashboard (db : Db) (current_user : User.t) : page Dashboard.t :=
  if negb (User.is_admin current_user) then Goto "customer_invoices_page" []
  else
    Render "index.html"
      {| Dashboard.total_invoices :=
           Z.of_nat (List.length (invoices_of_user db current_user));
         Dashboard.draft_count := count_status db current_user "draft";
         Dashboard.sent_count := count_status db current_user "sent";
         Dashboard.paid_count := count_status db current_user "paid";
         Dashboard.recent_invoices :=
           firstn 5 (order_by_desc Invoice.date (invoices_of_user db current_user));
         Dashboard.recent_clients :=
           firstn 5 (order_by_desc Client.id (clients_of_user db current_user)) |}.

(** [Invoice.query.join(Client).filter(Client.email == current_user.email)]:
    the invoices whose client row carries the e-mail of the user (a client
    key names one row). *)
Definition addressed_to (db : Db) (current_user : User.t) (i : Invoice.t) : bool :=
  existsb (fun c => (Client.id c =? Invoice.client_id i) &&
                    match Client.email c with
                    | Some e => String.eqb e (User.email current_user)
                    | None => false
                    end) (clients db).



(** The variables of [customer_invoices.html]. *)
Module CustomerInvoices.
Record t : Type := {
  invoices : list Invoice.t;
  all_invoices_count : Z;
  status_filter : string;
  total_due : float
}.
End CustomerInvoices.


(** The variables of [customer_all_invoices.html]. *)
Module CustomerAllInvoices.
Record t : Type := {
  invoices : list Invoice.t;
  status_filter : string;
  total_due : float;
  total_paid : float;
  total_overdue : float
}.
End CustomerAllInvoices.


(** [invoice_detail_page(invoice_id)]; [download_invoice_pdf] finds its
    invoice by the same two queries. *)
Definition invoice_detail_page (db : Db) (current_user : User.t) (invoice_id : Z)
    : page Invoice.t :=
  match (if User.is_admin current_user then own_invoice db current_user invoice_id
         else customer_invoice db current_user invoice_id) with
  | Some invoice => Render "invoice_detail.html" invoice
  | None => Abort404
  end.

(** [customer_invoice_detail_page(invoice_id)] *)
Definition customer_invoice_detail_page (db : Db) (current_user : User.t)
    (invoice_id : Z) : page Invoice.t :=
  if User.is_admin current_user then Goto "invoice_detail_page" []
  else
    match customer_invoice db current_user invoice_id with
    | Some invoice => Render "customer_invoice_detail.html" invoice
    | None => Abort404
    end.

(** [db.session.delete(invoice)]: the row goes by its key and, through
    [cascade='all, delete-orphan'] on [Invoice.items], its items with it. *)
Definition delete_invoice_row (invoice : Invoice.t) (db : Db) : Db :=
  with_invoice_items
    (with_invoices db
       (filter (fun i => negb (Invoice.id i =? Invoice.id invoice)) (invoices db)))
    (filter (fun it => negb (InvoiceItem.invoice_id it =? Invoice.id invoice))
            (invoice_items db)).

(** [delete_invoice(invoice_id)] *)
Definition delete_invoice (db : Db) (current_user : User.t) (invoice_id : Z)
    : Db * response :=
  admin_required current_user db
    match own_invoice db current_user invoice_id with
    | None => (db, NotFound)
    | Some invoice =>
        let invoice_number := Invoice.invoice_number invoice in
        let db1 := delete_invoice_row invoice db in
        let db2 := log_audit db1 current_user "delete" "invoice" invoice_id
                     ("Deleted invoice " ++ invoice_number) in
        (db2, Redirect "invoices_page"
                [("success", "Invoice " ++ invoice_number ++ " deleted successfully")])
    end.

(** [Client.query.filter_by(id=client_id, user_id=current_user.id).first()] *)
Definition own_client (db : Db) (current_user : User.t) (client_id : Z)
    : option Client.t :=
  find (fun c => (Client.id c =? client_id) &&
                 (Client.user_id c =? User.id current_user)) (clients db).

(** The relationship [Client.invoices]. *)
Definition client_invoices (db : Db) (client : Client.t) : list Invoice.t :=
  filter (fun i => Invoice.client_id i =? Client.id client) (invoices db).

(** [delete_client(client_id)] *)
Definition delete_client (db : Db) (current_user : User.t) (client_id : Z)
    : Db * response :=
  admin_required current_user db
    match own_client db current_user client_id with
    | None => (db, NotFound)
    | Some client =>
        match client_invoices db client with
        | _ :: _ =>
            (db, Redirect "clients_page"
                   [("error", "Cannot delete " ++ Client.name client ++
                              " - client has existing invoices")])
        | [] =>
            let client_name := Client.name client in
            let db1 := with_clients db
                         (filter (fun c => negb (Client.id c =? Client.id client))
                                 (clients db)) in
            let db2 := log_audit db1 current_user "delete" "client" client_id
                         ("Deleted client " ++ client_name) in
            (db2, Redirect "clients_page"
                    [("success", "Client " ++ client_name ++ " deleted successfully")])
        end
    end.

(** The two columns of [User] that [update_settings] writes among those
    of the model. *)
Definition set_email_and_prefix (email : string) (prefix : option string) (u : User.t)
    : User.t :=
  {| User.id := User.id u; User.email := email; User.invoice_prefix := prefix;
     User.role := User.role u |}.

(** [update_settings()] with [request.form.get('email')] and
    [request.form.get('invoice_prefix')] in [email] and [invoice_prefix].
    The [UPDATE] writes the e-mail only when it differs from the one of the
    row, and then the query before it found no row with the new one: the
    unique index on [email] cannot refuse the [commit]. *)
Definition update_settings (db : Db) (current_user : User.t)
    (email invoice_prefix : option string) : Db * response :=
  let new_email := args_get email (User.email current_user) in
  if negb (String.eqb new_email (User.email current_user)) &&
     existsb (fun u => String.eqb (User.email u) new_email) (users db)
  then
    (db, Redirect "settings_page"
           [("error", "This email address is already registered to another account. Please use a different email.")])
  else
    let new_prefix := match invoice_prefix with
                      | Some p => Some p
                      | None => User.invoice_prefix current_user
                      end in
    (with_users db
       (map (fun u => if User.id u =? User.id current_user
                      then set_email_and_prefix new_email new_prefix u else u)
            (users db)),
     Redirect "settings_page" [("success", "Settings updated successfully")]).

(* ===================================================================== *)
(** * Creating an invoice *)
(* ===================================================================== *)

(** What [except Exception] catches in [create_invoice_page]: an exception
    of Python, or the [NotFound] that [first_or_404] raises. *)
Inductive caught : Type :=
| PyExn (e : exn)
| HttpNotFound.

Inductive attempt (A : Type) : Type :=
| Done (a : A)
| Except (e : caught).

Arguments Done {A} a.
Arguments Except {A} e.

Definition attempt_bind {A B : Type} (r : attempt A) (k : A -> attempt B) : attempt B :=
  match r with
  | Done a => k a
  | Except e => Except e
  end.

Notation "x <~ c ;; k" := (attempt_bind c (fun x => k))
  (at level 61, c at next level, right associativity).

Definition lift {A : Type} (r : result A) : attempt A :=
  match r with
  | Ok a => Done a
  | Raise e => Except (PyExn e)
  end.

(** What the libraries answer to [create_invoice_page]: [float(s)] and
    [datetime.strptime(s, "%Y-%m-%d %H:%M")], [None] standing for their
    [ValueError], and whether SQLite finds the integer key equal to the
    text that the form sent for it. *)
Record Lib : Type := {
  py_float : string -> option float;
  strptime : string -> option datetime;
  key_equals_text : Z -> string -> bool
}.

(** The fields of [request.form] that [create_invoice_page] reads. *)
Module InvoiceForm.
Record t : Type := {
  title : option string;
  client_id : option string;
  is_recurring : option string;
  frequency : option string;
  due_date : option string;
  due_time : option string;
  tax_rate : option string;
  notes : option string;
  terms : option string;
  invoice_prefix : option string;
  item_description : list string;
  item_quantity : list string;
  item_price : list string
}.
End InvoiceForm.

(** [float(s or 0)] *)
Definition float_or_zero (lib : Lib) (s : option string) : attempt float :=
  if PyStr.truthy_opt s then
    match py_float lib (text_or_empty s) with
    | Some x => Done x
    | None => Except (PyExn ValueError)
    end
  else Done 0%float.

(** [zip(a, b, c)] *)
Fixpoint zip3 (a b c : list string) : list (string * string * string) :=
  match a, b, c with
  | x :: a', y :: b', z :: c' => (x, y, z) :: zip3 a' b' c'
  | _, _, _ => []
  end.

(** The recurring logic setup of [create_invoice_page]: [initial_send] and
    [next_send]; [now] is the reading of [datetime.utcnow()] there. *)
Definition recurring_setup (is_recurring : bool) (frequency : option string)
    (now : datetime) : result (option datetime * option datetime) :=
  if is_recurring then
    let initial_send := now in
    if (match frequency with Some f => String.eqb f "daily" | None => false end)
    then d <- DateTime.add initial_send (days 1) ;; Ok (Some initial_send, Some d)
    else if (match frequency with Some f => String.eqb f "weekly" | None => false end)
    then d <- DateTime.add initial_send (weeks 1) ;; Ok (Some initial_send, Some d)
    else if (match frequency with Some f => String.eqb f "monthly" | None => false end)
    then d <- DateTime.add initial_send (days 30) ;; Ok (Some initial_send, Some d)
    else Ok (Some initial_send, None)
  else Ok (None, None).

(** The loop over the rows of the form: a row without description is
    skipped, the others become items of the invoice. *)
Fixpoint add_items (lib : Lib) (invoice_id : Z) (rows : list (string * string * string))
    (db : Db) : attempt Db :=
  match rows with
  | [] => Done db
  | (desc, qty_str, price_str) :: rest =>
      let desc := PyStr.strip desc in
      if negb (PyStr.truthy desc) then add_items lib invoice_id rest db
      else
        quantity <~ float_or_zero lib (Some qty_str) ;;
        unit_price <~ float_or_zero lib (Some price_str) ;;
        let amount := (quantity * unit_price)%float in
        add_items lib invoice_id rest
          (insert_item db (fun key =>
             {| InvoiceItem.id := key; InvoiceItem.description := desc;
                InvoiceItem.quantity := quantity; InvoiceItem.unit_price := unit_price;
                InvoiceItem.amount := amount; InvoiceItem.invoice_id := invoice_id |}))
  end.

(** The answer of [create_invoice_page] to a POST: a redirect, or the form
    again after the exception [e] was caught, the session rolled back and
    ['Error creating invoice: ' + str(e)] flashed. *)
Inductive form_response : Type :=
| Answer (r : response)
| FormAgain (template : string) (e : caught).

(** The [try] block of [create_invoice_page]. [now] and [now_send] are the
    two readings of [datetime.utcnow()], [today] the [datetime.now()] of
    [generate_invoice_number]. *)
Definition create_invoice_post (env : Env) (lib : Lib) (now now_send today : datetime)
    (db : Db) (current_user : User.t) (form : InvoiceForm.t) : attempt (Db * response) :=
  let title := args_get (InvoiceForm.title form) "" in
  let client_id := InvoiceForm.client_id form in
  let is_recurring :=
    match InvoiceForm.is_recurring form with
    | Some s => String.eqb s "on"
    | None => false
    end in
  let frequency := InvoiceForm.frequency form in
  let due_date_str := InvoiceForm.due_date form in
  let due_time_str := args_get (InvoiceForm.due_time form) "17:00" in
  tax_rate <~ float_or_zero lib (InvoiceForm.tax_rate form) ;;
  let notes := PyStr.strip (args_get (InvoiceForm.notes form) "") in
  let terms := PyStr.strip (args_get (InvoiceForm.terms form) "") in
  if negb (PyStr.truthy_opt client_id) then
    Done (db, Redirect "create_invoice_page" [("error", "Client is required")])
  else if negb (PyStr.truthy_opt due_date_str) then
    Done (db, Redirect "create_invoice_page" [("error", "Due date is required")])
  else if negb (existsb (fun d => PyStr.truthy (PyStr.strip d))
                        (InvoiceForm.item_description form)) then
    Done (db, Redirect "create_invoice_page"
                [("error", "At least one invoice item is required")])
  else
    client <~
      match find (fun c => key_equals_text lib (Client.id c) (text_or_empty client_id) &&
                           (Client.user_id c =? User.id current_user)) (clients db) with
      | Some c => Done c
      | None => Except HttpNotFound
      end ;;
    let invoice_date := now in
    due_datetime <~
      match strptime lib (text_or_empty due_date_str ++ " " ++ due_time_str) with
      | Some d => Done d
      | None => Except (PyExn ValueError)
      end ;;
    invoice_number <~
      lift (create_invoice_page_number today db current_user client
              (InvoiceForm.invoice_prefix form)) ;;
    sends <~ lift (recurring_setup is_recurring frequency now_send) ;;
    client_key <~
      match PyStr.py_int (text_or_empty client_id) with
      | Some n => Done n
      | None => Except (PyExn ValueError)
      end ;;
    ins <~ lift (insert_invoice db (fun key =>
             {| Invoice.id := key;
                Invoice.invoice_number := invoice_number;
                Invoice.date := invoice_date;
                Invoice.due_date := due_datetime;
                Invoice.status := "draft";
                Invoice.total_amount := 0%float;
                Invoice.tax_rate := tax_rate;
                Invoice.tax_amount := 0%float;
                Invoice.subtotal := 0%float;
                Invoice.notes := Some notes;
                Invoice.terms := Some terms;
                Invoice.title := Some title;
                Invoice.is_recurring := is_recurring;
                Invoice.frequency := frequency;
                Invoice.initial_send_date := fst sends;
                Invoice.next_send_date := snd sends;
                Invoice.user_id := User.id current_user;
                Invoice.client_id := client_key |})) ;;
    let db1 := fst ins in
    let invoice := snd ins in
    db2 <~ add_items lib (Invoice.id invoice)
             (zip3 (InvoiceForm.item_description form) (InvoiceForm.item_quantity form)
                   (InvoiceForm.item_price form)) db1 ;;
    let totals := Invoice.calculate_totals (invoice_items_of db2 invoice) in
    let db3 := update_invoice (Invoice.id invoice) totals db2 in
    let invoice := totals invoice in
    let db4 := create_notification db3 (User.id current_user) "Invoice Created"
                 ("Invoice " ++ Invoice.invoice_number invoice ++
                  " has been created (Draft)") false in
    let db5 := log_audit db4 current_user "create" "invoice" (Invoice.id invoice)
                 ("Created invoice " ++ Invoice.invoice_number invoice) in
    if send_invoice_email env db5 invoice then
      Done (update_invoice (Invoice.id invoice) (Invoice.set_status "sent") db5,
            Redirect "invoice_detail_page"
              [("success",
                if negb is_recurring
                then "Invoice " ++ Invoice.invoice_number invoice ++
                     " created and email sent!"
                else "Recurring Invoice " ++ Invoice.invoice_number invoice ++
                     " started and first email sent!")])
    else
      Done (db5,
            Redirect "invoice_detail_page"
              [("warning",
                if negb is_recurring
                then "Invoice " ++ Invoice.invoice_number invoice ++
                     " created but email FAILED. Status: Draft."
                else "Recurring Invoice created but first email FAILED. Status: Draft.")]).

(** [create_invoice_page()] on a POST. *)
Definition create_invoice_page (env : Env) (lib : Lib) (now now_send today : datetime)
    (db : Db) (current_user : User.t) (form : InvoiceForm.t) : Db * form_response :=
  if negb (User.is_admin current_user) then
    (db, Answer (Redirect "customer_invoices_page"
                   [("error", "Admin access required. You have been redirected to your invoices.")]))
  else
    match create_invoice_post env lib now now_send today db current_user form with
    | Done (db1, r) => (db1, Answer r)
    | Except e => (db, FormAgain "create_invoice.html" e)
    end.

(* ===================================================================== *)
(** * Vocabulary of the further statements *)
(* ===================================================================== *)

(** Digits and plus signs only. *)
Fixpoint phone_chars (s : string) : bool :=
  match s with
  | EmptyString => true
  | String c s' => (PyStr.is_digit c || Ascii.eqb c "+") && phone_chars s'
  end.

(** The leading digit of a Singapore number. *)
Definition leading_digit (d : ascii) : bool :=
  Ascii.eqb d "6" || Ascii.eqb d "8" || Ascii.eqb d "9".

(** The elementary writes that the routes and the job are made of.
    [may_send] tells whether the status ["sent"] may be written. *)
Inductive write (may_send : bool) (db : Db) : Db -> Prop :=
| write_status (key : Z) (s : string) :
    valid_status s = true -> (s = "sent" -> may_send = true) ->
    write may_send db (update_invoice key (Invoice.set_status s) db)
| write_number (key : Z) (n : string) :
    (forall i, In i (invoices db) -> Invoice.invoice_number i = n -> Invoice.id i = key) ->
    write may_send db (update_invoice key (Invoice.set_invoice_number n) db)
| write_columns (key : Z) (f : Invoice.t -> Invoice.t) :
    (forall i, Invoice.id (f i) = Invoice.id i /\
               Invoice.invoice_number (f i) = Invoice.invoice_number i /\
               Invoice.status (f i) = Invoice.status i) ->
    write may_send db (update_invoice key f db)
| write_invoice (c : Invoice.t) :
    Invoice.id c = next_invoice_id db ->
    number_taken db (Invoice.invoice_number c) = false ->
    Invoice.status c = "draft" ->
    write may_send db (with_invoices db (invoices db ++ [c])%list)
| write_item (mk : Z -> InvoiceItem.t) :
    (exists i, In i (invoices db) /\
               InvoiceItem.invoice_id (mk (next_item_id db)) = Invoice.id i) ->
    write may_send db (insert_item db mk)
| write_delete (invoice : Invoice.t) :
    write may_send db (delete_invoice_row invoice db)
| write_notification (user_id : Z) (title message : string) (send_email : bool) :
    write may_send db (create_notification db user_id title message send_email)
| write_audit (current_user : User.t) (action entity_type : string) (entity_id : Z)
    (details : string) :
    write may_send db (log_audit db current_user action entity_type entity_id details)
| write_client_delete (key : Z) :
    (forall i, In i (invoices db) -> Invoice.client_id i <> key) ->
    write may_send db
      (with_clients db (filter (fun c => negb (Client.id c =? key)) (clients db)))
| write_user (key : Z) (email : string) (prefix : option string) :
    (forall u, In u (users db) -> User.email u <> email) \/
    (exists u, In u (users db) /\ User.id u = key /\ User.email u = email) ->
    write may_send db
      (with_users db
         (map (fun u => if User.id u =? key then set_email_and_prefix email prefix u else u)
              (users db))).

Inductive writes (may_send : bool) (db : Db) : Db -> Prop :=
| writes_nil : writes may_send db db
| writes_cons (db1 db2 : Db) :
    write may_send db db1 -> writes may_send db1 db2 -> writes may_send db db2.

(** One request or one run of the job. A request to [update_settings]
    comes from a logged-in user, a row of the table. *)
Inductive step (env : Env) (lib : Lib) (db : Db) : Db -> Prop :=
| step_update_invoice_status (current_user : User.t) (invoice_id : Z)
    (new_status : option string) :
    step env lib db (fst (update_invoice_status env db current_user invoice_id new_status))
| step_update_invoice_number (current_user : User.t) (invoice_id : Z)
    (field : option string) :
    step env lib db (fst (update_invoice_number db current_user invoice_id field))
| step_customer_pay_invoice (current_user : User.t) (invoice_id : Z) (r : Db * response) :
    customer_pay_invoice env db current_user invoice_id = Ok r ->
    step env lib db (fst r)
| step_delete_invoice (current_user : User.t) (invoice_id : Z) :
    step env lib db (fst (delete_invoice db current_user invoice_id))
| step_delete_client (current_user : User.t) (client_id : Z) :
    step env lib db (fst (delete_client db current_user client_id))
| step_update_settings (current_user : User.t) (email invoice_prefix : option string) :
    In current_user (users db) ->
    step env lib db (fst (update_settings db current_user email invoice_prefix))
| step_create_invoice_page (now now_send today : datetime) (current_user : User.t)
    (form : InvoiceForm.t) :
    step env lib db
      (fst (create_invoice_page env lib now now_send today db current_user form))
| step_recurring_job (user_of : Db -> Invoice.t -> result (option User.t))
    (now today : datetime) :
    step env lib db (fst (recurring_job env user_of now today db)).

(** The databases that requests and runs of the job lead to. *)
Inductive reachable (env : Env) (lib : Lib) (db : Db) : Db -> Prop :=
| reachable_here : reachable env lib db db
| reachable_step (db1 db2 : Db) :
    reachable env lib db db1 -> step env lib db1 db2 -> reachable env lib db db2.

(** Keys and invoice numbers name one invoice each. *)
Definition invoices_unique (db : Db) : Prop :=
  NoDup (map Invoice.id (invoices db)) /\
  NoDup (map Invoice.invoice_number (invoices db)).

(** Every invoice carries one of the five statuses. *)
Definition statuses_valid (db : Db) : Prop :=
  Forall (fun i => valid_status (Invoice.status i) = true) (invoices db).

(** Every item belongs to an invoice of the table. *)
Definition items_attached (db : Db) : Prop :=
  forall it, In it (invoice_items db) ->
  exists i, In i (invoices db) /\ Invoice.id i = InvoiceItem.invoice_id it.

(** The notifications and the audit log of [db'] continue those of [db]. *)
Definition logs_extend (db db' : Db) : Prop :=
  (exists more, notifications db' = (notifications db ++ more)%list) /\
  (exists more, audit_logs db' = (audit_logs db ++ more)%list).

(** Every invoice that is ["sent"] in [db'] was so in [db]. *)
Definition no_new_sent (db db' : Db) : Prop :=
  forall i, In i (invoices db') -> Invoice.status i = "sent" ->
  exists old, In old (invoices db) /\ Invoice.id old = Invoice.id i /\
              Invoice.status old = "sent".

(** Keys and e-mail addresses name one user each. *)
Definition users_unique (db : Db) : Prop :=
  NoDup (map User.id (users db)) /\ NoDup (map User.email (users db)).

(** The invoices that a page lists. *)
Definition listed (p : page InvoiceList.t) : list Invoice.t :=
  match p with
  | Render _ context => InvoiceList.invoices context
  | _ => []
  end.

(** Newest first. *)
Definition newest_first (l : list Invoice.t) : Prop :=
  StronglySorted (fun a b => Invoice.date b <= Invoice.date a) l.




(** The invoices that the dashboard shows. *)
Definition dashboard_recent (p : page Dashboard.t) : list Invoice.t :=
  match p with
  | Render _ context => Dashboard.recent_invoices context
  | _ => []
  end.




(** Every invoice has its client in the table. *)
Definition clients_attached (db : Db) : Prop :=
  forall i, In i (invoices db) ->
  exists client, In client (clients db) /\ Client.id client = Invoice.client_id i.

(** SQLite and [int] agree on the text of a key: a text that SQLite finds
    equal to a key and that [int] reads, reads as this key. *)
Definition key_text_sound (lib : Lib) : Prop :=
  forall key text n,
    key_equals_text lib key text = true -> PyStr.py_int text = Some n -> n = key.

(* ===================================================================== *)
(** * Further sample data *)
(* ===================================================================== *)

(** 2024-01-15T17:00:00 *)
Definition jan_15_5pm : datetime := jan_2024 + days 14 + 17 * 3600000000.

Definition sample_lib : Lib :=
  {| py_float := fun s =>
       if String.eqb s "2" then Some 2%float
       else if String.eqb s "50" then Some 50%float
       else if String.eqb s "8" then Some 8%float
       else None;
     strptime := fun s =>
       if String.eqb s "2024-01-15 17:00" then Some jan_15_5pm else None;
     key_equals_text := fun key s =>
       match PyStr.py_int s with
       | Some n => n =? key
       | None => false
       end |}.

(** Two rows, the second without description. *)
Definition sample_form (is_recurring frequency : option string) : InvoiceForm.t :=
  {| InvoiceForm.title := Some "Hosting";
     InvoiceForm.client_id := Some "1";
     InvoiceForm.is_recurring := is_recurring;
     InvoiceForm.frequency := frequency;
     InvoiceForm.due_date := Some "2024-01-15";
     InvoiceForm.due_time := None;
     InvoiceForm.tax_rate := Some "8";
     InvoiceForm.notes := Some " Thank you ";
     InvoiceForm.terms := None;
     InvoiceForm.invoice_prefix := None;
     InvoiceForm.item_description := ["Service"; "  "];
     InvoiceForm.item_quantity := ["2"; "1"];
     InvoiceForm.item_price := ["50"; "x"] |}.

(** A short history: an invoice is created, the first one is set to
    paid, the job runs, the new invoice is deleted. *)
Definition db_created : Db :=
  fst (create_invoice_page env_mail_ok sample_lib jan_2 jan_2 jan_2 db_one_draft admin
         (sample_form None None)).
Definition db_then_paid : Db :=
  fst (update_invoice_status env_mail_ok db_created admin 1 (Some "paid")).
Definition db_then_job : Db :=
  fst (recurring_job env_mail_ok user_relationship jan_2 jan_2 db_then_paid).
Definition db_then_deleted : Db :=
  fst (delete_invoice db_then_job admin 2).

(** The same requests without a mail configuration. *)
Definition db_created_offline : Db :=
  fst (create_invoice_page env_mail_down sample_lib jan_2 jan_2 jan_2 db_one_draft admin
         (sample_form None None)).
Definition db_then_sent_offline : Db :=
  fst (update_invoice_status env_mail_down db_created_offline admin 2 (Some "sent")).

Definition db_new_address : Db :=
  fst (update_settings db_one_draft customer (Some "pay@acme.example") None).

(** One invoice of each of four statuses. *)
Definition db_mixed : Db :=
  {| users := [admin; customer]; clients := [client_plain];
     invoices := [sample_invoice 1 "INV-202401-0001";
                  Invoice.set_status "paid" (sample_invoice 2 "INV-202401-0002");
                  Invoice.set_status "overdue" (sample_invoice 3 "INV-202401-0003");
                  Invoice.set_status "cancelled" (sample_invoice 4 "INV-202401-0004")];
     invoice_items := []; notifications := []; audit_logs := [] |}.

(** A customer whose address no client carries yet. *)
Definition newcomer : User.t :=
  {| User.id := 3; User.email := "someone@example.com";
     User.invoice_prefix := None; User.role := "customer" |}.

Definition db_newcomer : Db :=
  {| users := [admin; newcomer]; clients := [client_plain];
     invoices := [sample_invoice 1 "INV-202401-0001"];
     invoice_items := []; notifications := []; audit_logs := [] |}.

(** A run of the model on sample data: both sides are evaluated. *)
Ltac by_evaluation := repeat split; vm_compute; reflexivity.

(** Pairwise distinct entries of a list of sample data. *)
Ltac distinct :=
  repeat (constructor; [cbn; intuition (try discriminate; try lia)|]); constructor.

(* ===================================================================== *)
(** * Order of text *)
(* ===================================================================== *)








(* ===================================================================== *)
(** * Greatest row, decimal text and padding *)
(* ===================================================================== *)

Import DateTime.

Section FirstDesc.
Variable Row : Type.
Variable key : Row -> string.




End FirstDesc.

Lemma length_append (a b : string) :
  String.length (a ++ b) = (String.length a + String.length b)%nat.
Proof. induction a; simpl; auto. Qed.













(* ===================================================================== *)
(** * LIKE on a literal prefix *)
(* ===================================================================== *)

Lemma like_percent (s : string) : Sql.like "%" s = true.
Proof.
  induction s as [|c s IH]; [reflexivity|].
  cbn in *. exact IH.
Qed.

Lemma like_literal_prefix : forall (p s : string),
  wildcard_free p = true ->
  Sql.like (p ++ "%") s = starts_with_nocase p s.
Proof.
  induction p as [|c p IH]; intros s Hp.
  - rewrite like_percent. destruct s; reflexivity.
  - cbn [wildcard_free] in Hp.
    apply andb_true_iff in Hp as [Hc Hp]. apply andb_true_iff in Hc as [Hc1 Hc2].
    apply negb_true_iff in Hc1, Hc2.
    cbn [append Sql.like]. rewrite Hc1, Hc2.
    destruct s as [|d s]; [reflexivity|].
    cbn [starts_with_nocase]. rewrite IH by exact Hp. reflexivity.
Qed.

Lemma string_append_assoc (a b c : string) : (a ++ b) ++ c = a ++ (b ++ c).
Proof. induction a as [|x a IH]; cbn; [reflexivity|]. rewrite IH. reflexivity. Qed.

Lemma scope_pattern_literal (prefix year_month number : string) :
  wildcard_free (prefix ++ "-" ++ year_month ++ "-") = true ->
  Sql.like (scope_pattern prefix year_month) number =
    starts_with_nocase (prefix ++ "-" ++ year_month ++ "-") number.
Proof.
  intro H. unfold scope_pattern.
  replace (prefix ++ "-" ++ year_month ++ "-%")
    with ((prefix ++ "-" ++ year_month ++ "-") ++ "%").
  - apply like_literal_prefix. exact H.
  - rewrite !string_append_assoc. reflexivity.
Qed.


(* ===================================================================== *)
(** * The invoice-number allocator *)
(* ===================================================================== *)

Import DateTime.
































(** Claim C1 (invoice-number uniqueness) at a database the allocator itself
    reaches. After 9999 the allocator returns 10000, which is inserted; the
    next call orders the numbers as text, finds 9999 again above 10000, and
    returns 10000 a second time: the number is already taken and the insert
    is refused by the unique index. *)
Theorem invoice_number_reused_after_9999 :
  generate_invoice_number jan_2024 db_9999 None None "INV" = Ok "INV-202401-10000" /\
  insert_invoice db_9999 (fun key => sample_invoice key "INV-202401-10000") =
    Ok (db_10000, sample_invoice 2 "INV-202401-10000") /\
  generate_invoice_number jan_2024 db_10000 None None "INV" = Ok "INV-202401-10000" /\
  number_taken db_10000 "INV-202401-10000" = true /\
  insert_invoice db_10000 (fun key => sample_invoice key "INV-202401-10000") =
    Raise IntegrityError /\
  String.leb "INV-202401-10000" "INV-202401-9999" = true.
Proof. by_evaluation. Qed.

(** A trailing segment that is not a number stops the allocator. *)
Example trailing_segment_not_numeric :
  generate_invoice_number jan_2024
    (with_invoices empty_db [sample_invoice 1 "INV-202401-00A1"]) None None "INV" =
    Raise ValueError.
Proof. by_evaluation. Qed.

(** The same state reached through the routes: the administrator renames
    an invoice to the number 9999 of the month, the allocator hands out
    10000, and hands it out again once it is stored. *)
Example numbers_9999_and_10000_reached :
  let db1 := fst (update_invoice_number db_one_draft admin 1 (Some "INV-202401-9999")) in
  let db2 := with_invoices db1
               (invoices db1 ++ [sample_invoice 2 "INV-202401-10000"])%list in
  map Invoice.invoice_number (invoices db1) = ["INV-202401-9999"] /\
  generate_invoice_number jan_2024 db1 (Some admin) (Some client_plain) "INV" =
    Ok "INV-202401-10000" /\
  insert_invoice db1 (fun key => sample_invoice key "INV-202401-10000") =
    Ok (db2, sample_invoice 2 "INV-202401-10000") /\
  generate_invoice_number jan_2024 db2 (Some admin) (Some client_plain) "INV" =
    Ok "INV-202401-10000" /\
  number_taken db2 "INV-202401-10000" = true.
Proof. by_evaluation. Qed.

(* ===================================================================== *)
(** * Prefix resolution *)
(* ===================================================================== *)


Lemma code_bound c : 0 <= PyStr.code c < 256.
Proof.
  unfold PyStr.code. pose proof (nat_ascii_bounded c). lia.
Qed.









(* ===================================================================== *)
(** * Recurrence clock and totals *)
(* ===================================================================== *)

Lemma add_in_range t d :
  DateTime.in_range (t + d) = true -> DateTime.add t d = Ok (t + d).
Proof. unfold DateTime.add. intros ->. reflexivity. Qed.

Lemma string_eqb_false_of_neq (a b : string) : a <> b -> String.eqb a b = false.
Proof. intro H. apply String.eqb_neq. exact H. Qed.

Lemma calculate_next_send_date_known (t : Invoice.t) (f : string) (n : Z) :
  Invoice.is_recurring t = true ->
  Invoice.frequency t = Some f ->
  (f = "daily" /\ n = 1) \/ (f = "weekly" /\ n = 7) \/ (f = "monthly" /\ n = 30) ->
  Invoice.calculate_next_send_date t =
    (d <- DateTime.add (Invoice.base_date t) (n * 86400000000) ;; Ok (Some d)).
Proof.
  intros Hr Hf H. unfold Invoice.calculate_next_send_date. rewrite Hr, Hf.
  destruct H as [[-> ->]|[[-> ->]|[-> ->]]]; reflexivity.
Qed.

(** Claim C6 (recurrence clock). [calculate_next_send_date] returns [None]
    when [is_recurring] is false or [frequency] is null, and when
    [frequency] is none of the three known values; otherwise, from the first
    non-null of [next_send_date], [initial_send_date], [date], it returns
    that base plus 1, 7 or 30 days, for every base whose sum is a datetime
    (up to year 9999). *)
Theorem recurrence_clock :
  forall t : Invoice.t,
    let base :=
      match Invoice.next_send_date t, Invoice.initial_send_date t with
      | Some d, _ => d
      | None, Some d => d
      | None, None => Invoice.date t
      end in
    (Invoice.is_recurring t = false \/ Invoice.frequency t = None ->
     Invoice.calculate_next_send_date t = Ok None)
    /\ (forall f, Invoice.frequency t = Some f ->
          f <> "daily" -> f <> "weekly" -> f <> "monthly" ->
          Invoice.calculate_next_send_date t = Ok None)
    /\ (Invoice.is_recurring t = true ->
        (Invoice.frequency t = Some "daily" ->
         DateTime.in_range (base + 1 * 86400000000) = true ->
         Invoice.calculate_next_send_date t = Ok (Some (base + 1 * 86400000000)))
        /\ (Invoice.frequency t = Some "weekly" ->
            DateTime.in_range (base + 7 * 86400000000) = true ->
            Invoice.calculate_next_send_date t = Ok (Some (base + 7 * 86400000000)))
        /\ (Invoice.frequency t = Some "monthly" ->
            DateTime.in_range (base + 30 * 86400000000) = true ->
            Invoice.calculate_next_send_date t = Ok (Some (base + 30 * 86400000000)))).
Proof.
  intros t base.
  assert (Invoice.base_date t = base) as Hbase.
  { unfold Invoice.base_date, base.
    destruct (Invoice.next_send_date t), (Invoice.initial_send_date t); reflexivity. }
  clearbody base.
  split; [|split].
  - unfold Invoice.calculate_next_send_date.
    intros [-> | ->]; [reflexivity|]. cbn. rewrite orb_true_r. reflexivity.
  - unfold Invoice.calculate_next_send_date.
    intros f -> Hd Hw Hm. cbn [PyStr.truthy_opt].
    rewrite (string_eqb_false_of_neq Hd), (string_eqb_false_of_neq Hw),
      (string_eqb_false_of_neq Hm).
    destruct (negb (Invoice.is_recurring t) || negb (PyStr.truthy f)); reflexivity.
  - intros Hr. split; [|split]; intros Hf Hin.
    + rewrite (@calculate_next_send_date_known t "daily" 1 Hr Hf) by auto.
      rewrite Hbase, (add_in_range _ _ Hin). reflexivity.
    + rewrite (@calculate_next_send_date_known t "weekly" 7 Hr Hf) by auto.
      rewrite Hbase, (add_in_range _ _ Hin). reflexivity.
    + rewrite (@calculate_next_send_date_known t "monthly" 30 Hr Hf) by auto 6.
      rewrite Hbase, (add_in_range _ _ Hin). reflexivity.
Qed.

(** One template for each case of the clock. *)
Lemma recurrence_clock_witness :
  Invoice.calculate_next_send_date (sample_invoice 1 "INV-202401-0001") = Ok None /\
  Invoice.calculate_next_send_date
    (sample_template 1 "INV-202312-0001" (Some "yearly") (Some jan_2024)) = Ok None /\
  Invoice.calculate_next_send_date
    (sample_template 1 "INV-202312-0001" (Some "daily") (Some jan_2024)) =
    Ok (Some (jan_2024 + 1 * 86400000000)) /\
  Invoice.calculate_next_send_date
    (sample_template 1 "INV-202312-0001" (Some "weekly") None) =
    Ok (Some (jan_2024 - DateTime.days 31 + 7 * 86400000000)) /\
  Invoice.calculate_next_send_date
    (sample_template 1 "INV-202312-0001" (Some "monthly") (Some jan_2024)) =
    Ok (Some (jan_2024 + 30 * 86400000000)).
Proof.
  split; [|split; [|split; [|split]]].
  - exact (proj1 (recurrence_clock (sample_invoice 1 "INV-202401-0001"))
             (or_introl eq_refl)).
  - refine (proj1 (proj2 (recurrence_clock
             (sample_template 1 "INV-202312-0001" (Some "yearly") (Some jan_2024))))
             "yearly" eq_refl _ _ _); discriminate.
  - exact (proj1 (proj2 (proj2 (recurrence_clock
             (sample_template 1 "INV-202312-0001" (Some "daily") (Some jan_2024))))
             eq_refl) eq_refl eq_refl).
  - exact (proj1 (proj2 (proj2 (proj2 (recurrence_clock
             (sample_template 1 "INV-202312-0001" (Some "weekly") None)))
             eq_refl)) eq_refl eq_refl).
  - exact (proj2 (proj2 (proj2 (proj2 (recurrence_clock
             (sample_template 1 "INV-202312-0001" (Some "monthly") (Some jan_2024))))
             eq_refl)) eq_refl eq_refl).
Defined.

Example monthly_is_thirty_days :
  Invoice.calculate_next_send_date
    (sample_template 1 "INV-202312-0001" (Some "monthly") (Some jan_2024)) =
    Ok (Some 63842256000000000) /\
  DateTime.strftime_Ym 63842256000000000 = "202401" /\
  Invoice.calculate_next_send_date
    (sample_template 1 "INV-202312-0001" (Some "monthly") (Some 63842256000000000)) =
    Ok (Some 63844848000000000) /\
  DateTime.strftime_Ym 63844848000000000 = "202403".
Proof. by_evaluation. Qed.

Example next_send_date_overflow :
  Invoice.calculate_next_send_date
    (sample_template 1 "INV-202312-0001" (Some "monthly") (Some DateTime.dt_max)) =
    Raise OverflowError.
Proof. by_evaluation. Qed.

(** Claim C7 as stated fails in binary64: for one item of amount 3 and a
    rate of 7, [calculate_totals] stores 3 * (7 / 100), which is one unit in
    the last place above 3 * 7 / 100. *)
Lemma totals_counterexample :
  let r := Invoice.calculate_totals [item_of_amount 1 1 1 3] (invoice_with_tax 7) in
  Invoice.subtotal r = 3%float /\
  Invoice.tax_rate r = 7%float /\
  Invoice.tax_amount r = 0x1.ae147ae147ae2p-3%float /\
  (Invoice.subtotal r * Invoice.tax_rate r / 100)%float = 0x1.ae147ae147ae1p-3%float /\
  PrimFloat.eqb (Invoice.tax_amount r)
    (Invoice.subtotal r * Invoice.tax_rate r / 100)%float = false.
Proof. by_evaluation. Qed.

(** Claim C7 (totals calculator), amended. After [calculate_totals] the
    subtotal is the sum of the item amounts, the tax amount is
    [subtotal * (tax_rate / 100)] with the rate divided first, and the total
    is their sum; the rate is untouched, a second run changes nothing, and
    no other column is written. *)
Theorem totals_calculator :
  forall (items : list InvoiceItem.t) (inv : Invoice.t),
    let r := Invoice.calculate_totals items inv in
    Invoice.subtotal r = py_sum (map InvoiceItem.amount items)
    /\ Invoice.tax_amount r = (Invoice.subtotal r * (Invoice.tax_rate inv / 100))%float
    /\ Invoice.total_amount r = (Invoice.subtotal r + Invoice.tax_amount r)%float
    /\ Invoice.tax_rate r = Invoice.tax_rate inv
    /\ Invoice.calculate_totals items r = r
    /\ Invoice.set_totals r (Invoice.subtotal inv) (Invoice.tax_amount inv)
         (Invoice.total_amount inv) = Invoice.set_totals inv (Invoice.subtotal inv)
         (Invoice.tax_amount inv) (Invoice.total_amount inv).
Proof. intros items inv r. repeat split. Qed.

Example totals_scenario :
  let r := Invoice.calculate_totals [item_of_amount 1 1 2 50] (invoice_with_tax 8) in
  Invoice.subtotal r = 100%float /\ Invoice.tax_amount r = 8%float /\
  Invoice.total_amount r = 108%float.
Proof. by_evaluation. Qed.


(* ===================================================================== *)
(** * The scheduler job: one template *)
(* ===================================================================== *)

Lemma le_fold_max (ids : list Z) (x : Z) : In x ids -> x <= fold_right Z.max 0 ids.
Proof.
  induction ids as [|a ids IH]; simpl; [tauto|].
  intros [->|H]; [lia|]. specialize (IH H). lia.
Qed.

Lemma fold_max_app (l l' : list Z) :
  fold_right Z.max 0 l <= fold_right Z.max 0 (l ++ l')%list.
Proof.
  induction l as [|a l IH]; simpl.
  - induction l' as [|b l' IH']; simpl; lia.
  - lia.
Qed.

Lemma id_lt_next_invoice_id (db : Db) (i : Invoice.t) :
  In i (invoices db) -> Invoice.id i < next_invoice_id db.
Proof.
  intro H. unfold next_invoice_id, next_id.
  pose proof (@le_fold_max (map Invoice.id (invoices db)) (Invoice.id i)
                (in_map Invoice.id _ _ H)). lia.
Qed.

Lemma row_evolves_refl bound (l : list Invoice.t) : Forall2 (row_evolves bound) l l.
Proof. induction l; constructor; auto. left. reflexivity. Qed.

Lemma row_evolves_id bound old new : row_evolves bound old new -> Invoice.id new = Invoice.id old.
Proof. intros [->|[_ [d ->]]]; reflexivity. Qed.

Lemma row_evolves_trans bound a b c :
  row_evolves bound a b -> row_evolves bound b c -> row_evolves bound a c.
Proof.
  intros [->|[Ha [d ->]]] [->|[Hb [d' ->]]].
  - left; reflexivity.
  - right. split; [exact Hb|]. exists d'. reflexivity.
  - right. split; [exact Ha|]. exists d. reflexivity.
  - right. split; [exact Ha|]. exists d'. destruct a; reflexivity.
Qed.

Lemma Forall2_row_evolves_trans bound : forall l1 l2 l3,
  Forall2 (row_evolves bound) l1 l2 -> Forall2 (row_evolves bound) l2 l3 ->
  Forall2 (row_evolves bound) l1 l3.
Proof.
  induction l1 as [|a l1 IH]; intros l2 l3 H12 H23.
  - inversion H12; subst. inversion H23; subst. constructor.
  - inversion H12; subst. inversion H23; subst. constructor.
    + eapply row_evolves_trans; eauto.
    + eapply IH; eauto.
Qed.

Lemma Forall2_row_evolves_ids bound l1 l2 :
  Forall2 (row_evolves bound) l1 l2 -> map Invoice.id l2 = map Invoice.id l1.
Proof.
  induction 1; simpl; [reflexivity|]. f_equal; [eapply row_evolves_id; eauto|assumption].
Qed.

Lemma map_set_next_evolves bound key d (l : list Invoice.t) :
  key < bound ->
  Forall2 (row_evolves bound) l
    (map (fun i => if Invoice.id i =? key then Invoice.set_next_send_date d i else i) l).
Proof.
  intro Hk. induction l as [|a l IH]; simpl; constructor; [|exact IH].
  destruct (Invoice.id a =? key) eqn:E.
  - right. apply Z.eqb_eq in E. split; [lia|]. exists d. reflexivity.
  - left. reflexivity.
Qed.

Lemma map_update_other (key : Z) (f : Invoice.t -> Invoice.t) (l : list Invoice.t) :
  (forall i, In i l -> Invoice.id i <> key) ->
  map (fun i => if Invoice.id i =? key then f i else i) l = l.
Proof.
  induction l as [|a l IH]; simpl; intro H; [reflexivity|].
  rewrite IH by auto. destruct (Invoice.id a =? key) eqn:E; [|reflexivity].
  apply Z.eqb_eq in E. exfalso. apply (H a); auto.
Qed.

Lemma copy_items_frame key items db :
  invoices (copy_items key items db) = invoices db /\
  clients (copy_items key items db) = clients db /\
  users (copy_items key items db) = users db /\
  notifications (copy_items key items db) = notifications db /\
  audit_logs (copy_items key items db) = audit_logs db.
Proof.
  unfold copy_items. revert db. induction items as [|x items IH]; intro db; simpl.
  - repeat split.
  - destruct (IH (insert_item db (copy_item key x))) as (H1 & H2 & H3 & H4 & H5).
    rewrite H1, H2, H3, H4, H5. repeat split.
Qed.

Lemma child_of_set_status now t c s : child_of now t c -> child_of now t (Invoice.set_status s c).
Proof. unfold child_of. destruct c; simpl. tauto. Qed.

Lemma create_child_spec user_of now today db t db1 child :
  create_child user_of now today db t = Ok (db1, child) ->
  Invoice.id t < next_invoice_id db ->
  exists number next,
    number_taken db number = false /\
    Invoice.calculate_next_send_date t = Ok next /\
    Invoice.invoice_number child = number /\
    Invoice.id child = next_invoice_id db /\
    Invoice.status child = "draft" /\
    child_of now t child /\
    invoices db1 =
      (map (fun i => if Invoice.id i =? Invoice.id t
                     then Invoice.set_next_send_date next i else i) (invoices db)
       ++ [child])%list /\
    clients db1 = clients db /\ users db1 = users db /\
    notifications db1 = notifications db /\ audit_logs db1 = audit_logs db.
Proof.
  unfold create_child. intros H Hid.
  destruct (user_of db t) as [user|]; cbn [bind] in H; [|discriminate].
  destruct (generate_invoice_number today db user (invoice_client db t) "INV")
    as [number|]; cbn [bind] in H; [|discriminate].
  destruct (DateTime.add now _) as [due|] eqn:Hdue; cbn [bind] in H; [|discriminate].
  unfold insert_invoice in H. cbn [Invoice.invoice_number child_invoice] in H.
  destruct (number_taken db number) eqn:Htaken; cbn [bind fst snd] in H; [discriminate|].
  destruct (Invoice.calculate_next_send_date t) as [next|] eqn:Hnext;
    cbn [bind] in H; [|discriminate].
  injection H as Hdb Hchild.
  exists number, next.
  set (key := next_invoice_id db) in *.
  set (c0 := child_invoice now t number due key) in *.
  set (db0 := with_invoices db (invoices db ++ [c0])%list) in *.
  change (Invoice.id c0) with key in *.
  set (db2 := copy_items key (invoice_items_of db0 t) db0) in *.
  destruct (copy_items_frame key (invoice_items_of db0 t) db0)
    as (F1 & F2 & F3 & F4 & F5). fold db2 in F1, F2, F3, F4, F5.
  subst child.
  repeat split; try reflexivity; try assumption.
  - subst db1. cbn [update_invoice with_invoices invoices]. fold db2. rewrite F1.
    unfold db0 at 1. cbn [with_invoices invoices]. rewrite !map_app. cbn [map].
    change (Invoice.id c0) with key. rewrite Z.eqb_refl.
    rewrite (@map_update_other key _ (invoices db)).
    + f_equal. cbn [Invoice.id Invoice.calculate_totals Invoice.set_totals].
      change (Invoice.id c0) with key.
      assert ((key =? Invoice.id t) = false) as -> by (apply Z.eqb_neq; lia).
      reflexivity.
    + intros i Hi. pose proof (id_lt_next_invoice_id db i Hi). unfold key. lia.
  - subst db1. exact F2.
  - subst db1. exact F3.
  - subst db1. exact F4.
  - subst db1. exact F5.
Qed.

Lemma send_invoice_email_client env db inv :
  send_invoice_email env db inv = true -> exists c, invoice_client db inv = Some c.
Proof.
  unfold send_invoice_email. destruct (negb (mail_configured env)); [discriminate|].
  destruct (invoice_client db inv) as [c|]; [eauto|discriminate].
Qed.

Lemma deliver_child_spec env db1 t child upd :
  invoices db1 = (upd ++ [child])%list ->
  (forall i, In i upd -> Invoice.id i <> Invoice.id child) ->
  Invoice.client_id child = Invoice.client_id t ->
  let delivered := send_invoice_email env db1 child in
  let r := deliver_child env db1 t child in
  snd r = None /\
  invoices (fst r) = (upd ++ [delivered_child delivered child])%list /\
  clients (fst r) = clients db1 /\ users (fst r) = users db1 /\
  audit_logs (fst r) = audit_logs db1 /\
  exists message,
    notifications (fst r) =
    (notifications db1 ++
     [{| Notification.user_id := Invoice.user_id t;
         Notification.title := outcome_title delivered;
         Notification.message := message |}])%list.
Proof.
  intros Hinv Hupd Hclient delivered r. subst r. unfold deliver_child.
  fold delivered. destruct delivered eqn:Hd; unfold delivered in Hd.
  - destruct (send_invoice_email_client _ _ _ Hd) as [c Hc].
    assert (invoice_client
              (update_invoice (Invoice.id child) (Invoice.set_status "sent") db1) t
            = Some c) as ->.
    { unfold invoice_client in *. cbn [update_invoice with_invoices clients].
      rewrite <- Hclient. exact Hc. }
    cbn [fst snd create_notification with_notifications invoices clients users
         audit_logs notifications update_invoice with_invoices].
    repeat split.
    + rewrite Hinv, map_app. cbn [map]. rewrite Z.eqb_refl.
      rewrite (@map_update_other (Invoice.id child) _ upd Hupd). reflexivity.
    + eexists. reflexivity.
  - cbn [fst snd create_notification with_notifications invoices clients users
         audit_logs notifications]. repeat split.
    + exact Hinv.
    + eexists. reflexivity.
Qed.

Section JobFacts.
Variable env : Env.
Variable user_of : Db -> Invoice.t -> result (option User.t).
Variables now today : DateTime.datetime.

Lemma process_template_spec (bound : Z) (db : Db) (t : Invoice.t) :
  Invoice.id t < bound -> bound <= next_invoice_id db ->
  let r := process_template env user_of now today db t in
  (fst r = db /\ snd r <> None /\
   forall db1 child, create_child user_of now today db t <> Ok (db1, child))
  \/
  (snd r = None /\
   exists upd child db1,
     create_child user_of now today db t = Ok (db1, child) /\
     invoices (fst r) =
       (upd ++ [delivered_child (send_invoice_email env db1 child) child])%list /\
     Forall2 (row_evolves bound) (invoices db) upd /\
     child_of now t child /\
     Invoice.status child = "draft" /\
     Invoice.id child = next_invoice_id db /\
     number_taken db (Invoice.invoice_number child) = false /\
     clients (fst r) = clients db /\ users (fst r) = users db /\
     audit_logs (fst r) = audit_logs db /\
     exists message,
       notifications (fst r) =
       (notifications db ++
        [{| Notification.user_id := Invoice.user_id t;
            Notification.title := outcome_title (send_invoice_email env db1 child);
            Notification.message := message |}])%list).
Proof.
  intros Hlt Hle r. subst r. unfold process_template.
  destruct (create_child user_of now today db t) as [[db1 child]|e] eqn:Hc.
  - right.
    destruct (create_child_spec _ _ _ _ _ Hc ltac:(lia))
      as (number & next & Htaken & Hnext & Hnum & Hid & Hst & Hchild & Hinv & F1 & F2 & F3 & F4).
    assert (forall i,
               In i (map (fun i => if Invoice.id i =? Invoice.id t
                                   then Invoice.set_next_send_date next i else i)
                         (invoices db)) ->
               Invoice.id i <> Invoice.id child) as Hfresh.
    { intros i Hi. apply in_map_iff in Hi as [j [<- Hj]].
      pose proof (id_lt_next_invoice_id db j Hj).
      destruct (Invoice.id j =? Invoice.id t); cbn; rewrite ?Hid; lia. }
    destruct Hchild as (K1 & K2 & K3 & K4 & K5 & K6 & K7 & K8 & K9).
    destruct (@deliver_child_spec env db1 t child _ Hinv Hfresh K8)
      as (R1 & R2 & R3 & R4 & R5 & message & R6).
    split; [exact R1|].
    eexists _, child, db1. split; [reflexivity|].
    split; [exact R2|].
    split; [apply map_set_next_evolves; exact Hlt|].
    split; [unfold child_of; tauto|].
    split; [exact Hst|]. split; [exact Hid|].
    split; [rewrite Hnum; exact Htaken|].
    rewrite R3, R4, R5, F1, F2, F4. repeat split.
    exists message. rewrite R6, F3. reflexivity.
  - left. cbn. repeat split; discriminate.
Qed.

Lemma process_template_exception (db : Db) (t : Invoice.t) (e : exn) :
  In t (invoices db) ->
  (snd (process_template env user_of now today db t) = Some e <->
   create_child user_of now today db t = Raise e).
Proof.
  intro Hin. pose proof (id_lt_next_invoice_id db t Hin) as Hlt.
  destruct (@process_template_spec (next_invoice_id db) db t Hlt (Z.le_refl _))
    as [(_ & _ & Hno)|(Hnone & _ & child & db1 & Hc & _)].
  - unfold process_template.
    destruct (create_child user_of now today db t) as [[db1 child]|e'] eqn:Hc.
    + exfalso. exact (Hno db1 child eq_refl).
    + cbn. split; congruence.
  - rewrite Hnone, Hc. split; discriminate.
Qed.

Lemma run_templates_abort (pre post : list Invoice.t) (t : Invoice.t) (db db1 db2 : Db)
    (e : exn) :
  run_templates env user_of now today pre db = (db1, None) ->
  process_template env user_of now today db1 t = (db2, Some e) ->
  run_templates env user_of now today (pre ++ t :: post) db = (db2, Some e).
Proof.
  revert db. induction pre as [|p pre IH]; intros db Hpre Ht; cbn in *.
  - injection Hpre as <-. rewrite Ht. reflexivity.
  - destruct (process_template env user_of now today db p) as [dbp [ep|]].
    + discriminate.
    + apply IH; assumption.
Qed.

End JobFacts.


(* ===================================================================== *)
(** * The scheduler job: the loop *)
(* ===================================================================== *)

Lemma delivered_child_id b c : Invoice.id (delivered_child b c) = Invoice.id c.
Proof. destruct b; reflexivity. Qed.

Lemma delivered_child_of now t b c : child_of now t c -> child_of now t (delivered_child b c).
Proof. destruct b; [apply child_of_set_status|auto]. Qed.

Lemma delivered_child_status b c :
  Invoice.status c = "draft" ->
  Invoice.status (delivered_child b c) = if b then "sent" else "draft".
Proof. destruct b; auto. Qed.

Lemma next_invoice_id_grows (db db' : Db) upd c :
  map Invoice.id upd = map Invoice.id (invoices db) ->
  invoices db' = (upd ++ [c])%list ->
  next_invoice_id db <= next_invoice_id db'.
Proof.
  intros Hids Hinv. unfold next_invoice_id, next_id. rewrite Hinv, map_app, Hids.
  pose proof (fold_max_app (map Invoice.id (invoices db)) (map Invoice.id [c])). lia.
Qed.

Section JobLoop.
Variable env : Env.
Variable user_of : Db -> Invoice.t -> result (option User.t).
Variables now today : DateTime.datetime.

Lemma run_templates_spec (bound : Z) : forall (ts : list Invoice.t) (db : Db),
  (forall t, In t ts -> Invoice.id t < bound) ->
  bound <= next_invoice_id db ->
  let r := run_templates env user_of now today ts db in
  exists upd children done rest,
    ts = (done ++ rest)%list /\
    invoices (fst r) = (upd ++ children)%list /\
    Forall2 (row_evolves bound) (invoices db) upd /\
    Forall2 (generated now) done children /\
    Forall (fun c => bound <= Invoice.id c) children /\
    (snd r = None -> rest = []) /\
    clients (fst r) = clients db /\ users (fst r) = users db /\
    audit_logs (fst r) = audit_logs db.
Proof.
  induction ts as [|t ts IH]; intros db Hts Hb r.
  - exists (invoices db), [], [], []. subst r. cbn.
    rewrite app_nil_r. repeat split; auto using row_evolves_refl.
  - subst r. cbn [run_templates].
    destruct (@process_template_spec env user_of now today bound db t
                (Hts t (or_introl eq_refl)) Hb) as [(H1 & H2 & _)|(H1 & H2)].
    + destruct (process_template env user_of now today db t) as [db1 [e|]];
        cbn [fst snd] in *; [|congruence].
      subst db1. exists (invoices db), [], [], (t :: ts).
      rewrite app_nil_r. repeat split; auto using row_evolves_refl. discriminate.
    + destruct H2 as (upd1 & child & db1 & Hc & Hinv & Hev & Hchild & Hst & Hid & _ &
                      F1 & F2 & F3 & _).
      destruct (process_template env user_of now today db t) as [dbp [e|]];
        cbn [fst snd] in *; [discriminate|].
      set (c1 := delivered_child (send_invoice_email env db1 child) child) in *.
      assert (bound <= next_invoice_id dbp) as Hb'.
      { pose proof (@next_invoice_id_grows db dbp upd1 c1
                      (Forall2_row_evolves_ids Hev) Hinv). lia. }
      destruct (IH dbp (fun x Hx => Hts x (or_intror Hx)) Hb')
        as (upd' & children' & done' & rest' & E1 & E2 & E3 & E4 & E5 & E6 & G1 & G2 & G3).
      rewrite Hinv in E3.
      apply Forall2_app_inv_l in E3 as (u & v & Hu & Hv & ->).
      inversion Hv as [|? c2 ? vs Hc2 Hnil]; subst. inversion Hnil; subst.
      assert (c2 = c1) as ->.
      { destruct Hc2 as [->|[Hlt _]]; [reflexivity|].
        unfold c1 in Hlt. rewrite delivered_child_id in Hlt. lia. }
      exists u, (c1 :: children'), (t :: done'), rest'.
      split; [reflexivity|].
      split; [rewrite E2, <- app_assoc; reflexivity|].
      split; [eapply Forall2_row_evolves_trans; eauto|].
      split.
      { constructor; [|exact E4]. split.
        - apply delivered_child_of. exact Hchild.
        - unfold c1. rewrite (delivered_child_status _ _ Hst).
          destruct (send_invoice_email env db1 child); auto. }
      split.
      { constructor; [|exact E5]. unfold c1. rewrite delivered_child_id. lia. }
      split; [exact E6|].
      rewrite G1, G2, G3, F1, F2, F3. repeat split.
Qed.

Lemma recurring_job_spec (db : Db) :
  let r := recurring_job env user_of now today db in
  exists upd children done rest,
    recurring_templates now db = (done ++ rest)%list /\
    invoices (fst r) = (upd ++ children)%list /\
    Forall2 (row_evolves (next_invoice_id db)) (invoices db) upd /\
    Forall2 (generated now) done children /\
    Forall (fun c => next_invoice_id db <= Invoice.id c) children /\
    (snd r = None -> rest = []) /\
    clients (fst r) = clients db /\ users (fst r) = users db /\
    audit_logs (fst r) = audit_logs db.
Proof.
  unfold recurring_job. apply run_templates_spec; [|lia].
  intros t Ht. apply filter_In in Ht as [Ht _]. apply id_lt_next_invoice_id. exact Ht.
Qed.

End JobLoop.


(* ===================================================================== *)
(** * The scheduler job: properties *)
(* ===================================================================== *)

Lemma find_map_preserved (A : Type) (p : A -> bool) (g : A -> A) (l : list A) (x : A) :
  (forall y, p (g y) = p y) -> find p l = Some x -> find p (map g l) = Some (g x).
Proof.
  intro Hp. induction l as [|a l IH]; simpl; [discriminate|].
  rewrite Hp. destruct (p a); [intro H; injection H as ->; reflexivity|exact IH].
Qed.

Lemma own_invoice_id db current_user invoice_id invoice :
  own_invoice db current_user invoice_id = Some invoice ->
  In invoice (invoices db) /\ Invoice.id invoice = invoice_id.
Proof.
  unfold own_invoice. intro H. apply find_some in H as [Hin Hp].
  apply andb_true_iff in Hp as [Hp _]. apply Z.eqb_eq in Hp. auto.
Qed.

Lemma own_invoice_set_status db current_user invoice_id invoice s :
  own_invoice db current_user invoice_id = Some invoice ->
  own_invoice (update_invoice (Invoice.id invoice) (Invoice.set_status s) db)
    current_user invoice_id = Some (Invoice.set_status s invoice).
Proof.
  intro H. unfold own_invoice, update_invoice. cbn [with_invoices invoices].
  rewrite (@find_map_preserved _ _ _ _ invoice); [|
    intro y; destruct (Invoice.id y =? Invoice.id invoice); reflexivity | exact H].
  rewrite Z.eqb_refl. reflexivity.
Qed.

Lemma row_evolves_status bound old new :
  row_evolves bound old new -> Invoice.status new = Invoice.status old.
Proof. intros [->|[_ [d ->]]]; reflexivity. Qed.

Lemma row_evolves_is_recurring bound old new :
  row_evolves bound old new -> Invoice.is_recurring new = Invoice.is_recurring old.
Proof. intros [->|[_ [d ->]]]; reflexivity. Qed.

Lemma Forall2_row_evolves_status bound l1 l2 :
  Forall2 (row_evolves bound) l1 l2 -> map Invoice.status l2 = map Invoice.status l1.
Proof.
  induction 1; simpl; [reflexivity|]. f_equal; [eapply row_evolves_status; eauto|assumption].
Qed.

Lemma not_recurring_never_due later (i : Invoice.t) :
  Invoice.is_recurring i = false -> is_due later i = false.
Proof. unfold is_due. intros ->. reflexivity. Qed.

(** Claim C10 (generation is closed). Whatever [template.user] evaluates
    to, the rows the job appends have [is_recurring] false and no frequency,
    initial or next send date; [calculate_next_send_date] returns [None] on
    them and they never pass the filter of due templates, at any later time
    and in any database. The rows that were there keep their keys and their
    [is_recurring]. *)
Theorem generation_is_closed :
  forall (env : Env) (user_of : Db -> Invoice.t -> result (option User.t))
         (now today : DateTime.datetime) (db : Db),
    exists upd children,
      invoices (fst (recurring_job env user_of now today db)) = (upd ++ children)%list /\
      map Invoice.id upd = map Invoice.id (invoices db) /\
      map Invoice.is_recurring upd = map Invoice.is_recurring (invoices db) /\
      Forall (fun c =>
                closed c /\
                Invoice.calculate_next_send_date c = Ok None /\
                forall later any_db,
                  is_due later c = false /\ ~ In c (recurring_templates later any_db))
             children.
Proof.
  intros env user_of now today db.
  destruct (@recurring_job_spec env user_of now today db)
    as (upd & children & done & rest & _ & Hinv & Hev & Hgen & _).
  exists upd, children. split; [exact Hinv|].
  split; [eapply Forall2_row_evolves_ids; eauto|].
  split.
  { clear - Hev. induction Hev; simpl; [reflexivity|].
    f_equal; [eapply row_evolves_is_recurring; eauto|assumption]. }
  clear - Hgen. induction Hgen as [|t c ts cs [Hc _] _ IH]; constructor; [|exact IH].
  destruct Hc as (_ & _ & _ & _ & _ & _ & _ & _ & R1 & R2 & R3 & R4).
  split; [repeat split; assumption|].
  split.
  - unfold Invoice.calculate_next_send_date. rewrite R1. reflexivity.
  - intros later any_db. split; [apply not_recurring_never_due; exact R1|].
    unfold recurring_templates. rewrite filter_In.
    rewrite (not_recurring_never_due later c R1). intros [_ H]. discriminate.
Qed.

Lemma process_template_raise env user_of now today db t e :
  create_child user_of now today db t = Raise e ->
  process_template env user_of now today db t = (db, Some e).
Proof. unfold process_template. intros ->. reflexivity. Qed.

(** Claim C4 (cycle isolation), amended. Nothing in the loop catches an
    exception: when the templates before [t] are processed and the body
    raises on [t], the job ends with that exception; the database is the one
    committed after the earlier templates, and the templates after [t] are
    not processed. *)
Theorem cycle_stops_at_first_exception :
  forall (env : Env) (user_of : Db -> Invoice.t -> result (option User.t))
         (now today : DateTime.datetime) (db db1 : Db)
         (pre post : list Invoice.t) (t : Invoice.t) (e : exn),
    recurring_templates now db = (pre ++ t :: post)%list ->
    run_templates env user_of now today pre db = (db1, None) ->
    create_child user_of now today db1 t = Raise e ->
    recurring_job env user_of now today db = (db1, Some e).
Proof.
  intros env user_of now today db db1 pre post t e Hts Hpre Hraise.
  unfold recurring_job. rewrite Hts.
  eapply run_templates_abort; [exact Hpre|].
  apply process_template_raise. exact Hraise.
Qed.

(** Claim C8 (selection and child construction) on the job as written: as
    soon as one template is due, the body reads [template.user], which
    [Invoice] does not have, and the job ends with [AttributeError] before
    any child is built. *)
Theorem due_template_raises_attribute_error :
  forall (env : Env) (now today : DateTime.datetime) (db : Db),
    recurring_templates now db <> [] ->
    process_recurring_invoices env now today db = (db, Some AttributeError).
Proof.
  intros env now today db H. unfold process_recurring_invoices, recurring_job.
  destruct (recurring_templates now db) as [|t ts]; [congruence|]. reflexivity.
Qed.

(** What the loop body builds once [template.user] evaluates: when the job
    ends without exception, one child per due template, in order, with the
    date, the due-date offset and the copied columns of [child_of]. *)
Lemma child_construction (env : Env) (user_of : Db -> Invoice.t -> result (option User.t))
    (now today : DateTime.datetime) (db : Db) :
  snd (recurring_job env user_of now today db) = None ->
  exists upd children,
    invoices (fst (recurring_job env user_of now today db)) = (upd ++ children)%list /\
    Forall2 (row_evolves (next_invoice_id db)) (invoices db) upd /\
    Forall2 (generated now) (recurring_templates now db) children.
Proof.
  intro Hok.
  destruct (@recurring_job_spec env user_of now today db)
    as (upd & children & done & rest & Hts & Hinv & Hev & Hgen & _ & Hrest & _).
  rewrite (Hrest Hok), app_nil_r in Hts. rewrite Hts.
  exists upd, children. auto.
Qed.


(* ===================================================================== *)
(** * Status transitions *)
(* ===================================================================== *)

(** Claim C2 (delivery-gated transition), amended. In the job, the child
    created as [draft] ends as [sent] exactly when its e-mail was delivered,
    and one notification is recorded, [Recurring Invoice Sent] or [Recurring
    Email Failed]. In the manual update to [sent], the status becomes [sent]
    when the e-mail is delivered and otherwise stays what it was, the
    outcome is flashed, and no notification is recorded in either case. *)
Theorem delivery_gated_transition :
  (forall (env : Env) (user_of : Db -> Invoice.t -> result (option User.t))
          (now today : DateTime.datetime) (db db1 : Db) (t child : Invoice.t),
      In t (invoices db) ->
      create_child user_of now today db t = Ok (db1, child) ->
      let delivered := send_invoice_email env db1 child in
      let r := process_template env user_of now today db t in
      snd r = None /\
      Invoice.status child = "draft" /\
      (exists upd final,
          invoices (fst r) = (upd ++ [final])%list /\
          final = (if delivered then Invoice.set_status "sent" child else child) /\
          (Invoice.status final = "sent" <-> delivered = true) /\
          (delivered = false -> Invoice.status final = "draft") /\
          map Invoice.id upd = map Invoice.id (invoices db) /\
          map Invoice.status upd = map Invoice.status (invoices db)) /\
      (exists message,
          notifications (fst r) =
            (notifications db ++
             [{| Notification.user_id := Invoice.user_id t;
                 Notification.title := if delivered then "Recurring Invoice Sent"
                                       else "Recurring Email Failed";
                 Notification.message := message |}])%list))
  /\
  (forall (env : Env) (db : Db) (current_user : User.t) (invoice_id : Z)
          (invoice : Invoice.t),
      User.is_admin current_user = true ->
      own_invoice db current_user invoice_id = Some invoice ->
      let delivered := send_invoice_email env db invoice in
      let r := update_invoice_status env db current_user invoice_id (Some "sent") in
      option_map Invoice.status (own_invoice (fst r) current_user invoice_id) =
        Some (if delivered then "sent" else Invoice.status invoice) /\
      (delivered = false -> fst r = db) /\
      notifications (fst r) = notifications db /\
      snd r = Redirect "invoice_detail_page"
                [if delivered
                 then ("success", "Status updated to Sent and email delivered.")
                 else ("error", "Failed to send email. Invoice status NOT changed to Sent.")]).
Proof.
  split.
  - intros env user_of now today db db1 t child Hin Hc delivered r.
    pose proof (id_lt_next_invoice_id db t Hin) as Hlt.
    destruct (@process_template_spec env user_of now today (next_invoice_id db) db t
                Hlt (Z.le_refl _)) as [(_ & _ & Hno)|(Hnone & H)].
    { exfalso. exact (Hno db1 child Hc). }
    destruct H as (upd & child' & db1' & Hc' & Hinv & Hev & _ & Hst & _ & _ & _ & _ & _ &
                   message & Hnote).
    rewrite Hc in Hc'. injection Hc' as <- <-.
    fold r in Hnone, Hinv, Hnote. fold delivered in Hinv, Hnote.
    split; [exact Hnone|]. split; [exact Hst|]. split.
    + exists upd, (delivered_child delivered child).
      split; [exact Hinv|]. split; [reflexivity|].
      rewrite (delivered_child_status delivered child Hst).
      split; [destruct delivered; split; congruence|].
      split; [intros ->; reflexivity|].
      split; [eapply Forall2_row_evolves_ids|eapply Forall2_row_evolves_status]; eauto.
    + exists message. exact Hnote.
  - intros env db current_user invoice_id invoice Hadmin Hown delivered r.
    subst r. unfold update_invoice_status, admin_required, update_invoice_status_view.
    rewrite Hadmin, Hown. cbn [negb].
    change (valid_status "sent") with true. change (String.eqb "sent" "sent") with true.
    cbv iota. fold delivered. destruct delivered; cbn [fst snd].
    + rewrite (own_invoice_set_status _ _ _ "sent" Hown).
      repeat split; intros; try discriminate.
    + rewrite Hown. repeat split; intros; reflexivity.
Qed.

(** Claim C5 (terminal states), amended. The customer's pay action leaves a
    paid or cancelled invoice as it is and says so. The job changes the
    status of no row that was there. The administrator's update sets any of
    the valid statuses other than [sent] on any invoice, paid and cancelled
    ones included. *)
Theorem terminal_states :
  (forall (env : Env) (db : Db) (current_user : User.t) (invoice_id : Z)
          (invoice : Invoice.t),
      User.is_admin current_user = false ->
      customer_invoice db current_user invoice_id = Some invoice ->
      Invoice.is_completed invoice = true ->
      customer_pay_invoice env db current_user invoice_id =
        Ok (db, Redirect "customer_invoices_page"
                  [("info", "Invoice " ++ Invoice.invoice_number invoice ++
                            " is already " ++ Invoice.status invoice ++ ".")]))
  /\
  (forall (env : Env) (user_of : Db -> Invoice.t -> result (option User.t))
          (now today : DateTime.datetime) (db : Db),
      exists upd children,
        invoices (fst (recurring_job env user_of now today db)) = (upd ++ children)%list /\
        map Invoice.id upd = map Invoice.id (invoices db) /\
        map Invoice.status upd = map Invoice.status (invoices db) /\
        Forall (fun c => next_invoice_id db <= Invoice.id c) children)
  /\
  (forall (env : Env) (db : Db) (current_user : User.t) (invoice_id : Z)
          (invoice : Invoice.t) (target : string),
      User.is_admin current_user = true ->
      own_invoice db current_user invoice_id = Some invoice ->
      valid_status target = true ->
      target <> "sent" ->
      let r := update_invoice_status env db current_user invoice_id (Some target) in
      option_map Invoice.status (own_invoice (fst r) current_user invoice_id) = Some target /\
      snd r = Redirect "invoice_detail_page"
                [("success", "Invoice status updated to " ++ target)]).
Proof.
  split; [|split].
  - intros env db current_user invoice_id invoice Hadmin Hfind Hdone.
    unfold customer_pay_invoice. rewrite Hadmin, Hfind, Hdone. reflexivity.
  - intros env user_of now today db.
    destruct (@recurring_job_spec env user_of now today db)
      as (upd & children & done & rest & _ & Hinv & Hev & _ & Hnew & _).
    exists upd, children. split; [exact Hinv|].
    split; [eapply Forall2_row_evolves_ids; eauto|].
    split; [eapply Forall2_row_evolves_status; eauto|exact Hnew].
  - intros env db current_user invoice_id invoice target Hadmin Hown Hvalid Hsent r.
    subst r. unfold update_invoice_status, admin_required, update_invoice_status_view.
    rewrite Hadmin, Hown, Hvalid. cbn [negb].
    rewrite (proj2 (String.eqb_neq target "sent") Hsent). cbn [fst snd].
    split; [|reflexivity].
    change (option_map Invoice.status
              (own_invoice
                 (update_invoice (Invoice.id invoice) (Invoice.set_status target) db)
                 current_user invoice_id) = Some target).
    rewrite (own_invoice_set_status _ _ _ target Hown). reflexivity.
Qed.


(* ===================================================================== *)
(** * Runs on the sample data *)
(* ===================================================================== *)

(** The monthly template of 2 x 50.00 at 8 percent, due on 2024-01-01 and
    run on 2024-01-02, with a relationship [Invoice.user] in place: one
    child of 100 + 8 = 108, the template moved to 2024-01-31, and the
    notification of the delivery outcome. *)
Example scenario_with_user_relationship :
  create_child user_relationship jan_2 jan_2 scenario_db monthly_template =
    Ok (scenario_db_created, scenario_child) /\
  process_recurring_invoices_with_user env_mail_down jan_2 jan_2 scenario_db =
    (create_notification scenario_db_created 1 "Recurring Email Failed"
       "Generated invoice INV-202401-0001 but email failed. Status is Draft." false,
     None) /\
  process_recurring_invoices_with_user env_mail_ok jan_2 jan_2 scenario_db =
    (create_notification
       (update_invoice 2 (Invoice.set_status "sent") scenario_db_created) 1
       "Recurring Invoice Sent"
       "Automated invoice INV-202401-0001 successfully sent to Acme" false,
     None) /\
  DateTime.strftime_Ym (jan_2024 + DateTime.days 30) = "202401".
Proof. by_evaluation. Qed.

(** The scenario of one due monthly template. *)
Lemma due_template_raises_attribute_error_witness :
  process_recurring_invoices env_mail_ok jan_2 jan_2 scenario_db =
    (scenario_db, Some AttributeError).
Proof.
  apply due_template_raises_attribute_error. vm_compute. discriminate.
Defined.

(** Claim C4 as stated fails: of two due templates, the first raises (on
    [template.user]; with that relationship in place, on a due date past
    year 9999) and the second, which the job processes when it is alone, gets
    no child. *)
Lemma cycle_isolation_counterexample :
  recurring_templates jan_2 db_two_templates = [malformed_template; good_template] /\
  process_recurring_invoices env_mail_ok jan_2 jan_2 db_two_templates =
    (db_two_templates, Some AttributeError) /\
  process_recurring_invoices_with_user env_mail_ok jan_2 jan_2 db_two_templates =
    (db_two_templates, Some OverflowError) /\
  snd (process_recurring_invoices_with_user env_mail_ok jan_2 jan_2 db_good_template) = None /\
  map Invoice.invoice_number
    (invoices (fst (process_recurring_invoices_with_user env_mail_ok jan_2 jan_2
                      db_good_template))) = ["INV-202312-0002"; "INV-202401-0001"].
Proof. by_evaluation. Qed.

(** The two due templates again, through the theorem. *)
Lemma cycle_stops_at_first_exception_witness :
  recurring_job env_mail_ok user_relationship jan_2 jan_2 db_two_templates =
    (db_two_templates, Some OverflowError) /\
  recurring_job env_mail_ok invoice_user jan_2 jan_2 db_two_templates =
    (db_two_templates, Some AttributeError).
Proof.
  split.
  - apply (@cycle_stops_at_first_exception env_mail_ok user_relationship jan_2 jan_2
             db_two_templates db_two_templates [] [good_template] malformed_template
             OverflowError); vm_compute; reflexivity.
  - apply (@cycle_stops_at_first_exception env_mail_ok invoice_user jan_2 jan_2
             db_two_templates db_two_templates [] [good_template] malformed_template
             AttributeError); vm_compute; reflexivity.
Defined.

(** Claim C2 as stated fails for the manual update: a refused e-mail leaves
    the database as it was, with no notification, and an overdue invoice
    stays overdue, not draft; a delivered e-mail records no notification
    either. *)
Lemma manual_sent_counterexample :
  update_invoice_status env_mail_refused db_one_draft admin 1 (Some "sent") =
    (db_one_draft,
     Redirect "invoice_detail_page"
       [("error", "Failed to send email. Invoice status NOT changed to Sent.")]) /\
  notifications db_one_draft = [] /\
  update_invoice_status env_mail_ok db_one_draft admin 1 (Some "sent") =
    (with_invoices db_one_draft
       [Invoice.set_status "sent" (sample_invoice 1 "INV-202401-0001")],
     Redirect "invoice_detail_page"
       [("success", "Status updated to Sent and email delivered.")]) /\
  update_invoice_status env_mail_refused db_one_overdue admin 1 (Some "sent") =
    (db_one_overdue,
     Redirect "invoice_detail_page"
       [("error", "Failed to send email. Invoice status NOT changed to Sent.")]).
Proof. by_evaluation. Qed.

(** The job on the scenario with a refusing mail server, and a manual
    update with a working one. *)
Lemma delivery_gated_transition_witness :
  (snd (process_template env_mail_refused user_relationship jan_2 jan_2 scenario_db
          monthly_template) = None /\
   exists message,
     notifications (fst (process_template env_mail_refused user_relationship jan_2 jan_2
                           scenario_db monthly_template)) =
     ([] ++ [{| Notification.user_id := 1; Notification.title := "Recurring Email Failed";
                Notification.message := message |}])%list) /\
  option_map Invoice.status
    (own_invoice (fst (update_invoice_status env_mail_ok db_one_draft admin 1 (Some "sent")))
       admin 1) = Some "sent".
Proof.
  split.
  - assert (In monthly_template (invoices scenario_db)) as Hin by (left; reflexivity).
    assert (create_child user_relationship jan_2 jan_2 scenario_db monthly_template =
            Ok (scenario_db_created, scenario_child)) as Hc by (vm_compute; reflexivity).
    destruct (proj1 delivery_gated_transition env_mail_refused user_relationship jan_2 jan_2
                scenario_db scenario_db_created monthly_template scenario_child Hin Hc)
      as (H1 & _ & _ & H4).
    split; [exact H1|exact H4].
  - exact (proj1 (proj2 delivery_gated_transition env_mail_ok db_one_draft admin 1
                    (sample_invoice 1 "INV-202401-0001") eq_refl eq_refl)).
Defined.

(** Claim C5 as stated fails: the administrator's update moves a paid
    invoice back to draft and reports success. *)
Lemma terminal_states_counterexample :
  own_invoice db_one_paid admin 1 =
    Some (Invoice.set_status "paid" (sample_invoice 1 "INV-202401-0001")) /\
  Invoice.is_completed (Invoice.set_status "paid" (sample_invoice 1 "INV-202401-0001")) = true /\
  snd (update_invoice_status env_mail_ok db_one_paid admin 1 (Some "draft")) =
    Redirect "invoice_detail_page" [("success", "Invoice status updated to draft")] /\
  invoices (fst (update_invoice_status env_mail_ok db_one_paid admin 1 (Some "draft"))) =
    [Invoice.set_status "draft" (sample_invoice 1 "INV-202401-0001")].
Proof. by_evaluation. Qed.

(** A customer paying a paid invoice, and an administrator cancelling it. *)
Lemma terminal_states_witness :
  customer_pay_invoice env_mail_ok db_one_paid customer 1 =
    Ok (db_one_paid,
        Redirect "customer_invoices_page"
          [("info", "Invoice INV-202401-0001 is already paid.")]) /\
  option_map Invoice.status
    (own_invoice (fst (update_invoice_status env_mail_ok db_one_paid admin 1 (Some "cancelled")))
       admin 1) = Some "cancelled".
Proof.
  split.
  - exact (proj1 terminal_states env_mail_ok db_one_paid customer 1
             (Invoice.set_status "paid" (sample_invoice 1 "INV-202401-0001"))
             eq_refl eq_refl eq_refl).
  - refine (proj1 (proj2 (proj2 terminal_states) env_mail_ok db_one_paid admin 1
             (Invoice.set_status "paid" (sample_invoice 1 "INV-202401-0001"))
             "cancelled" eq_refl eq_refl eq_refl _)).
    discriminate.
Defined.

(* ===================================================================== *)
(** * The validator of phone numbers *)
(* ===================================================================== *)

Lemma match_classes_digits (n : nat) (s rest : string) :
  match_classes (repeat PyStr.is_digit n) s = Some rest <->
  exists ds, s = ds ++ rest /\ String.length ds = n /\ all_digits ds = true.
Proof.
  revert s. induction n as [|n IH]; intros s; cbn [repeat match_classes].
  - split.
    + intros H. injection H as <-. exists "". repeat split.
    + intros [ds [-> [L _]]]. destruct ds; [reflexivity | discriminate].
  - destruct s as [|c s].
    + split; [discriminate|]. intros [ds [E [L _]]].
      destruct ds; discriminate.
    + destruct (PyStr.is_digit c) eqn:D.
      * rewrite IH. split.
        -- intros [ds [-> [L A]]]. exists (String c ds). cbn. rewrite D, A, L. repeat split.
        -- intros [ds [E [L A]]]. destruct ds as [|c' ds]; [discriminate|].
           cbn in E, L, A. injection E as <- ->. injection L as L.
           apply andb_true_iff in A as [_ A]. exists ds. repeat split; assumption.
      * split; [discriminate|]. intros [ds [E [L A]]].
        destruct ds as [|c' ds]; [discriminate|]. cbn in E, A. injection E as <- _.
        rewrite D in A. discriminate.
Qed.

Lemma re_sub_non_phone_chars (s : string) : phone_chars (re_sub_non_phone s) = true.
Proof.
  induction s as [|c s IH]; [reflexivity|]. cbn.
  destruct (PyStr.is_digit c || Ascii.eqb c "+") eqn:E; [cbn; rewrite E|]; exact IH.
Qed.

Lemma phone_chars_app (a b : string) :
  phone_chars (a ++ b) = phone_chars a && phone_chars b.
Proof.
  induction a as [|c a IH]; [reflexivity|]. cbn. rewrite IH. apply andb_assoc.
Qed.

Lemma re_sub_non_phone_fixed (s : string) :
  phone_chars s = true -> re_sub_non_phone s = s.
Proof.
  induction s as [|c s IH]; [reflexivity|]. cbn. intros H.
  apply andb_true_iff in H as [H1 H2]. rewrite H1, (IH H2). reflexivity.
Qed.

Lemma string_app_empty (s : string) : s ++ "" = s.
Proof. induction s as [|c s IH]; [reflexivity|]. cbn. now rewrite IH. Qed.

(** On a text of digits and plus signs, seven digits up to the end. *)
Lemma seven_digits_to_end (s : string) :
  phone_chars s = true ->
  re_match (repeat PyStr.is_digit 7) s = true <->
  String.length s = 7%nat /\ all_digits s = true.
Proof.
  intros P. unfold re_match.
  destruct (match_classes (repeat PyStr.is_digit 7) s) as [rest|] eqn:M.
  - apply match_classes_digits in M as [ds [E [L A]]]. subst s.
    rewrite phone_chars_app in P. apply andb_true_iff in P as [_ P].
    destruct rest as [|c rest].
    + rewrite string_app_empty. cbn. tauto.
    + destruct rest as [|c' rest].
      * cbn in P. rewrite andb_true_r in P.
        assert (N : String.eqb (String c "") (String (PyStr.chr 10) "") = false).
        { cbn. destruct (Ascii.eqb c (PyStr.chr 10)) eqn:E; [|reflexivity].
          apply Ascii.eqb_eq in E. subst c. discriminate. }
        rewrite N. cbn. split; [discriminate|]. intros [L' _].
        rewrite length_append in L'. cbn in L'. lia.
      * assert (N : (String.eqb (String c (String c' rest)) "" ||
                     String.eqb (String c (String c' rest)) (String (PyStr.chr 10) "")) = false).
        { cbn. destruct (Ascii.eqb c (PyStr.chr 10)); reflexivity. }
        rewrite N. split; [discriminate|]. intros [L' _].
        rewrite length_append in L'. cbn in L'. lia.
  - split; [discriminate|]. intros [L A].
    assert (M' : match_classes (repeat PyStr.is_digit 7) s = Some "").
    { apply match_classes_digits. exists s. rewrite string_app_empty. auto. }
    congruence.
Qed.

Lemma one_of_spec (chars : string) (c : ascii) :
  one_of chars c = existsb (Ascii.eqb c) (list_ascii_of_string chars).
Proof. reflexivity. Qed.

Lemma phone_patterns_spec (p : string) :
  phone_chars p = true ->
  existsb (fun pattern => re_match pattern p) phone_patterns = true <->
  exists d rest,
    leading_digit d = true /\ String.length rest = 7%nat /\ all_digits rest = true /\
    (p = String d rest \/ p = "+65" ++ String d rest).
Proof.
  intros P. unfold phone_patterns. cbn [existsb]. rewrite orb_false_r.
  assert (step : forall cl c s,
             re_match (cl :: repeat PyStr.is_digit 7) (String c s) =
             cl c && re_match (repeat PyStr.is_digit 7) s).
  { intros cl c s. unfold re_match. cbn [match_classes].
    destruct (cl c); reflexivity. }
  assert (step0 : forall (cl : char_class) q,
             re_match (cl :: q) "" = false) by reflexivity.
  assert (stepc : forall (cl : char_class) q c s,
             re_match (cl :: q) (String c s) =
             cl c && re_match q s).
  { intros cl q c s. unfold re_match. cbn [match_classes].
    destruct (cl c); reflexivity. }
  split.
  - intros H. apply orb_true_iff in H as [H|H]; [|apply orb_true_iff in H as [H|H]].
    + destruct p as [|d rest]; [discriminate|]. rewrite step in H.
      apply andb_true_iff in H as [H1 H2]. cbn in P.
      apply andb_true_iff in P as [_ P].
      apply (seven_digits_to_end _ P) in H2 as [L A].
      exists d, rest. repeat split; auto.
      unfold leading_digit. rewrite one_of_spec in H1. cbn in H1.
      rewrite orb_false_r in H1. destruct (Ascii.eqb d "6"); [reflexivity|exact H1].
    + destruct p as [|d rest]; [discriminate|]. rewrite step in H.
      apply andb_true_iff in H as [H1 H2]. cbn in P.
      apply andb_true_iff in P as [_ P].
      apply (seven_digits_to_end _ P) in H2 as [L A].
      exists d, rest. repeat split; auto.
      unfold leading_digit. rewrite one_of_spec in H1. cbn in H1.
      rewrite orb_false_r in H1. rewrite H1. reflexivity.
    + destruct p as [|c1 p]; [discriminate|]. rewrite stepc in H.
      apply andb_true_iff in H as [H1 H].
      destruct p as [|c2 p]; [discriminate|]. rewrite stepc in H.
      apply andb_true_iff in H as [H2 H].
      destruct p as [|c3 p]; [discriminate|]. rewrite stepc in H.
      apply andb_true_iff in H as [H3 H].
      destruct p as [|d rest]; [discriminate|]. rewrite step in H.
      apply andb_true_iff in H as [H4 H].
      cbn in P. repeat (apply andb_true_iff in P as [_ P]).
      apply (seven_digits_to_end _ P) in H as [L A].
      rewrite one_of_spec in H1, H2, H3, H4. cbn in H1, H2, H3, H4.
      rewrite orb_false_r in H1, H2, H3, H4.
      apply Ascii.eqb_eq in H1, H2, H3. subst c1 c2 c3.
      exists d, rest. repeat split; auto.
      unfold leading_digit. rewrite <- orb_assoc. exact H4.
  - intros [d [rest [D [L [A [E|E]]]]]]; subst p.
    + cbn in P. apply andb_true_iff in P as [_ P].
      rewrite !step. rewrite (proj2 (seven_digits_to_end _ P) (conj L A)).
      rewrite !andb_true_r. rewrite !one_of_spec. cbn. rewrite !orb_false_r.
      unfold leading_digit in D.
      destruct (Ascii.eqb d "8"), (Ascii.eqb d "9"), (Ascii.eqb d "6");
        try reflexivity; discriminate.
    + change ("+65" ++ String d rest) with (String "+" (String "6" (String "5" (String d rest)))) in *.
      cbn in P. repeat (apply andb_true_iff in P as [_ P]).
      apply orb_true_iff. right. apply orb_true_iff. right.
      rewrite 4!stepc. rewrite (proj2 (seven_digits_to_end _ P) (conj L A)).
      rewrite !one_of_spec. cbn. rewrite !orb_false_r, andb_true_r.
      unfold leading_digit in D. rewrite orb_assoc. exact D.
Qed.

(** X1. [validate_singapore_phone] passes a text exactly when it is empty
    or when, with every character other than a digit or a plus sign taken
    out, it is a digit 6, 8 or 9 followed by seven digits, with or without
    +65 in front. Spaces, hyphens and letters between the digits do not
    matter; a plus sign anywhere else does. *)
Theorem validate_singapore_phone_accepts (s : string) :
  validate_singapore_phone (Some s) = Passed <->
  s = "" \/
  exists d rest,
    leading_digit d = true /\ String.length rest = 7%nat /\ all_digits rest = true /\
    (re_sub_non_phone s = String d rest \/
     re_sub_non_phone s = "+65" ++ String d rest).
Proof.
  unfold validate_singapore_phone. cbn [PyStr.truthy_opt text_or_empty].
  destruct s as [|c s]; [cbn; tauto|].
  change (PyStr.truthy (String c s)) with true. cbv iota.
  pose proof (phone_patterns_spec _ (re_sub_non_phone_chars (String c s))) as S.
  destruct (existsb (fun pattern => re_match pattern (re_sub_non_phone (String c s)))
                    phone_patterns) eqn:E; cbn [negb].
  - split; [intros _; right; apply S; reflexivity | reflexivity].
  - split; [discriminate|]. intros [H|H]; [discriminate|].
    apply S in H. discriminate.
Qed.


(* ===================================================================== *)
(** * Renumbering an invoice *)
(* ===================================================================== *)

Lemma renumber_keeps_unique (key : Z) (n : string) (l : list Invoice.t) :
  NoDup (map Invoice.id l) ->
  NoDup (map Invoice.invoice_number l) ->
  (forall i, In i l -> Invoice.invoice_number i = n -> Invoice.id i = key) ->
  NoDup (map Invoice.invoice_number
           (map (fun i => if Invoice.id i =? key then Invoice.set_invoice_number n i else i) l)).
Proof.
  induction l as [|a l IH]; intros Hid Hnum Hn; cbn [map]; [constructor|].
  cbn [map] in Hid, Hnum. inversion Hid as [|? ? Ha1 Hid']. inversion Hnum as [|? ? Ha2 Hnum'].
  subst. constructor.
  - intro Hin. apply in_map_iff in Hin as [j' [Hj' Hin]].
    apply in_map_iff in Hin as [j [<- Hj]].
    destruct (Invoice.id a =? key) eqn:Ea; destruct (Invoice.id j =? key) eqn:Ej;
      cbn in Hj'.
    + apply Z.eqb_eq in Ea, Ej. apply Ha1. apply in_map_iff. exists j. split; [lia|exact Hj].
    + apply Z.eqb_neq in Ej. apply Ej. apply Hn; [right; exact Hj|exact Hj'].
    + apply Z.eqb_neq in Ea. apply Ea. apply Hn; [left; reflexivity|].
      symmetry. exact Hj'.
    + apply Ha2. apply in_map_iff. exists j. split; [exact Hj'|exact Hj].
  - apply IH; auto. intros i Hi. apply Hn. right. exact Hi.
Qed.

Lemma existsb_false_forall (A : Type) (p : A -> bool) (l : list A) :
  existsb p l = false -> forall x, In x l -> p x = false.
Proof.
  intros H x Hx. destruct (p x) eqn:E; [|reflexivity].
  assert (existsb p l = true) by (apply existsb_exists; eauto). congruence.
Qed.

Lemma map_update_ids (key : Z) (f : Invoice.t -> Invoice.t) (l : list Invoice.t) :
  (forall i, Invoice.id (f i) = Invoice.id i) ->
  map Invoice.id (map (fun i => if Invoice.id i =? key then f i else i) l) =
  map Invoice.id l.
Proof.
  intro Hf. rewrite map_map. apply map_ext. intro i.
  destruct (Invoice.id i =? key); [apply Hf|reflexivity].
Qed.



(* ===================================================================== *)
(** * The routes and the job as sequences of elementary writes *)
(* ===================================================================== *)

Lemma writes_one (b : bool) (db db' : Db) : write b db db' -> writes b db db'.
Proof. intro H. eapply writes_cons; [exact H|apply writes_nil]. Qed.

Lemma writes_app (b : bool) (db1 db2 db3 : Db) :
  writes b db1 db2 -> writes b db2 db3 -> writes b db1 db3.
Proof.
  induction 1 as [|db1 dba db2 Hw _ IH]; [auto|].
  intro H. eapply writes_cons; [exact Hw|apply IH; exact H].
Qed.

Lemma writes_snoc (b : bool) (db1 db2 db3 : Db) :
  writes b db1 db2 -> write b db2 db3 -> writes b db1 db3.
Proof. intros H1 H2. eapply writes_app; [exact H1|apply writes_one; exact H2]. Qed.

Lemma valid_status_is (s : string) :
  valid_status s = true ->
  s = "draft" \/ s = "sent" \/ s = "paid" \/ s = "overdue" \/ s = "cancelled".
Proof.
  unfold valid_status. cbn [existsb]. rewrite orb_false_r.
  intro H. repeat (apply orb_true_iff in H as [H|H]);
    apply String.eqb_eq in H; auto 6.
Qed.

Lemma send_invoice_email_configured env db invoice :
  send_invoice_email env db invoice = true -> mail_configured env = true.
Proof.
  unfold send_invoice_email. destruct (mail_configured env); [reflexivity|discriminate].
Qed.

Lemma update_invoice_status_writes env db current_user invoice_id new_status :
  writes (mail_configured env) db
    (fst (update_invoice_status env db current_user invoice_id new_status)).
Proof.
  unfold update_invoice_status, admin_required, update_invoice_status_view.
  destruct (negb (User.is_admin current_user)); [apply writes_nil|].
  destruct (own_invoice db current_user invoice_id) as [invoice|]; [|apply writes_nil].
  destruct new_status as [s|]; [|apply writes_nil].
  destruct (valid_status s) eqn:V; [|apply writes_nil].
  destruct (String.eqb s "sent") eqn:E.
  - destruct (send_invoice_email env db invoice) eqn:M; [|apply writes_nil].
    cbn [fst]. apply writes_one. apply write_status; [reflexivity|].
    intros _. exact (send_invoice_email_configured _ _ _ M).
  - cbn [fst]. eapply writes_snoc; [|apply write_audit].
    eapply writes_snoc; [|apply write_notification]. apply writes_one.
    apply write_status; [exact V|]. intro Hs. rewrite Hs in E. discriminate.
Qed.

Lemma update_invoice_number_writes b db current_user invoice_id field :
  writes b db (fst (update_invoice_number db current_user invoice_id field)).
Proof.
  unfold update_invoice_number, admin_required.
  destruct (negb (User.is_admin current_user)); [apply writes_nil|].
  destruct (own_invoice db current_user invoice_id) as [invoice|] eqn:Hown; [|apply writes_nil].
  destruct (own_invoice_id _ _ _ Hown) as [Hin Hkey].
  destruct (negb (PyStr.truthy _)); [apply writes_nil|].
  destruct (existsb _ (invoices db)) eqn:Hdup; [apply writes_nil|].
  cbn [fst]. eapply writes_snoc; [|apply write_audit]. apply writes_one.
  apply write_number. intros i Hi Hn.
  pose proof (existsb_false_forall _ _ Hdup i Hi) as Hfree. cbn beta in Hfree.
  rewrite Hn, String.eqb_refl in Hfree. cbn in Hfree.
  apply negb_false_iff in Hfree. apply Z.eqb_eq in Hfree. congruence.
Qed.

Lemma customer_invoice_client db current_user invoice_id invoice :
  customer_invoice db current_user invoice_id = Some invoice ->
  In invoice (invoices db) /\ Invoice.id invoice = invoice_id /\
  addressed_to db current_user invoice = true /\
  exists client, invoice_client db invoice = Some client.
Proof.
  unfold customer_invoice. intro H. apply find_some in H as [Hin Hp].
  apply andb_true_iff in Hp as [Hid Hc]. apply Z.eqb_eq in Hid.
  repeat split; auto.
  apply existsb_exists in Hc as [c [Hc1 Hc2]]. apply andb_true_iff in Hc2 as [Hc2 _].
  unfold invoice_client.
  destruct (find (fun c0 => Client.id c0 =? Invoice.client_id invoice) (clients db)) eqn:F;
    [eauto|].
  pose proof (find_none _ _ F c Hc1) as N. cbn beta in N. congruence.
Qed.

Lemma customer_pay_invoice_writes env db current_user invoice_id r :
  customer_pay_invoice env db current_user invoice_id = Ok r ->
  writes (mail_configured env) db (fst r).
Proof.
  unfold customer_pay_invoice.
  destruct (User.is_admin current_user); [intro H; injection H as <-; apply writes_nil|].
  destruct (customer_invoice db current_user invoice_id) as [invoice|];
    [|intro H; injection H as <-; apply writes_nil].
  destruct (Invoice.is_completed invoice); [intro H; injection H as <-; apply writes_nil|].
  destruct (invoice_client _ invoice) as [client|]; [|discriminate].
  intro H. injection H as <-. cbn [fst].
  eapply writes_snoc; [|apply write_notification].
  eapply writes_snoc; [|apply write_notification].
  eapply writes_snoc; [|apply write_audit].
  apply writes_one. apply write_status; [reflexivity|discriminate].
Qed.

Lemma delete_invoice_writes b db current_user invoice_id :
  writes b db (fst (delete_invoice db current_user invoice_id)).
Proof.
  unfold delete_invoice, admin_required.
  destruct (negb (User.is_admin current_user)); [apply writes_nil|].
  destruct (own_invoice db current_user invoice_id) as [invoice|]; [|apply writes_nil].
  cbn [fst]. eapply writes_snoc; [|apply write_audit].
  apply writes_one. apply write_delete.
Qed.

Lemma delete_client_writes b db current_user client_id :
  writes b db (fst (delete_client db current_user client_id)).
Proof.
  unfold delete_client, admin_required.
  destruct (negb (User.is_admin current_user)); [apply writes_nil|].
  destruct (own_client db current_user client_id) as [client|]; [|apply writes_nil].
  destruct (client_invoices db client) as [|i l] eqn:E; [|apply writes_nil].
  cbn [fst]. eapply writes_snoc; [|apply write_audit]. apply writes_one.
  apply write_client_delete. intros i Hi Hc.
  assert (In i (client_invoices db client)) as Hin.
  { unfold client_invoices. apply filter_In. split; [exact Hi|]. apply Z.eqb_eq. exact Hc. }
  rewrite E in Hin. exact Hin.
Qed.

Lemma update_settings_writes b db current_user email invoice_prefix :
  In current_user (users db) ->
  writes b db (fst (update_settings db current_user email invoice_prefix)).
Proof.
  intro Hin. unfold update_settings.
  destruct (String.eqb (args_get email (User.email current_user)) (User.email current_user))
    eqn:E; cbn [negb andb].
  - cbn [fst]. apply writes_one. apply write_user. right.
    exists current_user. apply String.eqb_eq in E. auto.
  - destruct (existsb _ (users db)) eqn:X; [apply writes_nil|].
    cbn [fst]. apply writes_one. apply write_user. left.
    intros u Hu Heq. pose proof (existsb_false_forall _ _ X u Hu) as N. cbn beta in N.
    rewrite Heq, String.eqb_refl in N. discriminate.
Qed.


Lemma insert_invoice_writes b db mk db1 inv :
  insert_invoice db mk = Ok (db1, inv) ->
  Invoice.status (mk (next_invoice_id db)) = "draft" ->
  (forall key, Invoice.id (mk key) = key) ->
  write b db db1 /\ inv = mk (next_invoice_id db) /\
  db1 = with_invoices db (invoices db ++ [inv])%list /\
  number_taken db (Invoice.invoice_number inv) = false.
Proof.
  unfold insert_invoice. intros H Hs Hk.
  destruct (number_taken db _) eqn:T; [discriminate|].
  injection H as <- <-. repeat split; [|exact T].
  apply write_invoice; [apply Hk|exact T|exact Hs].
Qed.

Lemma totals_columns (items : list InvoiceItem.t) (i : Invoice.t) :
  Invoice.id (Invoice.calculate_totals items i) = Invoice.id i /\
  Invoice.invoice_number (Invoice.calculate_totals items i) = Invoice.invoice_number i /\
  Invoice.status (Invoice.calculate_totals items i) = Invoice.status i.
Proof. repeat split. Qed.

Lemma next_send_columns (d : option DateTime.datetime) (i : Invoice.t) :
  Invoice.id (Invoice.set_next_send_date d i) = Invoice.id i /\
  Invoice.invoice_number (Invoice.set_next_send_date d i) = Invoice.invoice_number i /\
  Invoice.status (Invoice.set_next_send_date d i) = Invoice.status i.
Proof. repeat split. Qed.

Lemma add_items_writes b lib key : forall rows db db2,
  add_items lib key rows db = Done db2 ->
  (exists i, In i (invoices db) /\ Invoice.id i = key) ->
  writes b db db2 /\ invoices db2 = invoices db.
Proof.
  induction rows as [|[[desc qty] price] rows IH]; intros db db2 H Hex; cbn [add_items] in H.
  - injection H as <-. split; [apply writes_nil|reflexivity].
  - destruct (negb (PyStr.truthy (PyStr.strip desc))); [apply IH; assumption|].
    destruct (float_or_zero lib (Some qty)) as [q|]; cbn [attempt_bind] in H; [|discriminate].
    destruct (float_or_zero lib (Some price)) as [p|]; cbn [attempt_bind] in H; [|discriminate].
    apply IH in H; [|exact Hex]. destruct H as [H1 H2]. split; [|exact H2].
    eapply writes_cons; [|exact H1]. apply write_item.
    destruct Hex as [i [Hi Hk]]. exists i. split; [exact Hi|]. cbn. auto.
Qed.

Lemma create_invoice_page_writes env lib now now_send today db current_user form :
  writes (mail_configured env) db
    (fst (create_invoice_page env lib now now_send today db current_user form)).
Proof.
  unfold create_invoice_page.
  destruct (negb (User.is_admin current_user)); [apply writes_nil|].
  destruct (create_invoice_post env lib now now_send today db current_user form)
    as [[db' r]|e] eqn:H; [|apply writes_nil].
  cbn [fst]. unfold create_invoice_post in H.
  destruct (float_or_zero lib (InvoiceForm.tax_rate form)) as [tax|];
    cbn [attempt_bind] in H; [|discriminate].
  destruct (negb (PyStr.truthy_opt (InvoiceForm.client_id form)));
    [injection H as <- _; apply writes_nil|].
  destruct (negb (PyStr.truthy_opt (InvoiceForm.due_date form)));
    [injection H as <- _; apply writes_nil|].
  destruct (negb (existsb _ (InvoiceForm.item_description form)));
    [injection H as <- _; apply writes_nil|].
  destruct (find _ (clients db)) as [client|]; cbn [attempt_bind] in H; [|discriminate].
  destruct (strptime lib _) as [due|]; cbn [attempt_bind] in H; [|discriminate].
  destruct (create_invoice_page_number today db current_user client _) as [number|];
    cbn [attempt_bind lift] in H; [|discriminate].
  destruct (recurring_setup _ _ now_send) as [sends|];
    cbn [attempt_bind lift] in H; [|discriminate].
  destruct (PyStr.py_int _) as [client_key|]; cbn [attempt_bind] in H; [|discriminate].
  destruct (insert_invoice db _) as [[db1 inv]|] eqn:I;
    cbn [attempt_bind lift fst snd] in H; [|discriminate].
  apply (insert_invoice_writes (mail_configured env)) in I as (W1 & Einv & Edb1 & T);
    [|reflexivity|reflexivity].
  destruct (add_items lib (Invoice.id inv) _ db1) as [db2|] eqn:A;
    cbn [attempt_bind] in H; [|discriminate].
  apply (add_items_writes (mail_configured env)) in A as [W2 Einv2].
  2:{ exists inv. split; [|reflexivity]. rewrite Edb1. cbn. apply in_or_app.
      right. left. reflexivity. }
  assert (W : writes (mail_configured env) db
                (log_audit
                   (create_notification
                      (update_invoice (Invoice.id inv)
                         (Invoice.calculate_totals (invoice_items_of db2 inv)) db2)
                      (User.id current_user) "Invoice Created"
                      ("Invoice " ++
                       Invoice.invoice_number
                         (Invoice.calculate_totals (invoice_items_of db2 inv) inv) ++
                       " has been created (Draft)") false)
                   current_user "create" "invoice"
                   (Invoice.id (Invoice.calculate_totals (invoice_items_of db2 inv) inv))
                   ("Created invoice " ++
                    Invoice.invoice_number
                      (Invoice.calculate_totals (invoice_items_of db2 inv) inv)))).
  { eapply writes_snoc; [|apply write_audit].
    eapply writes_snoc; [|apply write_notification].
    eapply writes_snoc; [|apply write_columns; apply totals_columns].
    eapply writes_cons; [exact W1|exact W2]. }
  destruct (send_invoice_email env _ _) eqn:M; injection H as <- _.
  - eapply writes_snoc; [exact W|]. apply write_status; [reflexivity|].
    intros _. exact (send_invoice_email_configured _ _ _ M).
  - exact W.
Qed.

Lemma copy_items_writes b key : forall items db,
  (exists i, In i (invoices db) /\ Invoice.id i = key) ->
  writes b db (copy_items key items db).
Proof.
  unfold copy_items. induction items as [|x items IH]; intros db Hex; cbn [fold_left].
  - apply writes_nil.
  - eapply writes_cons.
    + apply (@write_item b db (copy_item key x)).
      destruct Hex as [i [Hi Hk]]. exists i. split; [exact Hi|].
      cbn. symmetry. exact Hk.
    + apply IH. exact Hex.
Qed.

Lemma process_template_writes env user_of now today db t :
  writes (mail_configured env) db (fst (process_template env user_of now today db t)).
Proof.
  unfold process_template.
  destruct (create_child user_of now today db t) as [[db1 child]|e] eqn:H;
    [|apply writes_nil].
  unfold create_child in H.
  destruct (user_of db t) as [user|]; cbn [bind] in H; [|discriminate].
  destruct (generate_invoice_number today db user (invoice_client db t) "INV")
    as [number|]; cbn [bind] in H; [|discriminate].
  destruct (DateTime.add now _) as [due|]; cbn [bind] in H; [|discriminate].
  destruct (insert_invoice db _) as [[db0 c0]|] eqn:I; cbn [bind fst snd] in H;
    [|discriminate].
  apply (insert_invoice_writes (mail_configured env)) in I as (W1 & Ec0 & Edb0 & T);
    [|reflexivity|reflexivity].
  destruct (Invoice.calculate_next_send_date t) as [next|]; cbn [bind] in H;
    [|discriminate].
  injection H as <- <-.
  set (db2 := copy_items (Invoice.id c0) (invoice_items_of db0 t) db0) in *.
  assert (W2 : writes (mail_configured env) db0 db2).
  { apply copy_items_writes. exists c0. split; [|reflexivity]. rewrite Edb0. cbn.
    apply in_or_app. right. left. reflexivity. }
  set (db4 := update_invoice (Invoice.id t) (Invoice.set_next_send_date next)
                (update_invoice (Invoice.id c0)
                   (Invoice.calculate_totals (invoice_items_of db2 c0)) db2)).
  assert (W : writes (mail_configured env) db db4).
  { eapply writes_snoc; [|apply write_columns; apply next_send_columns].
    eapply writes_snoc; [|apply write_columns; apply totals_columns].
    eapply writes_cons; [exact W1|exact W2]. }
  unfold deliver_child.
  destruct (send_invoice_email env db4 _) eqn:M.
  - assert (W' : writes (mail_configured env) db
                   (update_invoice
                      (Invoice.id (Invoice.calculate_totals (invoice_items_of db2 c0) c0))
                      (Invoice.set_status "sent") db4)).
    { eapply writes_snoc; [exact W|]. apply write_status; [reflexivity|].
      intros _. exact (send_invoice_email_configured _ _ _ M). }
    destruct (invoice_client _ t); cbn [fst]; [|exact W'].
    eapply writes_snoc; [exact W'|apply write_notification].
  - cbn [fst]. eapply writes_snoc; [exact W|apply write_notification].
Qed.

Lemma run_templates_writes env user_of now today : forall ts db,
  writes (mail_configured env) db (fst (run_templates env user_of now today ts db)).
Proof.
  induction ts as [|t ts IH]; intro db; cbn [run_templates]; [apply writes_nil|].
  pose proof (process_template_writes env user_of now today db t) as W.
  destruct (process_template env user_of now today db t) as [db1 [e|]]; cbn [fst] in *.
  - exact W.
  - eapply writes_app; [exact W|apply IH].
Qed.

Lemma step_writes env lib db db' :
  step env lib db db' -> writes (mail_configured env) db db'.
Proof.
  intros [u k s|u k f|u k r H|u k|u k|u e p H|n n' t u f|user_of n t].
  - apply update_invoice_status_writes.
  - apply update_invoice_number_writes.
  - eapply customer_pay_invoice_writes; exact H.
  - apply delete_invoice_writes.
  - apply delete_client_writes.
  - apply update_settings_writes; exact H.
  - apply create_invoice_page_writes.
  - apply run_templates_writes.
Qed.

Lemma reachable_writes env lib db db' :
  reachable env lib db db' -> writes (mail_configured env) db db'.
Proof.
  induction 1 as [|db1 db2 _ IH S]; [apply writes_nil|].
  eapply writes_app; [exact IH|apply step_writes with (lib := lib); exact S].
Qed.

(** An invariant of the elementary writes holds along every sequence. *)
Lemma writes_invariant (b : bool) (P : Db -> Prop) :
  (forall db db', P db -> write b db db' -> P db') ->
  forall db db', writes b db db' -> P db -> P db'.
Proof.
  intros HP db db' W. induction W as [|db db1 db2 W1 _ IH]; [auto|].
  intro H. apply IH. eapply HP; eauto.
Qed.


(* ===================================================================== *)
(** * Invariants of the database *)
(* ===================================================================== *)

Lemma map_update_numbers (key : Z) (f : Invoice.t -> Invoice.t) (l : list Invoice.t) :
  (forall i, Invoice.invoice_number (f i) = Invoice.invoice_number i) ->
  map Invoice.invoice_number (map (fun i => if Invoice.id i =? key then f i else i) l) =
  map Invoice.invoice_number l.
Proof.
  intro Hf. rewrite map_map. apply map_ext. intro i.
  destruct (Invoice.id i =? key); [apply Hf|reflexivity].
Qed.

(** The rows of a query keep the distinct keys of the table. *)
Lemma filter_keeps_distinct (Row Key : Type) (key : Row -> Key) (keep : Row -> bool)
    (rows : list Row) (distinct : NoDup (map key rows)) :
  NoDup (map key (filter keep rows)).
Proof.
  induction rows as [|r rows IH]; cbn; [constructor|].
  cbn in distinct. inversion distinct as [|? ? Hr Hrows]; subst.
  destruct (keep r); [|auto]. cbn. constructor; [|auto].
  intro Hin. apply Hr. apply in_map_iff in Hin as [x [Hx Hin]].
  apply filter_In in Hin as [Hin _]. apply in_map_iff. eauto.
Qed.

Lemma number_taken_false db n :
  number_taken db n = false -> ~ In n (map Invoice.invoice_number (invoices db)).
Proof.
  unfold number_taken. intros H Hin. apply in_map_iff in Hin as [i [Hn Hi]].
  pose proof (existsb_false_forall _ _ H i Hi) as N. cbn beta in N.
  rewrite Hn, String.eqb_refl in N. discriminate.
Qed.

Lemma next_invoice_id_fresh db :
  ~ In (next_invoice_id db) (map Invoice.id (invoices db)).
Proof.
  intro Hin. apply in_map_iff in Hin as [i [Hk Hi]].
  pose proof (id_lt_next_invoice_id db i Hi). lia.
Qed.

Lemma NoDup_snoc (A : Type) (l : list A) (x : A) :
  NoDup l -> ~ In x l -> NoDup (l ++ [x]).
Proof.
  intros Hl Hx. apply NoDup_app; [exact Hl|repeat constructor; auto|].
  intros y Hy [<-|[]]. exact (Hx Hy).
Qed.

Lemma write_invoices_unique b db db' :
  invoices_unique db -> write b db db' -> invoices_unique db'.
Proof.
  intros [Hid Hnum] W. unfold invoices_unique.
  destruct W as [key s V M|key n Hn|key f Hf|c Hc T S|mk H|inv| | |key H|key e p H];
    cbn [update_invoice with_invoices invoices with_clients with_users insert_item
         with_invoice_items create_notification with_notifications log_audit
         with_audit_logs delete_invoice_row]; auto.
  - rewrite map_update_ids, map_update_numbers by reflexivity. auto.
  - rewrite map_update_ids by reflexivity. split; [exact Hid|].
    apply renumber_keeps_unique; assumption.
  - rewrite map_update_ids, map_update_numbers by apply Hf. auto.
  - rewrite !map_app. cbn [map]. split; apply NoDup_snoc; auto.
    + rewrite Hc. apply next_invoice_id_fresh.
    + apply number_taken_false. exact T.
  - split; apply filter_keeps_distinct; assumption.
Qed.

Lemma write_statuses_valid b db db' :
  statuses_valid db -> write b db db' -> statuses_valid db'.
Proof.
  unfold statuses_valid. intros Hv W.
  destruct W as [key s V M|key n Hn|key f Hf|c Hc T S|mk H|inv| | |key H|key e p H];
    cbn [update_invoice with_invoices invoices with_clients with_users insert_item
         with_invoice_items create_notification with_notifications log_audit
         with_audit_logs delete_invoice_row]; auto.
  - apply Forall_map. eapply Forall_impl; [|exact Hv]. intros i Hi. cbn beta.
    destruct (Invoice.id i =? key); [exact V|exact Hi].
  - apply Forall_map. eapply Forall_impl; [|exact Hv]. intros i Hi. cbn beta.
    destruct (Invoice.id i =? key); exact Hi.
  - apply Forall_map. eapply Forall_impl; [|exact Hv]. intros i Hi. cbn beta.
    destruct (Invoice.id i =? key); [|exact Hi].
    destruct (Hf i) as (_ & _ & ->). exact Hi.
  - apply Forall_app. split; [exact Hv|]. constructor; [|constructor].
    rewrite S. reflexivity.
  - apply Forall_forall. intros i Hi. apply filter_In in Hi as [Hi _].
    revert i Hi. apply Forall_forall. exact Hv.
Qed.

Lemma in_update_invoice (key : Z) (f : Invoice.t -> Invoice.t) (l : list Invoice.t)
    (i : Invoice.t) :
  (forall j, Invoice.id (f j) = Invoice.id j) ->
  In i l ->
  exists i', In i' (map (fun j => if Invoice.id j =? key then f j else j) l) /\
             Invoice.id i' = Invoice.id i.
Proof.
  intros Hf Hi. exists (if Invoice.id i =? key then f i else i). split.
  - apply in_map_iff. exists i. auto.
  - destruct (Invoice.id i =? key); [apply Hf|reflexivity].
Qed.

Lemma write_items_attached b db db' :
  items_attached db -> write b db db' -> items_attached db'.
Proof.
  unfold items_attached. intros Ha W.
  destruct W as [key s V M|key n Hn|key f Hf|c Hc T S|mk H|inv| | |key H|key e p H];
    cbn [update_invoice with_invoices invoices with_clients with_users insert_item
         with_invoice_items create_notification with_notifications log_audit
         with_audit_logs delete_invoice_row invoice_items]; auto.
  - intros it Hit. destruct (Ha it Hit) as [i [Hi Hk]].
    destruct (@in_update_invoice key (Invoice.set_status s) _ i (fun _ => eq_refl) Hi)
      as [i' [Hi' Hk']]. exists i'. split; [exact Hi'|congruence].
  - intros it Hit. destruct (Ha it Hit) as [i [Hi Hk]].
    destruct (@in_update_invoice key (Invoice.set_invoice_number n) _ i (fun _ => eq_refl) Hi)
      as [i' [Hi' Hk']]. exists i'. split; [exact Hi'|congruence].
  - intros it Hit. destruct (Ha it Hit) as [i [Hi Hk]].
    destruct (@in_update_invoice key f _ i (fun j => proj1 (Hf j)) Hi)
      as [i' [Hi' Hk']]. exists i'. split; [exact Hi'|congruence].
  - intros it Hit. destruct (Ha it Hit) as [i [Hi Hk]]. exists i.
    split; [apply in_or_app; left; exact Hi|exact Hk].
  - intros it Hit. apply in_app_or in Hit as [Hit|[<-|[]]]; [auto|].
    destruct H as [i [Hi Hk]]. exists i. split; [exact Hi|]. symmetry. exact Hk.
  - intros it Hit. apply filter_In in Hit as [Hit Hne].
    destruct (Ha it Hit) as [i [Hi Hk]]. exists i. split; [|exact Hk].
    apply filter_In. split; [exact Hi|]. rewrite Hk. exact Hne.
Qed.

Lemma logs_extend_refl db : logs_extend db db.
Proof. split; exists []; rewrite app_nil_r; reflexivity. Qed.

Lemma logs_extend_trans db1 db2 db3 :
  logs_extend db1 db2 -> logs_extend db2 db3 -> logs_extend db1 db3.
Proof.
  intros [[n1 H1] [a1 G1]] [[n2 H2] [a2 G2]]. split.
  - exists (n1 ++ n2)%list. rewrite H2, H1, app_assoc. reflexivity.
  - exists (a1 ++ a2)%list. rewrite G2, G1, app_assoc. reflexivity.
Qed.

Lemma write_logs_extend b db db' : write b db db' -> logs_extend db db'.
Proof.
  intros [key s V M|key n Hn|key f Hf|c Hc T S|mk H|inv|u t m e|u a e k d|key H|key e p H];
    try (split; exists []; rewrite app_nil_r; reflexivity).
  - split; [eexists; reflexivity|exists []; rewrite app_nil_r; reflexivity].
  - split; [exists []; rewrite app_nil_r; reflexivity|eexists; reflexivity].
Qed.

Lemma writes_logs_extend b db db' : writes b db db' -> logs_extend db db'.
Proof.
  induction 1 as [|db db1 db2 W _ IH]; [apply logs_extend_refl|].
  eapply logs_extend_trans; [apply write_logs_extend with (b := b); exact W|exact IH].
Qed.

Lemma no_new_sent_refl db : no_new_sent db db.
Proof. intros i Hi Hs. exists i. auto. Qed.

Lemma no_new_sent_trans db1 db2 db3 :
  no_new_sent db1 db2 -> no_new_sent db2 db3 -> no_new_sent db1 db3.
Proof.
  intros H12 H23 i Hi Hs. destruct (H23 i Hi Hs) as [j [Hj [Hk Hsj]]].
  destruct (H12 j Hj Hsj) as [k [Hk1 [Hk2 Hk3]]]. exists k. repeat split; auto. congruence.
Qed.

Lemma no_new_sent_update (key : Z) (f : Invoice.t -> Invoice.t) (db : Db) :
  (forall i, Invoice.id (f i) = Invoice.id i) ->
  (forall i, Invoice.status (f i) = "sent" -> Invoice.status i = "sent") ->
  no_new_sent db (update_invoice key f db).
Proof.
  intros Hid Hst i Hi Hs. cbn in Hi. apply in_map_iff in Hi as [j [<- Hj]].
  exists j. destruct (Invoice.id j =? key); auto.
Qed.

Lemma write_no_new_sent db db' : write false db db' -> no_new_sent db db'.
Proof.
  intros [key s V M|key n Hn|key f Hf|c Hc T S|mk H|inv|u t m e|u a e k d|key H|key e p H];
    try (intros i Hi Hs; exists i; auto; fail).
  - apply no_new_sent_update; [reflexivity|]. intros i Hs. cbn in Hs.
    specialize (M Hs). discriminate.
  - apply no_new_sent_update; [reflexivity|]. intros i Hs. exact Hs.
  - apply no_new_sent_update; [intro i; apply Hf|].
    intros i Hs. destruct (Hf i) as (_ & _ & <-). exact Hs.
  - intros i Hi Hs. cbn in Hi. apply in_app_or in Hi as [Hi|[<-|[]]].
    + exists i. auto.
    + rewrite S in Hs. discriminate.
  - intros i Hi Hs. cbn in Hi. apply filter_In in Hi as [Hi _]. exists i. auto.
Qed.

Lemma writes_no_new_sent db db' : writes false db db' -> no_new_sent db db'.
Proof.
  induction 1 as [|db db1 db2 W _ IH]; [apply no_new_sent_refl|].
  eapply no_new_sent_trans; [apply write_no_new_sent; exact W|exact IH].
Qed.

Lemma NoDup_map_In_eq (A B : Type) (f : A -> B) (l : list A) (x y : A) :
  NoDup (map f l) -> In x l -> In y l -> f x = f y -> x = y.
Proof.
  induction l as [|a l IH]; cbn; [tauto|]. intro H. inversion H as [|? ? Ha Hl]; subst.
  intros [->|Hx] [->|Hy] E; auto.
  - exfalso. apply Ha. rewrite E. apply in_map. exact Hy.
  - exfalso. apply Ha. rewrite <- E. apply in_map. exact Hx.
Qed.

Lemma users_email_update (key : Z) (email : string) (prefix : option string)
    (l : list User.t) :
  NoDup (map User.id l) ->
  NoDup (map User.email l) ->
  (forall u, In u l -> User.email u = email -> User.id u = key) ->
  NoDup (map User.email
           (map (fun u => if User.id u =? key then set_email_and_prefix email prefix u else u) l)).
Proof.
  induction l as [|a l IH]; intros Hid Hem Hn; cbn [map]; [constructor|].
  cbn [map] in Hid, Hem. inversion Hid as [|? ? Ha1 Hid']. inversion Hem as [|? ? Ha2 Hem'].
  subst. constructor.
  - intro Hin. apply in_map_iff in Hin as [j' [Hj' Hin]].
    apply in_map_iff in Hin as [j [<- Hj]].
    destruct (User.id a =? key) eqn:Ea; destruct (User.id j =? key) eqn:Ej; cbn in Hj'.
    + apply Z.eqb_eq in Ea, Ej. apply Ha1. apply in_map_iff. exists j. split; [lia|exact Hj].
    + apply Z.eqb_neq in Ej. apply Ej. apply Hn; [right; exact Hj|exact Hj'].
    + apply Z.eqb_neq in Ea. apply Ea. apply Hn; [left; reflexivity|].
      symmetry. exact Hj'.
    + apply Ha2. apply in_map_iff. exists j. split; [exact Hj'|exact Hj].
  - apply IH; auto. intros i Hi. apply Hn. right. exact Hi.
Qed.

Lemma write_users_unique b db db' :
  users_unique db -> write b db db' -> users_unique db'.
Proof.
  intros [Hid Hem] W. unfold users_unique.
  destruct W as [key s V M|key n Hn|key f Hf|c Hc T S|mk H|inv| | |key H|key e p H];
    cbn [update_invoice with_invoices users with_clients with_users insert_item
         with_invoice_items create_notification with_notifications log_audit
         with_audit_logs delete_invoice_row]; auto.
  split.
  - rewrite map_map.
    replace (map (fun u => User.id (if User.id u =? key
                                    then set_email_and_prefix e p u else u)) (users db))
      with (map User.id (users db)); [exact Hid|].
    apply map_ext. intro u. destruct (User.id u =? key); reflexivity.
  - apply users_email_update; auto. intros u Hu Heq.
    destruct H as [H|[cu [Hcu [Hk He]]]].
    + exfalso. exact (H u Hu Heq).
    + rewrite <- Hk. f_equal.
      apply (@NoDup_map_In_eq _ _ User.email (users db)); auto. congruence.
Qed.


(** X3. Along every sequence of requests and runs of the job, invoice
    keys and invoice numbers stay pairwise distinct. *)
Theorem reachable_invoices_unique (env : Env) (lib : Lib) (db db' : Db) :
  invoices_unique db -> reachable env lib db db' -> invoices_unique db'.
Proof.
  intros H R. apply reachable_writes in R.
  apply (@writes_invariant (mail_configured env) invoices_unique) with (db := db); auto.
  intros d d' Hd W. exact (write_invoices_unique Hd W).
Qed.

(** X4. Along every sequence of requests and runs of the job, every
    invoice keeps one of the statuses draft, sent, paid, overdue and
    cancelled. *)
Theorem reachable_statuses_valid (env : Env) (lib : Lib) (db db' : Db) :
  statuses_valid db -> reachable env lib db db' -> statuses_valid db'.
Proof.
  intros H R. apply reachable_writes in R.
  apply (@writes_invariant (mail_configured env) statuses_valid) with (db := db); auto.
  intros d d' Hd W. exact (write_statuses_valid Hd W).
Qed.

(** X5. Along every sequence of requests and runs of the job, every
    invoice item belongs to an invoice of the table: [delete_invoice]
    takes the items with the invoice, and items are only written for an
    invoice that was just inserted. *)
Theorem reachable_items_attached (env : Env) (lib : Lib) (db db' : Db) :
  items_attached db -> reachable env lib db db' -> items_attached db'.
Proof.
  intros H R. apply reachable_writes in R.
  apply (@writes_invariant (mail_configured env) items_attached) with (db := db); auto.
  intros d d' Hd W. exact (write_items_attached Hd W).
Qed.

(** X6. Notifications and audit entries are only ever appended: what was
    recorded stays, in its order, whatever requests and job runs follow. *)
Theorem reachable_logs_extend (env : Env) (lib : Lib) (db db' : Db) :
  reachable env lib db db' -> logs_extend db db'.
Proof.
  intro R. apply reachable_writes in R. eapply writes_logs_extend. exact R.
Qed.

(** X7. Without a mail configuration no invoice ever becomes ["sent"]:
    neither [update_invoice_status], nor [create_invoice_page], nor the
    job writes that status. *)
Theorem nothing_sent_without_mail (env : Env) (lib : Lib) (db db' : Db) :
  mail_configured env = false -> reachable env lib db db' -> no_new_sent db db'.
Proof.
  intros M R. apply reachable_writes in R. rewrite M in R.
  apply writes_no_new_sent. exact R.
Qed.

(** X8. Along every sequence of requests and runs of the job, user keys
    and the e-mail addresses of the users stay pairwise distinct:
    [update_settings] refuses an address that another user has. *)
Theorem reachable_users_unique (env : Env) (lib : Lib) (db db' : Db) :
  users_unique db -> reachable env lib db db' -> users_unique db'.
Proof.
  intros H R. apply reachable_writes in R.
  apply (@writes_invariant (mail_configured env) users_unique) with (db := db); auto.
  intros d d' Hd W. exact (write_users_unique Hd W).
Qed.


(* ===================================================================== *)
(** * The customer's payment *)
(* ===================================================================== *)




(* ===================================================================== *)
(** * Deleting *)
(* ===================================================================== *)

Lemma generate_invoice_number_invoices today db db' user client prefix :
  invoices db' = invoices db ->
  generate_invoice_number today db' user client prefix =
  generate_invoice_number today db user client prefix.
Proof.
  intro H. unfold generate_invoice_number, last_invoice, matching_invoices.
  rewrite H. reflexivity.
Qed.

Lemma filter_all (A : Type) (p : A -> bool) (l : list A) :
  (forall x, In x l -> p x = true) -> filter p l = l.
Proof.
  induction l as [|a l IH]; cbn; [reflexivity|]. intro H.
  rewrite (H a (or_introl eq_refl)), IH; auto.
Qed.

Lemma find_app_none (A : Type) (p : A -> bool) (l : list A) (x : A) :
  (forall y, In y l -> p y = false) -> p x = true -> find p (l ++ [x]) = Some x.
Proof.
  induction l as [|a l IH]; cbn; intros H Hx; [rewrite Hx; reflexivity|].
  rewrite (H a (or_introl eq_refl)). apply IH; auto.
Qed.

(** X11. Deleting the invoice that was inserted last gives back the table
    of invoices as it was before the insertion, so the number of the
    deleted invoice is free again: [generate_invoice_number] answers as it
    did before the insertion. *)
Theorem deleted_number_is_free_again (db db1 : Db) (mk : Z -> Invoice.t) (inv : Invoice.t)
    (current_user : User.t) :
  insert_invoice db mk = Ok (db1, inv) ->
  Invoice.id inv = next_invoice_id db ->
  Invoice.user_id inv = User.id current_user ->
  User.is_admin current_user = true ->
  let db2 := fst (delete_invoice db1 current_user (Invoice.id inv)) in
  invoices db2 = invoices db /\
  number_taken db2 (Invoice.invoice_number inv) = false /\
  forall today user client prefix,
    generate_invoice_number today db2 user client prefix =
    generate_invoice_number today db user client prefix.
Proof.
  intros Hins Hkey Huser Hadmin db2.
  unfold insert_invoice in Hins.
  destruct (number_taken db (Invoice.invoice_number (mk (next_invoice_id db)))) eqn:T;
    [discriminate|]. injection Hins as <- <-.
  set (inv := mk (next_invoice_id db)) in *.
  assert (Hold : forall i, In i (invoices db) -> (Invoice.id i =? Invoice.id inv) = false).
  { intros i Hi. apply Z.eqb_neq. pose proof (id_lt_next_invoice_id db i Hi). lia. }
  assert (Hown : own_invoice (with_invoices db (invoices db ++ [inv])%list) current_user
                   (Invoice.id inv) = Some inv).
  { unfold own_invoice. cbn [with_invoices invoices]. apply find_app_none.
    - intros i Hi. rewrite (Hold i Hi). reflexivity.
    - rewrite Z.eqb_refl, Huser, Z.eqb_refl. reflexivity. }
  assert (E : invoices db2 = invoices db).
  { subst db2. unfold delete_invoice, admin_required. rewrite Hadmin. cbn [negb].
    rewrite Hown. cbn [fst log_audit with_audit_logs delete_invoice_row with_invoice_items
                       with_invoices invoices].
    rewrite filter_app. cbn [filter]. rewrite Z.eqb_refl. cbn [negb].
    rewrite app_nil_r. apply filter_all. intros i Hi. rewrite (Hold i Hi). reflexivity. }
  split; [exact E|]. split.
  - unfold number_taken. rewrite E. exact T.
  - intros. apply generate_invoice_number_invoices. exact E.
Qed.

Lemma find_filter_other (key : Z) (k : Z) (l : list Client.t) :
  k <> key ->
  find (fun c => Client.id c =? k) (filter (fun c => negb (Client.id c =? key)) l) =
  find (fun c => Client.id c =? k) l.
Proof.
  intro Hne. induction l as [|a l IH]; cbn; [reflexivity|].
  destruct (Client.id a =? key) eqn:E; cbn.
  - apply Z.eqb_eq in E. assert ((Client.id a =? k) = false) as -> by (apply Z.eqb_neq; lia).
    exact IH.
  - destruct (Client.id a =? k); [reflexivity|exact IH].
Qed.

(** X12. [delete_client] never takes the client of an invoice away: every
    invoice of the table reads the same client before and after the call,
    whoever calls it and for whatever key. *)
Theorem delete_client_keeps_invoice_clients (db : Db) (current_user : User.t)
    (client_id : Z) (inv : Invoice.t) :
  In inv (invoices db) ->
  let db' := fst (delete_client db current_user client_id) in
  invoices db' = invoices db /\ invoice_client db' inv = invoice_client db inv.
Proof.
  intros Hin db'. subst db'. unfold delete_client, admin_required.
  destruct (negb (User.is_admin current_user)); [split; reflexivity|].
  destruct (own_client db current_user client_id) as [client|]; [|split; reflexivity].
  destruct (client_invoices db client) as [|i l] eqn:E; [|split; reflexivity].
  split; [reflexivity|].
  cbn [fst]. unfold invoice_client. cbn [log_audit with_audit_logs with_clients clients].
  apply find_filter_other. intro Hc.
  assert (In inv (client_invoices db client)) as Hi.
  { unfold client_invoices. apply filter_In. split; [exact Hin|]. apply Z.eqb_eq. exact Hc. }
  rewrite E in Hi. exact Hi.
Qed.


(* ===================================================================== *)
(** * The pages that list invoices *)
(* ===================================================================== *)

Section OrderByFacts.
Variable Row : Type.
Variable key : Row -> Z.

Lemma insert_desc_perm (x : Row) (l : list Row) :
  Permutation (insert_desc key x l) (x :: l).
Proof.
  induction l as [|y l IH]; cbn; [reflexivity|].
  destruct (key y <=? key x); [reflexivity|].
  rewrite IH. apply perm_swap.
Qed.

Lemma order_by_desc_perm (l : list Row) : Permutation (order_by_desc key l) l.
Proof.
  induction l as [|x l IH]; cbn; [reflexivity|].
  rewrite insert_desc_perm. constructor. exact IH.
Qed.

Lemma insert_desc_sorted (x : Row) (l : list Row) :
  StronglySorted (fun a b => key b <= key a) l ->
  StronglySorted (fun a b => key b <= key a) (insert_desc key x l).
Proof.
  induction 1 as [|y l Hs IH Hy]; cbn; [repeat constructor|].
  destruct (key y <=? key x) eqn:E.
  - apply Z.leb_le in E. constructor; [constructor; assumption|].
    constructor; [exact E|]. eapply Forall_impl; [|exact Hy]. cbn. intros; lia.
  - apply Z.leb_gt in E. constructor; [exact IH|].
    assert (F : Forall (fun b => key b <= key y) (x :: l))
      by (constructor; [lia|exact Hy]).
    revert F. apply Permutation_Forall. symmetry. apply insert_desc_perm.
Qed.

Lemma order_by_desc_sorted (l : list Row) :
  StronglySorted (fun a b => key b <= key a) (order_by_desc key l).
Proof.
  induction l as [|x l IH]; cbn; [constructor|]. apply insert_desc_sorted. exact IH.
Qed.

Lemma order_by_desc_in (l : list Row) (x : Row) : In x (order_by_desc key l) <-> In x l.
Proof.
  split; apply Permutation_in; [|symmetry]; apply order_by_desc_perm.
Qed.

End OrderByFacts.

Lemma filter_partition_perm (A : Type) (p : A -> bool) (l : list A) :
  Permutation (filter (fun x => negb (p x)) l ++ filter p l) l.
Proof.
  induction l as [|a l IH]; cbn; [reflexivity|].
  destruct (p a); cbn.
  - rewrite <- Permutation_middle. constructor. exact IH.
  - constructor. exact IH.
Qed.

Lemma filter_by_client_filter (client_filter : option Z) (l : list Invoice.t) :
  exists q, filter_by_client client_filter l = filter q l.
Proof.
  destruct client_filter as [n|]; cbn.
  - destruct (n =? 0); [exists (fun _ => true)|eexists; reflexivity].
    symmetry. apply filter_all. reflexivity.
  - exists (fun _ => true). symmetry. apply filter_all. reflexivity.
Qed.

Lemma filter_comm (A : Type) (p q : A -> bool) (l : list A) :
  filter p (filter q l) = filter q (filter p l).
Proof.
  induction l as [|a l IH]; cbn; [reflexivity|].
  destruct (p a) eqn:P, (q a) eqn:Q; cbn; rewrite ?P, ?Q, IH; reflexivity.
Qed.

(** X13. For an administrator and the status filter left at "all", the
    page of active invoices and the page of completed invoices divide the
    invoices of the user (of the chosen client, if one is chosen) between
    them: each invoice is on one of the two pages, once, the paid and
    cancelled ones on the second, and both pages are ordered newest
    first. *)
Theorem invoice_pages_partition (db : Db) (current_user : User.t)
    (status client_id : option string) :
  User.is_admin current_user = true ->
  args_get status "all" = "all" ->
  let active := listed (invoices_page db current_user status client_id) in
  let completed := listed (completed_invoices_page db current_user status client_id) in
  Permutation (active ++ completed)
    (filter_by_client (args_get_int client_id) (invoices_of_user db current_user)) /\
  newest_first active /\ newest_first completed /\
  Forall (fun i => Invoice.is_completed i = false) active /\
  Forall (fun i => Invoice.is_completed i = true) completed.
Proof.
  intros Hadmin Hall active completed. subst active completed.
  unfold invoices_page, completed_invoices_page, admin_required_page.
  rewrite Hadmin, Hall. cbn [negb listed InvoiceList.invoices].
  change (String.eqb "all" "all") with true. cbn [negb].
  assert (Hc : forall i, status_in ["paid"; "cancelled"] i = Invoice.is_completed i).
  { intro i. unfold status_in, Invoice.is_completed. cbn. rewrite orb_false_r. reflexivity. }
  repeat split.
  - rewrite !order_by_desc_perm.
    destruct (filter_by_client_filter (args_get_int client_id)
                (invoices_of_user db current_user)) as [q Hq].
    destruct (args_get_int client_id) as [n|]; cbn [filter_by_client].
    + destruct (n =? 0); [apply filter_partition_perm|].
      rewrite (filter_comm _ (fun i => negb (status_in ["paid"; "cancelled"] i))).
      rewrite (filter_comm _ (status_in ["paid"; "cancelled"])).
      apply filter_partition_perm.
    + apply filter_partition_perm.
  - apply order_by_desc_sorted.
  - apply order_by_desc_sorted.
  - apply Forall_forall. intros i Hi. apply order_by_desc_in in Hi.
    assert (In i (filter (fun i => negb (status_in ["paid"; "cancelled"] i))
                         (invoices_of_user db current_user))) as Hi'.
    { destruct (args_get_int client_id) as [n|]; cbn [filter_by_client] in Hi; auto.
      destruct (n =? 0); auto. apply filter_In in Hi. tauto. }
    apply filter_In in Hi' as [_ Hi']. rewrite Hc in Hi'. apply negb_true_iff. exact Hi'.
  - apply Forall_forall. intros i Hi. apply order_by_desc_in in Hi.
    assert (In i (filter (status_in ["paid"; "cancelled"])
                         (invoices_of_user db current_user))) as Hi'.
    { destruct (args_get_int client_id) as [n|]; cbn [filter_by_client] in Hi; auto.
      destruct (n =? 0); auto. apply filter_In in Hi. tauto. }
    apply filter_In in Hi' as [_ Hi']. rewrite Hc in Hi'. exact Hi'.
Qed.

(** X14. With a status chosen, the page of completed invoices lists the
    invoices of the user that carry this status, whatever the status: it
    lists drafts when asked for drafts. The page of active invoices never
    lists a paid or cancelled invoice, whatever is chosen. *)
Theorem status_filter_of_the_pages (db : Db) (current_user : User.t) (s : string)
    (client_id : option string) (i : Invoice.t) :
  User.is_admin current_user = true ->
  s <> "all" ->
  (In i (listed (completed_invoices_page db current_user (Some s) None)) <->
   In i (invoices db) /\ Invoice.user_id i = User.id current_user /\
   Invoice.status i = s) /\
  (In i (listed (invoices_page db current_user (Some s) client_id)) ->
   Invoice.status i = s /\ Invoice.is_completed i = false).
Proof.
  intros Hadmin Hs. apply String.eqb_neq in Hs.
  unfold invoices_page, completed_invoices_page, admin_required_page.
  rewrite Hadmin. cbn [negb args_get listed InvoiceList.invoices args_get_int filter_by_client].
  rewrite Hs. cbn [negb]. split.
  - rewrite order_by_desc_in. unfold invoices_of_user. rewrite !filter_In.
    rewrite Z.eqb_eq, String.eqb_eq. tauto.
  - rewrite order_by_desc_in. intro Hi.
    assert (In i (filter (fun i => String.eqb (Invoice.status i) s)
                    (filter (fun i => negb (status_in ["paid"; "cancelled"] i))
                       (invoices_of_user db current_user)))) as Hi'.
    { destruct (args_get_int client_id) as [n|]; cbn [filter_by_client] in Hi; auto.
      destruct (n =? 0); auto. apply filter_In in Hi. tauto. }
    apply filter_In in Hi' as [Hi' Hst]. apply filter_In in Hi' as [_ Hc].
    apply String.eqb_eq in Hst. split; [exact Hst|].
    unfold status_in in Hc. unfold Invoice.is_completed. cbn in Hc.
    rewrite orb_false_r in Hc. apply negb_true_iff. exact Hc.
Qed.


(* ===================================================================== *)
(** * The customer portal *)
(* ===================================================================== *)



(* ===================================================================== *)
(** * Settings *)
(* ===================================================================== *)

(** X16. Access to invoices follows the e-mail address that a user sets:
    [update_settings] accepts any address that no other user has, and
    from then on the invoice of a client with this address is shown to
    the user by [invoice_detail_page] and [customer_invoice_detail_page]. *)
Theorem email_change_gives_access (db : Db) (current_user : User.t) (email : string)
    (invoice_prefix : option string) (inv : Invoice.t) (client : Client.t) :
  In current_user (users db) ->
  User.is_admin current_user = false ->
  (forall u, In u (users db) -> User.email u <> email) ->
  In inv (invoices db) ->
  In client (clients db) ->
  Client.id client = Invoice.client_id inv ->
  Client.email client = Some email ->
  let db' := fst (update_settings db current_user (Some email) invoice_prefix) in
  exists user' shown,
    In user' (users db') /\ User.id user' = User.id current_user /\
    User.email user' = email /\
    invoice_detail_page db' user' (Invoice.id inv) = Render "invoice_detail.html" shown /\
    customer_invoice_detail_page db' user' (Invoice.id inv) =
      Render "customer_invoice_detail.html" shown /\
    Invoice.id shown = Invoice.id inv /\ addressed_to db' user' shown = true.
Proof.
  intros Hu Hadmin Hfree Hinv Hcl Hid Hem db'.
  assert (X : existsb (fun u => String.eqb (User.email u) email) (users db) = false).
  { destruct (existsb _ (users db)) eqn:E; [|reflexivity].
    apply existsb_exists in E as [u [Hu' He]]. apply String.eqb_eq in He.
    exfalso. exact (Hfree u Hu' He). }
  assert (Edb : db' = with_users db
                        (map (fun u => if User.id u =? User.id current_user
                                       then set_email_and_prefix email
                                              (match invoice_prefix with
                                               | Some p => Some p
                                               | None => User.invoice_prefix current_user
                                               end) u
                                       else u) (users db))).
  { subst db'. unfold update_settings. cbn [args_get]. rewrite X, andb_false_r. reflexivity. }
  set (user' := set_email_and_prefix email
                  (match invoice_prefix with
                   | Some p => Some p
                   | None => User.invoice_prefix current_user
                   end) current_user).
  assert (Haddr : addressed_to db' user' inv = true).
  { unfold addressed_to. rewrite Edb. cbn [with_users clients].
    apply existsb_exists. exists client. split; [exact Hcl|].
    rewrite Hid, Z.eqb_refl, Hem. cbn. apply String.eqb_refl. }
  destruct (customer_invoice db' user' (Invoice.id inv)) as [shown|] eqn:F.
  - exists user', shown. split.
    { rewrite Edb. cbn [with_users users]. apply in_map_iff. exists current_user.
      rewrite Z.eqb_refl. auto. }
    split; [reflexivity|]. split; [reflexivity|].
    unfold invoice_detail_page, customer_invoice_detail_page.
    change (User.is_admin user') with (User.is_admin current_user).
    rewrite Hadmin, F. split; [reflexivity|]. split; [reflexivity|].
    destruct (customer_invoice_client _ _ _ F) as (_ & H1 & H2 & _). auto.
  - exfalso. unfold customer_invoice in F.
    pose proof (find_none _ _ F inv) as N. cbn beta in N.
    rewrite Edb in N. cbn [with_users invoices] in N. specialize (N Hinv).
    rewrite Z.eqb_refl in N. cbn [andb] in N.
    unfold addressed_to in Haddr. rewrite Edb in Haddr. cbn [with_users clients] in Haddr.
    cbn [with_users clients] in N. congruence.
Qed.


(* ===================================================================== *)
(** * Creating an invoice *)
(* ===================================================================== *)

Lemma add_items_spec lib key : forall rows db db2,
  add_items lib key rows db = Done db2 ->
  exists items,
    invoice_items db2 = (invoice_items db ++ items)%list /\
    Forall (fun it => InvoiceItem.invoice_id it = key /\
                      PyStr.truthy (InvoiceItem.description it) = true /\
                      InvoiceItem.amount it =
                        (InvoiceItem.quantity it * InvoiceItem.unit_price it)%float) items /\
    map InvoiceItem.description items =
      filter PyStr.truthy (map (fun r => PyStr.strip (fst (fst r))) rows) /\
    invoices db2 = invoices db /\ clients db2 = clients db /\ users db2 = users db /\
    notifications db2 = notifications db /\ audit_logs db2 = audit_logs db.
Proof.
  induction rows as [|[[desc qty] price] rows IH]; intros db db2 H; cbn [add_items] in H.
  - injection H as <-. exists []. rewrite app_nil_r. repeat split. constructor.
  - cbn [map filter fst].
    destruct (PyStr.truthy (PyStr.strip desc)) eqn:T; cbn [negb] in H.
    + destruct (float_or_zero lib (Some qty)) as [q|]; cbn [attempt_bind] in H;
        [|discriminate].
      destruct (float_or_zero lib (Some price)) as [p|]; cbn [attempt_bind] in H;
        [|discriminate].
      apply IH in H as (items & H1 & H2 & H3 & H4 & H5 & H6 & H7 & H8).
      eexists (_ :: items). split.
      { rewrite H1. cbn [insert_item with_invoice_items invoice_items].
        rewrite <- app_assoc. reflexivity. }
      split; [constructor; [cbn; auto|exact H2]|].
      split; [cbn [map]; rewrite H3; reflexivity|].
      rewrite H4, H5, H6, H7, H8. repeat split.
    + apply IH in H. exact H.
Qed.

Lemma filter_none (A : Type) (p : A -> bool) (l : list A) :
  (forall x, In x l -> p x = false) -> filter p l = [].
Proof.
  induction l as [|a l IH]; cbn; [reflexivity|]. intro H.
  rewrite (H a (or_introl eq_refl)). apply IH. auto.
Qed.

Lemma items_of_fresh_invoice db (key : Z) (items : list InvoiceItem.t) :
  items_attached db ->
  key = next_invoice_id db ->
  Forall (fun it => InvoiceItem.invoice_id it = key) items ->
  filter (fun it => InvoiceItem.invoice_id it =? key) (invoice_items db ++ items) = items.
Proof.
  intros Ha Hk Hi. rewrite filter_app. rewrite filter_none.
  - cbn. apply filter_all. intros it Hit. apply Z.eqb_eq.
    revert it Hit. apply Forall_forall. exact Hi.
  - intros it Hit. apply Z.eqb_neq. destruct (Ha it Hit) as [i [Hin Hid]].
    pose proof (id_lt_next_invoice_id db i Hin). lia.
Qed.

(** What a successful [create_invoice_page] has written. *)
Lemma create_invoice_page_created env lib now now_send today db current_user form db'
    flashes :
  create_invoice_page env lib now now_send today db current_user form =
    (db', Answer (Redirect "invoice_detail_page" flashes)) ->
  exists (client : Client.t) (number : string)
         (sends : option DateTime.datetime * option DateTime.datetime) (tax : float)
         (due : DateTime.datetime) (client_key : Z) (items : list InvoiceItem.t)
         (delivered : bool),
    create_invoice_page_number today db current_user client
      (InvoiceForm.invoice_prefix form) = Ok number /\
    recurring_setup
      (match InvoiceForm.is_recurring form with
       | Some s => String.eqb s "on"
       | None => false
       end) (InvoiceForm.frequency form) now_send = Ok sends /\
    float_or_zero lib (InvoiceForm.tax_rate form) = Done tax /\
    number_taken db number = false /\
    let sub :=
      py_sum (map InvoiceItem.amount
                (filter (fun it => InvoiceItem.invoice_id it =? next_invoice_id db)
                        (invoice_items db ++ items))) in
    let invoice :=
      {| Invoice.id := next_invoice_id db;
         Invoice.invoice_number := number;
         Invoice.date := now;
         Invoice.due_date := due;
         Invoice.status := if delivered then "sent" else "draft";
         Invoice.total_amount := (sub + sub * (tax / 100))%float;
         Invoice.tax_rate := tax;
         Invoice.tax_amount := (sub * (tax / 100))%float;
         Invoice.subtotal := sub;
         Invoice.notes := Some (PyStr.strip (args_get (InvoiceForm.notes form) ""));
         Invoice.terms := Some (PyStr.strip (args_get (InvoiceForm.terms form) ""));
         Invoice.title := Some (args_get (InvoiceForm.title form) "");
         Invoice.is_recurring :=
           match InvoiceForm.is_recurring form with
           | Some s => String.eqb s "on"
           | None => false
           end;
         Invoice.frequency := InvoiceForm.frequency form;
         Invoice.initial_send_date := fst sends;
         Invoice.next_send_date := snd sends;
         Invoice.user_id := User.id current_user;
         Invoice.client_id := client_key |} in
    invoices db' = (invoices db ++ [invoice])%list /\
    invoice_items db' = (invoice_items db ++ items)%list /\
    Forall (fun it => InvoiceItem.invoice_id it = next_invoice_id db /\
                      PyStr.truthy (InvoiceItem.description it) = true /\
                      InvoiceItem.amount it =
                        (InvoiceItem.quantity it * InvoiceItem.unit_price it)%float) items /\
    map InvoiceItem.description items =
      filter PyStr.truthy
        (map (fun r => PyStr.strip (fst (fst r)))
             (zip3 (InvoiceForm.item_description form) (InvoiceForm.item_quantity form)
                   (InvoiceForm.item_price form))) /\
    (exists m, flashes = [(if delivered then "success" else "warning", m)]) /\
    (delivered = true -> mail_configured env = true) /\
    clients db' = clients db /\ users db' = users db /\
    notifications db' =
      (notifications db ++
       [{| Notification.user_id := User.id current_user;
           Notification.title := "Invoice Created";
           Notification.message := "Invoice " ++ number ++ " has been created (Draft)" |}])%list /\
    audit_logs db' =
      (audit_logs db ++
       [{| AuditLog.user_id := User.id current_user; AuditLog.action := "create";
           AuditLog.entity_type := "invoice"; AuditLog.entity_id := next_invoice_id db;
           AuditLog.details := "Created invoice " ++ number |}])%list.
Proof.
  intros H. unfold create_invoice_page in H.
  destruct (negb (User.is_admin current_user)); [discriminate|].
  destruct (create_invoice_post env lib now now_send today db current_user form)
    as [[db1' r]|e] eqn:P; [|discriminate].
  injection H as -> ->. unfold create_invoice_post in P.
  destruct (float_or_zero lib (InvoiceForm.tax_rate form)) as [tax|] eqn:Ftax;
    cbn [attempt_bind] in P; [|discriminate].
  destruct (negb (PyStr.truthy_opt (InvoiceForm.client_id form))); [discriminate|].
  destruct (negb (PyStr.truthy_opt (InvoiceForm.due_date form))); [discriminate|].
  destruct (negb (existsb _ (InvoiceForm.item_description form))); [discriminate|].
  destruct (find _ (clients db)) as [client|]; cbn [attempt_bind] in P; [|discriminate].
  destruct (strptime lib _) as [due|]; cbn [attempt_bind] in P; [|discriminate].
  destruct (create_invoice_page_number today db current_user client _) as [number|] eqn:G;
    cbn [attempt_bind lift] in P; [|discriminate].
  destruct (recurring_setup _ _ now_send) as [sends|] eqn:S;
    cbn [attempt_bind lift] in P; [|discriminate].
  destruct (PyStr.py_int _) as [client_key|]; cbn [attempt_bind] in P; [|discriminate].
  unfold insert_invoice in P. cbn [Invoice.invoice_number] in P.
  destruct (number_taken db number) eqn:T; cbn [attempt_bind lift fst snd] in P;
    [discriminate|].
  match type of P with
  | context [add_items lib ?k ?rows ?d] =>
      destruct (add_items lib k rows d) as [db2|] eqn:A
  end; cbn [attempt_bind] in P; [|discriminate].
  apply add_items_spec in A as (items & I1 & I2 & I3 & I4 & I5 & I6 & I7 & I8).
  cbn [Invoice.id with_invoices invoice_items invoices clients users notifications
       audit_logs] in I1, I2, I3, I4, I5, I6, I7, I8.
  assert (Hitems : invoice_items_of db2
                     {| Invoice.id := next_invoice_id db;
                        Invoice.invoice_number := number;
                        Invoice.date := now;
                        Invoice.due_date := due;
                        Invoice.status := "draft";
                        Invoice.total_amount := 0%float;
                        Invoice.tax_rate := tax;
                        Invoice.tax_amount := 0%float;
                        Invoice.subtotal := 0%float;
                        Invoice.notes :=
                          Some (PyStr.strip (args_get (InvoiceForm.notes form) ""));
                        Invoice.terms :=
                          Some (PyStr.strip (args_get (InvoiceForm.terms form) ""));
                        Invoice.title := Some (args_get (InvoiceForm.title form) "");
                        Invoice.is_recurring :=
                          match InvoiceForm.is_recurring form with
                          | Some s => String.eqb s "on"
                          | None => false
                          end;
                        Invoice.frequency := InvoiceForm.frequency form;
                        Invoice.initial_send_date := fst sends;
                        Invoice.next_send_date := snd sends;
                        Invoice.user_id := User.id current_user;
                        Invoice.client_id := client_key |} =
                   filter (fun it => InvoiceItem.invoice_id it =? next_invoice_id db)
                          (invoice_items db ++ items)).
  { unfold invoice_items_of. cbn [Invoice.id]. rewrite I1. reflexivity. }
  rewrite Hitems in P.
  assert (Hmap : forall f,
             (forall i, Invoice.id (f i) = Invoice.id i) ->
             forall c, Invoice.id c = next_invoice_id db ->
             map (fun i => if Invoice.id i =? next_invoice_id db then f i else i)
                 (invoices db ++ [c]) = (invoices db ++ [f c])%list).
  { intros f Hf c Hc. rewrite map_app. cbn [map]. rewrite Hc, Z.eqb_refl.
    rewrite map_update_other; [reflexivity|].
    intros i Hi. pose proof (id_lt_next_invoice_id db i Hi). lia. }
  destruct (send_invoice_email env _ _) eqn:M; injection P as <- <-.
  - exists client, number, sends, tax, due, client_key, items, true.
    split; [first [reflexivity|exact G]|]. split; [first [reflexivity|exact S]|].
    split; [first [reflexivity|exact Ftax]|].
    split; [exact T|]. cbv zeta.
    cbn [update_invoice log_audit create_notification with_audit_logs with_notifications
         with_invoices invoices invoice_items clients users notifications audit_logs
         Invoice.id Invoice.calculate_totals Invoice.set_totals Invoice.invoice_number].
    rewrite I1, I4, I5, I6, I7, I8.
    cbn [Invoice.id with_invoices invoice_items invoices clients users notifications
         audit_logs].
    split.
    { rewrite !Hmap by (intros; reflexivity). reflexivity. }
    repeat split; auto.
    + eexists. reflexivity.
    + intros _. exact (send_invoice_email_configured _ _ _ M).
  - exists client, number, sends, tax, due, client_key, items, false.
    split; [first [reflexivity|exact G]|]. split; [first [reflexivity|exact S]|].
    split; [first [reflexivity|exact Ftax]|].
    split; [exact T|]. cbv zeta.
    cbn [update_invoice log_audit create_notification with_audit_logs with_notifications
         with_invoices invoices invoice_items clients users notifications audit_logs
         Invoice.id Invoice.calculate_totals Invoice.set_totals Invoice.invoice_number].
    rewrite I1, I4, I5, I6, I7, I8.
    cbn [Invoice.id with_invoices invoice_items invoices clients users notifications
         audit_logs].
    split.
    { rewrite !Hmap by (intros; reflexivity). reflexivity. }
    repeat split; auto.
    + eexists. reflexivity.
    + discriminate.
Qed.

Lemma create_invoice_page_cases env lib now now_send today db current_user form :
  let r := create_invoice_page env lib now now_send today db current_user form in
  fst r = db \/ exists flashes, r = (fst r, Answer (Redirect "invoice_detail_page" flashes)).
Proof.
  intro r. subst r. unfold create_invoice_page.
  destruct (negb (User.is_admin current_user)); [left; reflexivity|].
  destruct (create_invoice_post env lib now now_send today db current_user form)
    as [[db' r]|e] eqn:P; [|left; reflexivity].
  cbn [fst]. unfold create_invoice_post in P.
  destruct (float_or_zero lib (InvoiceForm.tax_rate form)) as [tax|];
    cbn [attempt_bind] in P; [|discriminate].
  destruct (negb (PyStr.truthy_opt (InvoiceForm.client_id form)));
    [injection P as <- _; left; reflexivity|].
  destruct (negb (PyStr.truthy_opt (InvoiceForm.due_date form)));
    [injection P as <- _; left; reflexivity|].
  destruct (negb (existsb _ (InvoiceForm.item_description form)));
    [injection P as <- _; left; reflexivity|].
  destruct (find _ (clients db)) as [client|]; cbn [attempt_bind] in P; [|discriminate].
  destruct (strptime lib _) as [due|]; cbn [attempt_bind] in P; [|discriminate].
  destruct (create_invoice_page_number today db current_user client _) as [number|];
    cbn [attempt_bind lift] in P; [|discriminate].
  destruct (recurring_setup _ _ now_send) as [sends|];
    cbn [attempt_bind lift] in P; [|discriminate].
  destruct (PyStr.py_int _) as [client_key|]; cbn [attempt_bind] in P; [|discriminate].
  destruct (insert_invoice db _) as [[db1 inv]|];
    cbn [attempt_bind lift fst snd] in P; [|discriminate].
  destruct (add_items lib _ _ db1) as [db2|]; cbn [attempt_bind] in P; [|discriminate].
  right. destruct (send_invoice_email env _ _); injection P as <- <-; eexists; reflexivity.
Qed.

(** X17. [create_invoice_page] writes all of an invoice or nothing. When
    it does not end with the redirect to the new invoice (a field is
    missing, the client is not found, a number or date does not parse, the
    generated number is taken), the database is as before. Otherwise one
    invoice was appended under a new key and a number that was free, with
    one item for each row of the form that has a description, each
    amount the product of quantity and unit price, and the totals of the
    invoice are those of these items. *)
Theorem create_invoice_page_all_or_nothing (env : Env) (lib : Lib)
    (now now_send today : DateTime.datetime) (db : Db) (current_user : User.t)
    (form : InvoiceForm.t) :
  items_attached db ->
  let r := create_invoice_page env lib now now_send today db current_user form in
  fst r = db \/
  exists invoice items,
    invoices (fst r) = (invoices db ++ [invoice])%list /\
    invoice_items (fst r) = (invoice_items db ++ items)%list /\
    Invoice.id invoice = next_invoice_id db /\
    number_taken db (Invoice.invoice_number invoice) = false /\
    Invoice.user_id invoice = User.id current_user /\
    Forall (fun it => InvoiceItem.invoice_id it = Invoice.id invoice /\
                      PyStr.truthy (InvoiceItem.description it) = true /\
                      InvoiceItem.amount it =
                        (InvoiceItem.quantity it * InvoiceItem.unit_price it)%float) items /\
    map InvoiceItem.description items =
      filter PyStr.truthy
        (map (fun r => PyStr.strip (fst (fst r)))
             (zip3 (InvoiceForm.item_description form) (InvoiceForm.item_quantity form)
                   (InvoiceForm.item_price form))) /\
    Invoice.subtotal invoice = py_sum (map InvoiceItem.amount items) /\
    Invoice.tax_amount invoice =
      (Invoice.subtotal invoice * (Invoice.tax_rate invoice / 100))%float /\
    Invoice.total_amount invoice =
      (Invoice.subtotal invoice + Invoice.tax_amount invoice)%float /\
    (Invoice.status invoice = "draft" \/
     Invoice.status invoice = "sent" /\ mail_configured env = true).
Proof.
  intros Hatt r.
  destruct (create_invoice_page_cases env lib now now_send today db current_user form)
    as [H|[flashes H]]; [left; exact H|right].
  fold r in H.
  destruct (create_invoice_page_created _ _ _ _ _ _ _ _ H)
    as (client & number & sends & tax & due & client_key & items & delivered &
        _ & _ & _ & T & H1 & H2 & H3 & H4 & _ & H6 & _).
  rewrite (@items_of_fresh_invoice db (next_invoice_id db) items Hatt eq_refl) in H1.
  2:{ eapply Forall_impl; [|exact H3]. cbn. tauto. }
  eexists _, items. split; [exact H1|]. split; [exact H2|].
  cbn [Invoice.id Invoice.invoice_number Invoice.user_id Invoice.subtotal
       Invoice.tax_amount Invoice.total_amount Invoice.tax_rate Invoice.status].
  repeat split; auto.
  destruct delivered; [right; auto|left; reflexivity].
Qed.

(** X18. The schedule that [create_invoice_page] writes agrees with the
    recurrence clock: the [next_send_date] of the new invoice is what
    [calculate_next_send_date] computes for it from its
    [initial_send_date]. The first send date of a recurring invoice is the
    time of creation, and an invoice created with a frequency that is not
    daily, weekly or monthly is never due for the job. *)
Theorem created_invoice_schedule (env : Env) (lib : Lib)
    (now now_send today : DateTime.datetime) (db db' : Db) (current_user : User.t)
    (form : InvoiceForm.t) (flashes : list flash) :
  create_invoice_page env lib now now_send today db current_user form =
    (db', Answer (Redirect "invoice_detail_page" flashes)) ->
  exists invoice,
    invoices db' = (invoices db ++ [invoice])%list /\
    Invoice.calculate_next_send_date (Invoice.set_next_send_date None invoice) =
      Ok (Invoice.next_send_date invoice) /\
    (Invoice.is_recurring invoice = true ->
     Invoice.initial_send_date invoice = Some now_send) /\
    (Invoice.frequency invoice <> Some "daily" ->
     Invoice.frequency invoice <> Some "weekly" ->
     Invoice.frequency invoice <> Some "monthly" ->
     forall later, is_due later invoice = false).
Proof.
  intro H.
  destruct (create_invoice_page_created _ _ _ _ _ _ _ _ H)
    as (client & number & sends & tax & due & client_key & items & delivered &
        _ & S & _ & _ & H1 & _).
  eexists. split; [exact H1|].
  cbn [Invoice.is_recurring Invoice.initial_send_date Invoice.next_send_date
       Invoice.frequency].
  unfold recurring_setup in S.
  set (rec := match InvoiceForm.is_recurring form with
              | Some s => String.eqb s "on"
              | None => false
              end) in *.
  unfold Invoice.calculate_next_send_date, Invoice.base_date.
  cbn [Invoice.set_next_send_date Invoice.is_recurring Invoice.frequency
       Invoice.next_send_date Invoice.initial_send_date Invoice.date].
  unfold is_due. cbn [Invoice.is_recurring Invoice.next_send_date Invoice.status].
  destruct rec.
  - destruct (InvoiceForm.frequency form) as [f|].
    + destruct (String.eqb f "daily") eqn:E1.
      { destruct (DateTime.add now_send (days 1)) as [d|] eqn:A; cbn [bind] in S;
          [|discriminate]. injection S as <-. cbn [fst snd PyStr.truthy_opt].
        apply String.eqb_eq in E1. subst f. cbn [PyStr.truthy negb orb].
        change (String.eqb "daily" "daily") with true. cbv iota. rewrite A. cbn [bind].
        repeat split. intros N. exfalso. apply N. reflexivity. }
      destruct (String.eqb f "weekly") eqn:E2.
      { destruct (DateTime.add now_send (weeks 1)) as [d|] eqn:A; cbn [bind] in S;
          [|discriminate]. injection S as <-. cbn [fst snd PyStr.truthy_opt].
        apply String.eqb_eq in E2. subst f. cbn [PyStr.truthy negb orb].
        change (String.eqb "weekly" "daily") with false.
        change (String.eqb "weekly" "weekly") with true. cbv iota. rewrite A. cbn [bind].
        repeat split. intros _ N. exfalso. apply N. reflexivity. }
      destruct (String.eqb f "monthly") eqn:E3.
      { destruct (DateTime.add now_send (days 30)) as [d|] eqn:A; cbn [bind] in S;
          [|discriminate]. injection S as <-. cbn [fst snd PyStr.truthy_opt].
        apply String.eqb_eq in E3. subst f. cbn [PyStr.truthy negb orb].
        change (String.eqb "monthly" "daily") with false.
        change (String.eqb "monthly" "weekly") with false.
        change (String.eqb "monthly" "monthly") with true. cbv iota. rewrite A. cbn [bind].
        repeat split. intros _ _ N. exfalso. apply N. reflexivity. }
      injection S as <-. cbn [fst snd negb orb PyStr.truthy_opt].
      destruct (negb (PyStr.truthy f)); repeat split.
    + injection S as <-. cbn [fst snd]. repeat split.
  - injection S as <-. cbn [fst snd negb orb andb]. repeat split. discriminate.
Qed.


(* ===================================================================== *)
(** * The first numbers of a scope *)
(* ===================================================================== *)














Section Issue.
Variable today : DateTime.datetime.
Variable user : option User.t.
Variable client : option Client.t.
Variable prefix : string.
Variable row : string -> Z -> Invoice.t.
Hypothesis row_number : forall n key, Invoice.invoice_number (row n key) = n.



End Issue.



(* ===================================================================== *)
(** * The dashboard *)
(* ===================================================================== *)

Lemma count_by_status (l : list Invoice.t) :
  Forall (fun i => valid_status (Invoice.status i) = true) l ->
  List.length l =
  (List.length (filter (fun i => String.eqb (Invoice.status i) "draft") l) +
   List.length (filter (fun i => String.eqb (Invoice.status i) "sent") l) +
   List.length (filter (fun i => String.eqb (Invoice.status i) "paid") l) +
   List.length (filter (fun i => String.eqb (Invoice.status i) "overdue") l) +
   List.length (filter (fun i => String.eqb (Invoice.status i) "cancelled") l))%nat.
Proof.
  induction 1 as [|a l Ha Hl IH]; [reflexivity|].
  cbn [filter List.length].
  destruct (valid_status_is _ Ha) as [E|[E|[E|[E|E]]]]; rewrite E; cbn; lia.
Qed.

Lemma In_firstn (A : Type) (n : nat) (l : list A) (x : A) : In x (firstn n l) -> In x l.
Proof.
  revert l. induction n as [|n IH]; intros [|a l]; cbn; try tauto.
  intros [->|H]; auto.
Qed.

Lemma firstn_sorted (A : Type) (R : A -> A -> Prop) (n : nat) (l : list A) :
  StronglySorted R l -> StronglySorted R (firstn n l).
Proof.
  intro H. revert n. induction H as [|a l Hs IH Ha]; intro n.
  - rewrite firstn_nil. constructor.
  - destruct n; cbn; constructor; [apply IH|].
    apply Forall_forall. intros x Hx. apply In_firstn in Hx.
    revert x Hx. apply Forall_forall. exact Ha.
Qed.

(** X20. For an administrator the dashboard counts all invoices of the
    user but breaks down only drafts, sent and paid ones: the three counts
    add up to the total less the overdue and cancelled invoices. It shows
    at most five invoices, all of the user, newest first. *)
Theorem dashboard_counts (db : Db) (current_user : User.t) :
  User.is_admin current_user = true ->
  statuses_valid db ->
  exists context,
    dashboard db current_user = Render "index.html" context /\
    Dashboard.total_invoices context =
      Dashboard.draft_count context + Dashboard.sent_count context +
      Dashboard.paid_count context +
      count_status db current_user "overdue" + count_status db current_user "cancelled" /\
    (List.length (Dashboard.recent_invoices context) <= 5)%nat /\
    newest_first (Dashboard.recent_invoices context) /\
    forall i, In i (Dashboard.recent_invoices context) ->
              In i (invoices db) /\ Invoice.user_id i = User.id current_user.
Proof.
  intros Hadmin Hvalid. unfold dashboard. rewrite Hadmin. cbn [negb].
  eexists. split; [reflexivity|].
  cbn [Dashboard.total_invoices Dashboard.draft_count Dashboard.sent_count
       Dashboard.paid_count Dashboard.recent_invoices].
  split; [|split; [|split]].
  - unfold count_status.
    rewrite (@count_by_status (invoices_of_user db current_user)); [lia|].
    apply Forall_forall. intros i Hi. apply filter_In in Hi as [Hi _].
    revert i Hi. apply Forall_forall. exact Hvalid.
  - apply firstn_le_length.
  - apply firstn_sorted. apply order_by_desc_sorted.
  - intros i Hi. apply In_firstn in Hi. apply order_by_desc_in in Hi.
    apply filter_In in Hi as [Hi Hu]. apply Z.eqb_eq in Hu. auto.
Qed.


(* ===================================================================== *)
(** * The scheduler job: items and schedule *)
(* ===================================================================== *)










(* ===================================================================== *)
(** * Invoices and their clients *)
(* ===================================================================== *)

Lemma clients_attached_frame (db db' : Db) :
  clients db' = clients db ->
  (forall i', In i' (invoices db') ->
     exists i, In i (invoices db) /\ Invoice.client_id i' = Invoice.client_id i) ->
  clients_attached db -> clients_attached db'.
Proof.
  intros Hc Hi Ha i' Hi'. destruct (Hi i' Hi') as [i [Hin E]].
  destruct (Ha i Hin) as [cl [Hcl Hk]]. exists cl. rewrite Hc, E. auto.
Qed.

Lemma in_update_client_id (key : Z) (f : Invoice.t -> Invoice.t) (l : list Invoice.t)
    (i' : Invoice.t) :
  (forall i, Invoice.client_id (f i) = Invoice.client_id i) ->
  In i' (map (fun i => if Invoice.id i =? key then f i else i) l) ->
  exists i, In i l /\ Invoice.client_id i' = Invoice.client_id i.
Proof.
  intros Hf Hi. apply in_map_iff in Hi as [i [<- Hi]]. exists i. split; [exact Hi|].
  destruct (Invoice.id i =? key); [apply Hf|reflexivity].
Qed.

Lemma update_invoice_status_clients env db current_user invoice_id new_status :
  clients_attached db ->
  clients_attached (fst (update_invoice_status env db current_user invoice_id new_status)).
Proof.
  intro Ha. unfold update_invoice_status, admin_required, update_invoice_status_view.
  destruct (negb (User.is_admin current_user)); [exact Ha|].
  destruct (own_invoice db current_user invoice_id) as [invoice|]; [|exact Ha].
  destruct new_status as [s|]; [|exact Ha].
  destruct (valid_status s); [|exact Ha].
  destruct (String.eqb s "sent").
  - destruct (send_invoice_email env db invoice); [|exact Ha].
    apply (@clients_attached_frame db); [reflexivity| |exact Ha].
    intros i' Hi'. eapply in_update_client_id; [|exact Hi']. intro; reflexivity.
  - apply (@clients_attached_frame db); [reflexivity| |exact Ha].
    intros i' Hi'. eapply in_update_client_id; [|exact Hi']. intro; reflexivity.
Qed.

Lemma update_invoice_number_clients db current_user invoice_id field :
  clients_attached db ->
  clients_attached (fst (update_invoice_number db current_user invoice_id field)).
Proof.
  intro Ha. unfold update_invoice_number, admin_required.
  destruct (negb (User.is_admin current_user)); [exact Ha|].
  destruct (own_invoice db current_user invoice_id) as [invoice|]; [|exact Ha].
  destruct (negb (PyStr.truthy _)); [exact Ha|].
  destruct (existsb _ (invoices db)); [exact Ha|].
  apply (@clients_attached_frame db); [reflexivity| |exact Ha].
  intros i' Hi'. eapply in_update_client_id; [|exact Hi']. intro; reflexivity.
Qed.

Lemma customer_pay_invoice_clients env db current_user invoice_id r :
  customer_pay_invoice env db current_user invoice_id = Ok r ->
  clients_attached db -> clients_attached (fst r).
Proof.
  unfold customer_pay_invoice. intros H Ha.
  destruct (User.is_admin current_user); [injection H as <-; exact Ha|].
  destruct (customer_invoice db current_user invoice_id) as [invoice|];
    [|injection H as <-; exact Ha].
  destruct (Invoice.is_completed invoice); [injection H as <-; exact Ha|].
  destruct (invoice_client _ invoice) as [client|]; [|discriminate].
  injection H as <-.
  apply (@clients_attached_frame db); [reflexivity| |exact Ha].
  intros i' Hi'. eapply in_update_client_id; [|exact Hi']. intro; reflexivity.
Qed.

Lemma delete_invoice_clients db current_user invoice_id :
  clients_attached db ->
  clients_attached (fst (delete_invoice db current_user invoice_id)).
Proof.
  intro Ha. unfold delete_invoice, admin_required.
  destruct (negb (User.is_admin current_user)); [exact Ha|].
  destruct (own_invoice db current_user invoice_id) as [invoice|]; [|exact Ha].
  apply (@clients_attached_frame db); [reflexivity| |exact Ha].
  intros i' Hi'. cbn in Hi'. apply filter_In in Hi' as [Hi' _]. exists i'. auto.
Qed.

Lemma delete_client_clients db current_user client_id :
  clients_attached db ->
  clients_attached (fst (delete_client db current_user client_id)).
Proof.
  intros Ha i Hi.
  assert (Hinv : invoices (fst (delete_client db current_user client_id)) = invoices db).
  { unfold delete_client, admin_required.
    destruct (negb (User.is_admin current_user)); [reflexivity|].
    destruct (own_client db current_user client_id); [|reflexivity].
    destruct (client_invoices db _); reflexivity. }
  rewrite Hinv in Hi. destruct (Ha i Hi) as [cl [Hcl Hk]].
  unfold delete_client, admin_required.
  destruct (negb (User.is_admin current_user)); [eauto|].
  destruct (own_client db current_user client_id) as [client|]; [|eauto].
  destruct (client_invoices db client) as [|j l] eqn:E; [|eauto].
  exists cl. split; [|exact Hk]. cbn. apply filter_In. split; [exact Hcl|].
  apply negb_true_iff. apply Z.eqb_neq. intro Hc.
  assert (In i (client_invoices db client)) as Hin.
  { unfold client_invoices. apply filter_In. split; [exact Hi|]. apply Z.eqb_eq. lia. }
  rewrite E in Hin. exact Hin.
Qed.

Lemma update_settings_clients db current_user email invoice_prefix :
  clients_attached db ->
  clients_attached (fst (update_settings db current_user email invoice_prefix)).
Proof.
  intro Ha. unfold update_settings.
  destruct (_ && _); exact Ha.
Qed.

Lemma create_invoice_page_clients env lib now now_send today db current_user form :
  key_text_sound lib ->
  clients_attached db ->
  clients_attached
    (fst (create_invoice_page env lib now now_send today db current_user form)).
Proof.
  intros Hlib Ha. unfold create_invoice_page.
  destruct (negb (User.is_admin current_user)); [exact Ha|].
  destruct (create_invoice_post env lib now now_send today db current_user form)
    as [[db' r]|e] eqn:P; [|exact Ha].
  cbn [fst]. unfold create_invoice_post in P.
  destruct (float_or_zero lib (InvoiceForm.tax_rate form)) as [tax|];
    cbn [attempt_bind] in P; [|discriminate].
  destruct (negb (PyStr.truthy_opt (InvoiceForm.client_id form)));
    [injection P as <- _; exact Ha|].
  destruct (negb (PyStr.truthy_opt (InvoiceForm.due_date form)));
    [injection P as <- _; exact Ha|].
  destruct (negb (existsb _ (InvoiceForm.item_description form)));
    [injection P as <- _; exact Ha|].
  destruct (find _ (clients db)) as [client|] eqn:F; cbn [attempt_bind] in P;
    [|discriminate].
  destruct (strptime lib _) as [due|]; cbn [attempt_bind] in P; [|discriminate].
  destruct (create_invoice_page_number today db current_user client _) as [number|];
    cbn [attempt_bind lift] in P; [|discriminate].
  destruct (recurring_setup _ _ now_send) as [sends|];
    cbn [attempt_bind lift] in P; [|discriminate].
  destruct (PyStr.py_int _) as [client_key|] eqn:K; cbn [attempt_bind] in P;
    [|discriminate].
  unfold insert_invoice in P. cbn [Invoice.invoice_number] in P.
  destruct (number_taken db number); cbn [attempt_bind lift fst snd] in P; [discriminate|].
  match type of P with
  | context [add_items lib ?k ?rows ?d] =>
      destruct (add_items lib k rows d) as [db2|] eqn:A
  end; cbn [attempt_bind] in P; [|discriminate].
  apply add_items_spec in A as (items & _ & _ & _ & I4 & I5 & _).
  cbn [with_invoices invoices clients] in I4, I5.
  apply find_some in F as [Hcl Hm]. apply andb_true_iff in Hm as [Hm _].
  pose proof (Hlib _ _ _ Hm K) as Hkey.
  assert (Hnew : forall i', In i' (invoices db2) ->
                   exists cl, In cl (clients db) /\ Client.id cl = Invoice.client_id i').
  { intros i' Hi'. rewrite I4 in Hi'. apply in_app_or in Hi'.
    destruct Hi' as [Hi'|Hi']; [apply Ha; exact Hi'|].
    cbn [In] in Hi'. destruct Hi' as [Hi'|Hi']; [|contradiction].
    exists client. split; [exact Hcl|]. rewrite <- Hi'. cbn. congruence. }
  assert (Hall : forall d, clients d = clients db ->
                   (forall i', In i' (invoices d) ->
                      exists i, In i (invoices db2) /\
                                Invoice.client_id i' = Invoice.client_id i) ->
                   clients_attached d).
  { intros d Hc Hd i' Hi'. destruct (Hd i' Hi') as [i [Hi E]].
    destruct (Hnew i Hi) as [cl [Hcl' Hk]]. exists cl. rewrite Hc, E. auto. }
  destruct (send_invoice_email env _ _); injection P as <- _.
  - apply Hall; [exact I5|]. intros i' Hi'. cbn in Hi'.
    eapply in_update_client_id in Hi' as [j [Hj E]]; [|intro; reflexivity].
    eapply in_update_client_id in Hj as [k [Hk E']]; [|intro; reflexivity].
    exists k. split; [exact Hk|congruence].
  - apply Hall; [exact I5|]. intros i' Hi'. cbn in Hi'.
    eapply in_update_client_id in Hi' as [j [Hj E]]; [|intro; reflexivity].
    exists j. auto.
Qed.

Lemma recurring_job_clients env user_of now today db :
  clients_attached db ->
  clients_attached (fst (recurring_job env user_of now today db)).
Proof.
  intro Ha.
  destruct (recurring_job_spec env user_of now today db)
    as (upd & children & done & rest & Hts & Hinv & Hev & Hgen & _ & _ & Hcl & _).
  apply (@clients_attached_frame db); [exact Hcl| |exact Ha].
  intros i' Hi'. rewrite Hinv in Hi'. apply in_app_or in Hi' as [Hi'|Hi'].
  - clear Hinv Hcl Hts Hgen. revert i' Hi'.
    induction Hev as [|old new l l' H _ IH]; intros i' Hi';
      [destruct Hi'|destruct Hi' as [<-|Hi']].
    + exists old. split; [left; reflexivity|].
      destruct H as [->|[_ [d ->]]]; reflexivity.
    + destruct (IH i' Hi') as [i [Hi E]]. exists i. split; [right; exact Hi|exact E].
  - assert (Hdone : forall t, In t done -> In t (invoices db)).
    { intros t Ht. assert (In t (recurring_templates now db)) as Hin
        by (rewrite Hts; apply in_or_app; left; exact Ht).
      apply filter_In in Hin. tauto. }
    clear Hts Hinv Hcl Hev. revert i' Hi'.
    induction Hgen as [|t c l l' H _ IH]; intros i' Hi';
      [destruct Hi'|destruct Hi' as [<-|Hi']].
    + exists t. split; [apply Hdone; left; reflexivity|].
      destruct H as [(_ & _ & _ & _ & _ & _ & _ & H & _) _]. exact H.
    + apply IH; [|exact Hi']. intros t' Ht'. apply Hdone. right. exact Ht'.
Qed.

Lemma step_clients_attached env lib db db' :
  key_text_sound lib -> step env lib db db' ->
  clients_attached db -> clients_attached db'.
Proof.
  intros Hlib [u k s|u k f|u k r H|u k|u k|u e p H|n n' t u f|user_of n t].
  - apply update_invoice_status_clients.
  - apply update_invoice_number_clients.
  - eapply customer_pay_invoice_clients; exact H.
  - apply delete_invoice_clients.
  - apply delete_client_clients.
  - apply update_settings_clients.
  - apply create_invoice_page_clients; exact Hlib.
  - apply recurring_job_clients.
Qed.

(** X23. If SQLite and [int] agree on the text of a client key, every
    invoice keeps a client row along every sequence of requests and runs
    of the job: [create_invoice_page] stores the key of the client it
    found, the job copies the key of the template, and [delete_client]
    refuses a client that has invoices. *)
Theorem reachable_clients_attached (env : Env) (lib : Lib) (db db' : Db) :
  key_text_sound lib ->
  clients_attached db -> reachable env lib db db' -> clients_attached db'.
Proof.
  intros Hlib Ha R. induction R as [|db1 db2 _ IH S]; [exact Ha|].
  exact (step_clients_attached Hlib S IH).
Qed.


(* ===================================================================== *)
(** * The theorems on sample data *)
(* ===================================================================== *)


Lemma sample_history :
  reachable env_mail_ok sample_lib db_one_draft db_then_deleted.
Proof.
  unfold db_then_deleted, db_then_job, db_then_paid, db_created.
  eapply reachable_step; [eapply reachable_step; [eapply reachable_step;
    [eapply reachable_step; [apply reachable_here|]|]|]|].
  - apply step_create_invoice_page.
  - apply step_update_invoice_status.
  - apply step_recurring_job.
  - apply step_delete_invoice.
Qed.

Lemma sample_history_offline :
  reachable env_mail_down sample_lib db_one_draft db_then_sent_offline.
Proof.
  unfold db_then_sent_offline, db_created_offline.
  eapply reachable_step; [eapply reachable_step; [apply reachable_here|]|].
  - apply step_create_invoice_page.
  - apply step_update_invoice_status.
Qed.

Lemma sample_history_settings :
  reachable env_mail_ok sample_lib db_one_draft db_new_address.
Proof.
  unfold db_new_address. eapply reachable_step; [apply reachable_here|].
  apply step_update_settings. right. left. reflexivity.
Qed.

Lemma db_one_draft_unique : invoices_unique db_one_draft.
Proof. split; distinct. Qed.

Lemma db_one_draft_attached : items_attached db_one_draft.
Proof. intros it []. Qed.

Lemma reachable_invoices_unique_witness :
  invoices_unique db_one_draft /\
  reachable env_mail_ok sample_lib db_one_draft db_then_deleted /\
  invoices_unique db_then_deleted.
Proof.
  split; [exact db_one_draft_unique|]. split; [exact sample_history|].
  exact (reachable_invoices_unique db_one_draft_unique sample_history).
Defined.

Lemma reachable_statuses_valid_witness :
  statuses_valid db_one_draft /\
  reachable env_mail_ok sample_lib db_one_draft db_then_deleted /\
  statuses_valid db_then_deleted.
Proof.
  assert (H : statuses_valid db_one_draft) by (repeat constructor).
  split; [exact H|]. split; [exact sample_history|].
  exact (reachable_statuses_valid H sample_history).
Defined.

Lemma reachable_items_attached_witness :
  items_attached db_one_draft /\
  reachable env_mail_ok sample_lib db_one_draft db_then_deleted /\
  items_attached db_then_deleted.
Proof.
  split; [exact db_one_draft_attached|]. split; [exact sample_history|].
  exact (reachable_items_attached db_one_draft_attached sample_history).
Defined.

Lemma reachable_logs_extend_witness :
  reachable env_mail_ok sample_lib db_one_draft db_then_deleted /\
  logs_extend db_one_draft db_then_deleted.
Proof.
  split; [exact sample_history|]. exact (reachable_logs_extend sample_history).
Defined.

Lemma nothing_sent_without_mail_witness :
  mail_configured env_mail_down = false /\
  reachable env_mail_down sample_lib db_one_draft db_then_sent_offline /\
  no_new_sent db_one_draft db_then_sent_offline.
Proof.
  split; [reflexivity|]. split; [exact sample_history_offline|].
  exact (@nothing_sent_without_mail env_mail_down sample_lib _ _ eq_refl
           sample_history_offline).
Defined.

Lemma reachable_users_unique_witness :
  users_unique db_one_draft /\
  reachable env_mail_ok sample_lib db_one_draft db_new_address /\
  users_unique db_new_address.
Proof.
  assert (H : users_unique db_one_draft) by (split; distinct).
  split; [exact H|]. split; [exact sample_history_settings|].
  exact (reachable_users_unique H sample_history_settings).
Defined.


Lemma deleted_number_is_free_again_witness :
  (insert_invoice db_0042 (fun key => sample_invoice key "INV-202401-0043") =
     Ok (with_invoices db_0042
           [sample_invoice 1 "INV-202401-0042"; sample_invoice 2 "INV-202401-0043"],
         sample_invoice 2 "INV-202401-0043") /\
   User.is_admin user_usr = true) /\
  generate_invoice_number jan_2024
    (fst (delete_invoice
            (with_invoices db_0042
               [sample_invoice 1 "INV-202401-0042"; sample_invoice 2 "INV-202401-0043"])
            user_usr 2)) None None "INV" = Ok "INV-202401-0043".
Proof.
  split; [split; reflexivity|].
  pose proof (@deleted_number_is_free_again db_0042 _
                (fun key => sample_invoice key "INV-202401-0043") _ user_usr
                eq_refl eq_refl eq_refl eq_refl) as H.
  cbv zeta in H. destruct H as (_ & _ & H). rewrite H. reflexivity.
Defined.

Lemma delete_client_keeps_invoice_clients_witness :
  In monthly_template (invoices scenario_db) /\
  invoice_client (fst (delete_client scenario_db admin 1)) monthly_template =
    Some client_plain.
Proof.
  assert (H : In monthly_template (invoices scenario_db)) by (left; reflexivity).
  split; [exact H|].
  pose proof (@delete_client_keeps_invoice_clients scenario_db admin 1 monthly_template H)
    as K.
  cbv zeta in K. rewrite (proj2 K). reflexivity.
Defined.

Lemma invoice_pages_partition_witness :
  User.is_admin admin = true /\
  Permutation
    (listed (invoices_page db_mixed admin None None) ++
     listed (completed_invoices_page db_mixed admin None None))
    (invoices db_mixed).
Proof.
  split; [reflexivity|].
  pose proof (@invoice_pages_partition db_mixed admin None None eq_refl eq_refl) as H.
  cbv zeta in H. exact (proj1 H).
Defined.

Lemma status_filter_of_the_pages_witness :
  User.is_admin admin = true /\
  In (sample_invoice 1 "INV-202401-0001")
     (listed (completed_invoices_page db_mixed admin (Some "draft") None)).
Proof.
  split; [reflexivity|].
  assert (N : "draft" = "all" -> False) by discriminate.
  apply (proj1 (@status_filter_of_the_pages db_mixed admin "draft" None
                  (sample_invoice 1 "INV-202401-0001") eq_refl N)).
  split; [left; reflexivity|split; reflexivity].
Defined.


Lemma email_change_gives_access_witness :
  (In newcomer (users db_newcomer) /\ User.is_admin newcomer = false /\
   In (sample_invoice 1 "INV-202401-0001") (invoices db_newcomer) /\
   In client_plain (clients db_newcomer)) /\
  exists user' shown,
    In user' (users (fst (update_settings db_newcomer newcomer
                            (Some "billing@acme.example") None))) /\
    User.id user' = 3 /\
    invoice_detail_page
      (fst (update_settings db_newcomer newcomer (Some "billing@acme.example") None))
      user' 1 = Render "invoice_detail.html" shown.
Proof.
  assert (H1 : In newcomer (users db_newcomer)) by (right; left; reflexivity).
  assert (H2 : In (sample_invoice 1 "INV-202401-0001") (invoices db_newcomer))
    by (left; reflexivity).
  assert (H3 : In client_plain (clients db_newcomer)) by (left; reflexivity).
  assert (H4 : forall u, In u (users db_newcomer) ->
                         User.email u <> "billing@acme.example").
  { intros u [<-|[<-|[]]]; discriminate. }
  split; [repeat split; assumption|].
  destruct (@email_change_gives_access db_newcomer newcomer "billing@acme.example" None
              (sample_invoice 1 "INV-202401-0001") client_plain
              H1 eq_refl H4 H2 H3 eq_refl eq_refl)
    as (user' & shown & K1 & K2 & _ & K3 & _).
  exists user', shown. split; [exact K1|]. split; [exact K2|exact K3].
Defined.

Lemma create_invoice_page_all_or_nothing_witness :
  items_attached db_one_draft /\
  exists invoice items,
    invoices db_created = (invoices db_one_draft ++ [invoice])%list /\
    invoice_items db_created = (invoice_items db_one_draft ++ items)%list /\
    map InvoiceItem.description items = ["Service"] /\
    Invoice.subtotal invoice = py_sum (map InvoiceItem.amount items).
Proof.
  split; [exact db_one_draft_attached|].
  destruct (@create_invoice_page_all_or_nothing env_mail_ok sample_lib jan_2 jan_2 jan_2
              db_one_draft admin (sample_form None None) db_one_draft_attached)
    as [H|(invoice & items & H1 & H2 & _ & _ & _ & _ & H3 & H4 & _)].
  - exfalso. fold db_created in H.
    assert (L : List.length (invoices db_created) = List.length (invoices db_one_draft))
      by (rewrite H; reflexivity).
    vm_compute in L. discriminate.
  - exists invoice, items. fold db_created in H1, H2. repeat split; assumption.
Defined.

Lemma created_invoice_schedule_witness :
  create_invoice_page env_mail_ok sample_lib jan_2 jan_2 jan_2 db_one_draft admin
    (sample_form (Some "on") (Some "weekly")) =
  (fst (create_invoice_page env_mail_ok sample_lib jan_2 jan_2 jan_2 db_one_draft admin
          (sample_form (Some "on") (Some "weekly"))),
   Answer (Redirect "invoice_detail_page"
             [("success", "Recurring Invoice INV-202401-0002 started and first email sent!")])) /\
  exists invoice,
    invoices (fst (create_invoice_page env_mail_ok sample_lib jan_2 jan_2 jan_2
                     db_one_draft admin (sample_form (Some "on") (Some "weekly")))) =
      (invoices db_one_draft ++ [invoice])%list /\
    Invoice.calculate_next_send_date (Invoice.set_next_send_date None invoice) =
      Ok (Invoice.next_send_date invoice).
Proof.
  assert (H : create_invoice_page env_mail_ok sample_lib jan_2 jan_2 jan_2 db_one_draft
                admin (sample_form (Some "on") (Some "weekly")) =
              (fst (create_invoice_page env_mail_ok sample_lib jan_2 jan_2 jan_2
                      db_one_draft admin (sample_form (Some "on") (Some "weekly"))),
               Answer (Redirect "invoice_detail_page"
                         [("success",
                           "Recurring Invoice INV-202401-0002 started and first email sent!")])))
    by (vm_compute; reflexivity).
  split; [exact H|].
  destruct (created_invoice_schedule _ _ _ _ _ _ _ _ H) as (invoice & H1 & H2 & _).
  exists invoice. split; assumption.
Defined.


Lemma dashboard_counts_witness :
  (User.is_admin admin = true /\ statuses_valid db_mixed) /\
  exists context,
    dashboard db_mixed admin = Render "index.html" context /\
    Dashboard.total_invoices context =
      Dashboard.draft_count context + Dashboard.sent_count context +
      Dashboard.paid_count context + 2.
Proof.
  assert (H : statuses_valid db_mixed) by (repeat constructor).
  split; [split; [reflexivity|exact H]|].
  destruct (@dashboard_counts db_mixed admin eq_refl H) as (context & H1 & H2 & _).
  exists context. split; [exact H1|]. rewrite H2.
  change (count_status db_mixed admin "overdue") with 1.
  change (count_status db_mixed admin "cancelled") with 1.
  rewrite <- Z.add_assoc. reflexivity.
Defined.



Lemma sample_lib_sound : key_text_sound sample_lib.
Proof.
  intros key text n H K. cbn in H. rewrite K in H. apply Z.eqb_eq in H. exact H.
Qed.

Lemma reachable_clients_attached_witness :
  (key_text_sound sample_lib /\ clients_attached db_one_draft /\
   reachable env_mail_ok sample_lib db_one_draft db_then_deleted) /\
  clients_attached db_then_deleted.
Proof.
  assert (H : clients_attached db_one_draft).
  { intros i [<-|[]]. exists client_plain. split; [left|]; reflexivity. }
  split; [split; [exact sample_lib_sound|split; [exact H|exact sample_history]]|].
  exact (reachable_clients_attached sample_lib_sound H sample_history).
Defined.

(* ===================================================================== *)
(** * Checks of the library models on known values *)
(* ===================================================================== *)

Example strftime_2024_01 : DateTime.strftime_Ym 63839664000000000 = "202401".
Proof. reflexivity. Qed.
Example strftime_2024_02_29 : DateTime.strftime_Ym 63844847999000000 = "202402".
Proof. reflexivity. Qed.
Example strftime_2024_12_31 : DateTime.strftime_Ym 63871200000000000 = "202412".
Proof. reflexivity. Qed.
Example strftime_2025 : DateTime.strftime_Ym 63871286400000000 = "202501".
Proof. reflexivity. Qed.
Example strftime_max : DateTime.strftime_Ym 315537897599999999 = "999912".
Proof. reflexivity. Qed.
Example strftime_2000 : DateTime.strftime_Ym 63087379200000000 = "200002".
Proof. reflexivity. Qed.
Example strftime_1900 : DateTime.strftime_Ym 59931705600000000 = "190003".
Proof. reflexivity. Qed.
Example strftime_2026 : DateTime.strftime_Ym 63929296800000000 = "202611".
Proof. reflexivity. Qed.
Example py_int_ex : PyStr.py_int " 1_0 " = Some 10 /\ PyStr.py_int "0009" = Some 9
  /\ PyStr.py_int "1__0" = None /\ PyStr.py_int "" = None /\ PyStr.py_int "x1" = None.
Proof. repeat split; reflexivity. Qed.
Example fmt_ex : PyStr.format_04d 7 = "0007" /\ PyStr.format_04d 12345 = "12345"
  /\ PyStr.format_04d (-1) = "-001" /\ PyStr.format_04d 0 = "0000".
Proof. repeat split; reflexivity. Qed.
Example like_ex : Sql.like "INV-202401-%" "inv-202401-0001" = true
  /\ Sql.like "INV-202401-%" "INV-202402-0001" = false
  /\ Sql.like "A_-%" "AB-" = true.
Proof. repeat split; reflexivity. Qed.
Example seg_ex : PyStr.last_segment "INV-202401-0042" = "0042" /\ PyStr.last_segment "abc" = "abc".
Proof. repeat split; reflexivity. Qed.
